(** * smart-youtube-bot: quota ledger, response throttle, chat context and
    the polling orchestrator, embedded from the JavaScript sources.

    Conventions of the embedding.
    - Every JavaScript number that occurs here is an integer (costs, counters,
      millisecond timestamps); it is embedded as [Z].
    - [Date.now()] and [new Date()] are an explicit argument [now] (epoch
      milliseconds) of the method that reads the clock; one invocation reads
      one instant.
    - A method that mutates [this] takes the object and returns the new one.
    - Strings are byte strings; [toUpperCase] is the ASCII case map, the
      operation kinds being ASCII.  [toLowerCase] and [trim] are JavaScript's
      on ASCII text ([Js.isAscii]); a statement that depends on their value
      is made for such text.
    - Local time is the clock of the host.  [QuotaManager.getNextQuotaReset]
      takes it at a fixed offset [tz] from the epoch, as it is between two
      changes of the offset; [QuotaManager.checkQuotaResetIn] takes the
      midnight computed by the host as it comes.
    - A method that awaits the transport is run with the answer in one step
      in [Bot] and [Session], and task by task in [Loop]. *)

From Stdlib Require Import ZArith Lia String Ascii List Bool.
From stdpp Require Import base option list gmap strings.

Local Open Scope string_scope.
Local Open Scope list_scope.
Local Open Scope Z_scope.

(** ** JavaScript helpers *)

Module Js.

(** [x || d] on numbers: [undefined] and [0] are falsy. *)
Definition orDefault (x : option Z) (d : Z) : Z :=
  match x with
  | Some v => if v =? 0 then d else v
  | None => d
  end.

(** Truthiness of an optional string ([null] and [''] are falsy). *)
Definition truthyStr (x : option string) : bool :=
  match x with
  | Some s => negb (String.eqb s "")
  | None => false
  end.

Definition upperAscii (c : ascii) : ascii :=
  let n := N_of_ascii c in
  if ((97 <=? n) && (n <=? 122))%N then ascii_of_N (n - 32) else c.

Fixpoint toUpperCase (s : string) : string :=
  match s with
  | EmptyString => EmptyString
  | String c r => String (upperAscii c) (toUpperCase r)
  end.

Fixpoint startsWith (p s : string) : bool :=
  match p, s with
  | EmptyString, _ => true
  | String a p', String b s' => Ascii.eqb a b && startsWith p' s'
  | String _ _, EmptyString => false
  end.

(** [s.includes(p)] *)
Fixpoint includes (s p : string) : bool :=
  startsWith p s ||
  match s with
  | EmptyString => false
  | String _ r => includes r p
  end.

(** [l.slice(-n)] for [n > 0]: the last [n] elements. *)
Definition sliceLast {A} (n : nat) (l : list A) : list A :=
  drop (length l - n)%nat l.

(** [toLowerCase] on ASCII text (see [isAscii] below): the letters A to Z
    are mapped, every other character is kept. *)
Definition lowerAscii (c : ascii) : ascii :=
  let n := N_of_ascii c in
  if ((65 <=? n) && (n <=? 90))%N then ascii_of_N (n + 32) else c.

Fixpoint toLowerCase (s : string) : string :=
  match s with
  | EmptyString => EmptyString
  | String c r => String (lowerAscii c) (toLowerCase r)
  end.

(** ASCII white space: tab, line feed, vertical tab, form feed, carriage
    return and space. *)
Definition isSpace (c : ascii) : bool :=
  let n := N_of_ascii c in
  ((9 <=? n) && (n <=? 13) || (n =? 32))%N.

Fixpoint trimStart (s : string) : string :=
  match s with
  | EmptyString => EmptyString
  | String c r => if isSpace c then trimStart r else s
  end.

Fixpoint trimEnd (s : string) : string :=
  match s with
  | EmptyString => EmptyString
  | String c r =>
      match trimEnd r with
      | EmptyString => if isSpace c then EmptyString else String c EmptyString
      | r' => String c r'
      end
  end.

(** [s.trim()] on ASCII text: the white space stripped is tab, line feed,
    vertical tab, form feed, carriage return and space. *)
Definition trim (s : string) : string := trimEnd (trimStart s).

(** [s.substring(n)] *)
Fixpoint substring (n : nat) (s : string) : string :=
  match n, s with
  | O, _ => s
  | S _, EmptyString => EmptyString
  | S k, String _ r => substring k r
  end.

(** [x || d] on strings: [undefined] and [''] are falsy. *)
Definition orDefaultStr (x : option string) (d : string) : string :=
  match x with
  | Some v => if String.eqb v "" then d else v
  | None => d
  end.

(** Text made of ASCII characters only.  On such text a byte is a UTF-16
    code unit, and [toLowerCase], [toUpperCase] and [trim] above are
    JavaScript's; on other text JavaScript also maps non-ASCII letters and
    strips Unicode white space. *)
Fixpoint isAscii (s : string) : bool :=
  match s with
  | EmptyString => true
  | String c r => (N_of_ascii c <? 128)%N && isAscii r
  end.

(** Whether the last character is white space. *)
Fixpoint endsWithSpace (s : string) : bool :=
  match s with
  | EmptyString => false
  | String c EmptyString => isSpace c
  | String _ r => endsWithSpace r
  end.

End Js.

(** ** config/constants.js *)

Module Constants.

Definition DAILY_QUOTA_LIMIT : Z := 10000.
Definition SAFE_QUOTA_LIMIT : Z := 9000.

(** [YOUTUBE_API.COSTS] *)
Definition COSTS : gmap string Z :=
  <["SEARCH" := 100]> (<["VIDEO_LIST" := 1]>
    (<["CHAT_LIST" := 5]> (<["CHAT_INSERT" := 50]> ∅))).

Inductive GameState :=
  UNKNOWN | PLAYING | WINNING | STRUGGLING | INTENSE | MENU.

(** [CHAT_MOODS] *)
Inductive ChatMood := NEUTRAL | EXCITED | FRUSTRATED | SUPPORTIVE | HYPED.

Definition moodString (m : ChatMood) : string :=
  match m with
  | NEUTRAL => "neutral"
  | EXCITED => "excited"
  | FRUSTRATED => "frustrated"
  | SUPPORTIVE => "supportive"
  | HYPED => "hyped"
  end.

(** [INTERVALS] *)
Definition STREAM_CHECK : Z := 45 * 60 * 1000.
Definition CONTEXT_CLEANUP : Z := 30 * 60 * 1000.
Definition KEEP_ALIVE : Z := 25 * 60 * 1000.
Definition MIN_POLL_INTERVAL : Z := 12000.
Definition MAX_BACKOFF : Z := 300000.

End Constants.

(** ** utils/quotaManager.js *)

Module QuotaManager.
Import Constants.

Record Entry := mkEntry {
  timestamp : Z;
  operation : string;
  cost : Z;
  success : bool
}.

Record t := mk {
  dailyQuotaUsed : Z;
  quotaResetTime : Z;
  quotaHistory : list Entry
}.

Definition DAY_MS : Z := 86400000.

(** [getNextQuotaReset]: midnight at the start of tomorrow, local time.
    Local time is epoch time plus a fixed offset [tz]; where the offset of
    the host changes between [now] and that midnight, the host's midnight is
    the one of [checkQuotaResetIn] below. *)
Definition getNextQuotaReset (tz now : Z) : Z :=
  ((now + tz) / DAY_MS + 1) * DAY_MS - tz.

(** [constructor] *)
Definition new (tz now : Z) : t :=
  mk 0 (getNextQuotaReset tz now) [].

Definition checkQuotaReset (tz : Z) (q : t) (now : Z) : t :=
  if quotaResetTime q <=? now
  then mk 0 (getNextQuotaReset tz now) []
  else q.

(** [constants.YOUTUBE_API.COSTS[operationType.toUpperCase()] || 1] *)
Definition costOf (operationType : string) : Z :=
  Js.orDefault (COSTS !! Js.toUpperCase operationType) 1.

Definition canMakeApiCall (tz : Z) (q : t) (now : Z) (operationType : string)
  : bool * t :=
  let q' := checkQuotaReset tz q now in
  let cost := costOf operationType in
  let projectedUsage := dailyQuotaUsed q' + cost in
  if SAFE_QUOTA_LIMIT <? projectedUsage then (false, q') else (true, q').

Definition trimHistory (h : list Entry) : list Entry :=
  if (100 <? length h)%nat then Js.sliceLast 100 h else h.

Definition trackApiCall (q : t) (now : Z) (operationType : string)
    (success : bool) : t :=
  let cost := costOf operationType in
  if success
  then mk (dailyQuotaUsed q + cost) (quotaResetTime q)
          (trimHistory (quotaHistory q ++ [mkEntry now operationType cost true]))
  else mk (dailyQuotaUsed q) (quotaResetTime q)
          (trimHistory (quotaHistory q ++ [mkEntry now operationType 0 false])).

Definition estimateRemainingCalls (q : t) (operationType : string) : Z :=
  (SAFE_QUOTA_LIMIT - dailyQuotaUsed q) / costOf operationType.

(** *** Call sequences on one ledger *)

Inductive Call :=
| Admit (now : Z) (operationType : string)
| Record_ (now : Z) (operationType : string) (success : bool)
| Sweep (now : Z).

Definition step (tz : Z) (q : t) (c : Call) : t :=
  match c with
  | Admit now op => snd (canMakeApiCall tz q now op)
  | Record_ now op ok => trackApiCall q now op ok
  | Sweep now => checkQuotaReset tz q now
  end.

Definition run (tz : Z) (q : t) (cs : list Call) : t :=
  foldl (step tz) q cs.

(** The calling discipline of the services: a successful record of an
    operation follows an admission of the same kind that answered [true],
    with no other charge in between.  [admitted] lists the kinds admitted
    since the last charge. *)
Definition kind (operationType : string) : string :=
  Js.toUpperCase operationType.

Fixpoint disciplined (tz : Z) (q : t) (admitted : list string)
    (cs : list Call) : bool :=
  match cs with
  | [] => true
  | Admit now op :: r =>
      let '(ok, q') := canMakeApiCall tz q now op in
      disciplined tz q' (if ok then kind op :: admitted else admitted) r
  | Record_ now op true :: r =>
      bool_decide (kind op ∈ admitted) &&
      disciplined tz (trackApiCall q now op true) [] r
  | Record_ now op false :: r =>
      disciplined tz (trackApiCall q now op false) admitted r
  | Sweep now :: r =>
      disciplined tz (checkQuotaReset tz q now) admitted r
  end.

(** The invariant carried along a disciplined call sequence. *)
Definition safe (q : t) (admitted : list string) : Prop :=
  0 ≤ dailyQuotaUsed q ≤ SAFE_QUOTA_LIMIT ∧
  ∀ op, kind op ∈ admitted → dailyQuotaUsed q + costOf op ≤ SAFE_QUOTA_LIMIT.

(** The condition in the words of the specification: each successful record
    is preceded by an admission of the same kind that answered [true], and
    every admission serves one record.  [unused] lists the admissions that
    no record has used yet. *)
Fixpoint useOne (k : string) (unused : list string) : list string :=
  match unused with
  | [] => []
  | k' :: r => if String.eqb k k' then r else k' :: useOne k r
  end.

Fixpoint precededByAdmit (tz : Z) (q : t) (unused : list string)
    (cs : list Call) : bool :=
  match cs with
  | [] => true
  | Admit now op :: r =>
      let '(ok, q') := canMakeApiCall tz q now op in
      precededByAdmit tz q' (if ok then kind op :: unused else unused) r
  | Record_ now op true :: r =>
      bool_decide (kind op ∈ unused) &&
      precededByAdmit tz (trackApiCall q now op true) (useOne (kind op) unused) r
  | Record_ now op false :: r =>
      precededByAdmit tz (trackApiCall q now op false) unused r
  | Sweep now :: r =>
      precededByAdmit tz (checkQuotaReset tz q now) unused r
  end.

(** [checkQuotaReset] in any time zone of the host.  [nextMidnight now] is
    what [getNextQuotaReset] returns at [now]: [setDate(getDate() + 1)] and
    [setHours(0, 0, 0, 0)] on the local calendar, which under daylight
    saving is not at a fixed offset from the epoch. *)
Definition checkQuotaResetIn (nextMidnight : Z → Z) (q : t) (now : Z) : t :=
  if quotaResetTime q <=? now
  then mk 0 (nextMidnight now) []
  else q.

(** [getQuotaHistory]: the last 20 operations. *)
Definition getQuotaHistory (q : t) : list Entry := Js.sliceLast 20 (quotaHistory q).

(** The units the entries of a history account for. *)
Definition historyCost (h : list Entry) : Z := foldr (λ e acc, cost e + acc) 0 h.

(** [k] successful calls of one kind recorded at one instant. *)
Fixpoint spend (q : t) (now : Z) (operationType : string) (k : nat) : t :=
  match k with
  | O => q
  | S k' => trackApiCall (spend q now operationType k') now operationType true
  end.

(** What the history says about the counter. *)
Definition accounted (q : t) : Prop :=
  Forall (λ e, 0 ≤ cost e) (quotaHistory q) ∧
  (length (quotaHistory q) ≤ 100)%nat ∧
  historyCost (quotaHistory q) ≤ dailyQuotaUsed q ∧
  ((length (quotaHistory q) < 100)%nat →
   historyCost (quotaHistory q) = dailyQuotaUsed q).

End QuotaManager.

(** ** utils/rateLimiter.js *)

Module RateLimiter.

(** The [config] object handed to the constructor ([Config.getRateLimits]). *)
Record Config := mkConfig {
  cfgMaxResponsesPerHour : option Z;
  cfgGlobalCooldown : option Z;
  cfgUserCooldown : option Z
}.

Record t := mk {
  maxResponsesPerHour : Z;
  globalCooldown : Z;
  userCooldown : Z;
  lastGlobalResponse : Z;
  userResponses : gmap string Z;
  hourlyResponses : list Z
}.

(** [constructor] *)
Definition new (config : Config) : t :=
  mk (Js.orDefault (cfgMaxResponsesPerHour config) 30)
     (Js.orDefault (cfgGlobalCooldown config) 8000)
     (Js.orDefault (cfgUserCooldown config) 30000)
     0 ∅ [].

Definition defaultConfig : Config := mkConfig None None None.

Inductive Reason := global_cooldown | hourly_limit | user_cooldown.

(** The object [{ allowed, reason }] returned by [canRespond]. *)
Record Verdict := mkVerdict {
  allowed : bool;
  reason : option Reason
}.

Definition withHourly (r : t) (h : list Z) : t :=
  mk (maxResponsesPerHour r) (globalCooldown r) (userCooldown r)
     (lastGlobalResponse r) (userResponses r) h.

Definition inLastHour (now time : Z) : bool := now - 3600000 <? time.

Definition getHourlyResponseCount (r : t) (now : Z) : Z * t :=
  let h := List.filter (inLastHour now) (hourlyResponses r) in
  (Z.of_nat (length h), withHourly r h).

Definition canRespond (r : t) (now : Z) (userId : string) : Verdict * t :=
  if now - lastGlobalResponse r <? globalCooldown r
  then (mkVerdict false (Some global_cooldown), r)
  else
    let '(count, r1) := getHourlyResponseCount r now in
    if maxResponsesPerHour r1 <=? count
    then (mkVerdict false (Some hourly_limit), r1)
    else
      match userResponses r1 !! userId with
      | Some lastUserResponse =>
          if negb (lastUserResponse =? 0)
             && (now - lastUserResponse <? userCooldown r1)
          then (mkVerdict false (Some user_cooldown), r1)
          else (mkVerdict true None, r1)
      | None => (mkVerdict true None, r1)
      end.

Definition recordResponse (r : t) (now : Z) (userId : string) : t :=
  mk (maxResponsesPerHour r) (globalCooldown r) (userCooldown r)
     now (<[userId := now]> (userResponses r)) (hourlyResponses r ++ [now]).

Definition cleanup (r : t) (now : Z) : t :=
  let oneHourAgo := now - 3600000 in
  mk (maxResponsesPerHour r) (globalCooldown r) (userCooldown r)
     (lastGlobalResponse r)
     (filter (λ kv : string * Z, ¬ (kv.2 < oneHourAgo)) (userResponses r))
     (List.filter (inLastHour now) (hourlyResponses r)).

Definition reset (r : t) : t :=
  mk (maxResponsesPerHour r) (globalCooldown r) (userCooldown r) 0 ∅ [].

(** Replies recorded one after the other, each at its own instant. *)
Definition recordAll (r : t) (replies : list (Z * string)) : t :=
  foldl (λ s p, recordResponse s p.1 p.2) r replies.

(** Checks made one after the other at one instant. *)
Definition checkAll (r : t) (now : Z) (users : list string) : t :=
  foldl (λ s u, snd (canRespond s now u)) r users.

(** The object returned by [getStats]. *)
Record Stats := mkStats {
  statHourlyResponses : Z;
  statMaxHourlyResponses : Z;
  statActiveUsers : Z;
  statGlobalCooldown : Z;
  statUserCooldown : Z
}.

Definition getStats (r : t) (now : Z) : Stats * t :=
  let '(count, r1) := getHourlyResponseCount r now in
  (mkStats count (maxResponsesPerHour r1) (Z.of_nat (size (userResponses r1)))
           (globalCooldown r1) (userCooldown r1), r1).

(** The instant of the latest reply to [userId] in a list of replies. *)
Fixpoint lastReplyTo (userId : string) (replies : list (Z * string)) : option Z :=
  match replies with
  | [] => None
  | p :: rest =>
      match lastReplyTo userId rest with
      | Some later => Some later
      | None => if String.eqb p.2 userId then Some p.1 else None
      end
  end.

End RateLimiter.

(** ** bot/SmartYouTubeChatBot.js and services/YouTubeService.js *)

Module Bot.
Import Constants.

(** [analysis] as far as the orchestrator reads it. *)
Record Analysis := mkAnalysis {
  sentiment : string;
  intent : string;
  gameRelated : bool
}.

(** The [data] argument of [updateContext]. *)
Inductive EventData :=
| MessageData (author text : string) (analysis : option Analysis)
| StreamInfo (videoId title : string).

Record HistoryMessage := mkHistoryMessage {
  hmTimestamp : Z;
  hmAuthor : string;
  hmSentiment : string;
  hmIntent : string;
  hmGameRelated : bool
}.

Record ContextEvent := mkContextEvent {
  evTimestamp : Z;
  evType : string;
  evData : EventData
}.

Record Context := mkContext {
  currentGame : option string;
  gameState : GameState;
  chatMood : ChatMood;
  streamerMood : string;
  messageHistory : list HistoryMessage;
  topicHistory : list string;
  recentEvents : list ContextEvent
}.

Record State := mkState {
  isRunning : bool;
  isMonitoring : bool;
  videoId : option string;
  liveChatId : option string;
  nextPageToken : option string;
  consecutiveErrors : Z;
  maxConsecutiveErrors : Z;
  lastResponseTime : Z;
  startTime : Z
}.

(** The bot object: its state, its context and the components the
    orchestrator drives.  [canSendMessages] is
    [youtubeService.canSendMessages()], fixed by the configuration. *)
Record t := mk {
  state : State;
  context : Context;
  rateLimiter : RateLimiter.t;
  quotaManager : QuotaManager.t;
  canSendMessages : bool
}.

Definition initializeState (now : Z) : State :=
  mkState false false None None None 0 5 0 now.

Definition initializeContext : Context :=
  mkContext None UNKNOWN NEUTRAL (moodString NEUTRAL) [] [] [].

(** [constructor] *)
Definition new (tz now : Z) (limits : RateLimiter.Config) (oauth : bool) : t :=
  mk (initializeState now) initializeContext (RateLimiter.new limits)
     (QuotaManager.new tz now) oauth.

Definition withState (b : t) (s : State) : t :=
  mk s (context b) (rateLimiter b) (quotaManager b) (canSendMessages b).

Definition withContext (b : t) (c : Context) : t :=
  mk (state b) c (rateLimiter b) (quotaManager b) (canSendMessages b).

Definition withQuota (b : t) (q : QuotaManager.t) : t :=
  mk (state b) (context b) (rateLimiter b) q (canSendMessages b).

(** [state.consecutiveErrors = n] *)
Definition setErrors (s : State) (n : Z) : State :=
  mkState (isRunning s) (isMonitoring s) (videoId s) (liveChatId s)
          (nextPageToken s) n (maxConsecutiveErrors s) (lastResponseTime s)
          (startTime s).

(** [state.isRunning = false; state.isMonitoring = false] *)
Definition setStopped (s : State) : State :=
  mkState false false (videoId s) (liveChatId s) (nextPageToken s)
          (consecutiveErrors s) (maxConsecutiveErrors s) (lastResponseTime s)
          (startTime s).

(** *** Context accumulator *)

Definition countSentiment (label : string) (l : list string) : Z :=
  Z.of_nat (length (List.filter (String.eqb label) l)).

(** The branch of [updateChatMood] on the two counts. *)
Definition moodOf (recentSentiments : list string) : ChatMood :=
  let positiveCount := countSentiment "positive" recentSentiments in
  let negativeCount := countSentiment "negative" recentSentiments in
  if 6 <=? positiveCount then EXCITED
  else if 6 <=? negativeCount then FRUSTRATED
  else if 4 <=? positiveCount then SUPPORTIVE
  else NEUTRAL.

(** [updateChatMood(sentiment)]: the argument is not read by the body. *)
Definition updateChatMood (c : Context) (sentiment : string) : Context :=
  let recentSentiments := map hmSentiment (Js.sliceLast 10 (messageHistory c)) in
  mkContext (currentGame c) (gameState c) (moodOf recentSentiments)
            (streamerMood c) (messageHistory c) (topicHistory c)
            (recentEvents c).

Definition capTo {A} (n : nat) (l : list A) : list A :=
  if (n <? length l)%nat then Js.sliceLast n l else l.

Definition pushEvent (c : Context) (e : ContextEvent) : Context :=
  mkContext (currentGame c) (gameState c) (chatMood c) (streamerMood c)
            (messageHistory c) (topicHistory c)
            (capTo 50 (recentEvents c ++ [e])).

Definition pushMessage (c : Context) (m : HistoryMessage) : Context :=
  mkContext (currentGame c) (gameState c) (chatMood c) (streamerMood c)
            (capTo 100 (messageHistory c ++ [m])) (topicHistory c)
            (recentEvents c).

Definition updateContext (c : Context) (now : Z) (eventType : string)
    (data : EventData) : Context :=
  let c1 := pushEvent c (mkContextEvent now eventType data) in
  match data with
  | MessageData author _ (Some analysis) =>
      if String.eqb eventType "messageReceived"
      then
        let c2 := updateChatMood c1 (sentiment analysis) in
        pushMessage c2 (mkHistoryMessage now author (sentiment analysis)
                          (intent analysis) (gameRelated analysis))
      else c1
  | _ => c1
  end.

Definition cleanupContext (c : Context) (now : Z) : Context :=
  let oneHourAgo := now - 3600000 in
  mkContext (currentGame c) (gameState c) (chatMood c) (streamerMood c)
            (List.filter (λ msg, oneHourAgo <? hmTimestamp msg) (messageHistory c))
            (topicHistory c)
            (List.filter (λ event, oneHourAgo <? evTimestamp event) (recentEvents c)).

(** [cleanup]: session identifiers and the derived context are reset. *)
Definition cleanup (b : t) : t :=
  let s := state b in
  let c := context b in
  mk (mkState false (isMonitoring s) None None None 0
              (maxConsecutiveErrors s) (lastResponseTime s) (startTime s))
     (mkContext None UNKNOWN NEUTRAL (streamerMood c) (messageHistory c)
                (topicHistory c) (recentEvents c))
     (rateLimiter b) (quotaManager b) (canSendMessages b).

(** The message recorded by [handleMessageReceived] through
    [updateContext('messageReceived', { author, text, analysis })]. *)
Definition recordMessage (c : Context) (now : Z) (author text : string)
    (analysis : Analysis) : Context :=
  updateContext c now "messageReceived" (MessageData author text (Some analysis)).

(** *** Effects

    What a method hands to the runtime or to a collaborator, in the order in
    which the method issues it. *)

Record ChatMessage := mkChatMessage {
  authorDisplayName : option string;
  displayMessage : option string
}.

Inductive Effect :=
| SetTimeoutPoll (delay : Z)
| SetTimeoutExit (delay : Z)
| SetTimeoutStartMonitoring (delay : Z)
| EmitMessageReceived (message : ChatMessage)
| EmitStreamEnded
| EmitBotStopped
| ClearIntervals
| ApiChatList (liveChatId pageToken : option string)
| ApiChatInsert (liveChatId : option string) (messageText : string)
| WebServerStop.

(** Answer of the chat transport to [liveChatMessages.list]. *)
Inductive ListOutcome :=
| ListOk (messages : list ChatMessage) (nextPageToken : option string)
         (pollingIntervalMillis : option Z)
| ListErr (message : string).

(** Answer of the chat transport to [liveChatMessages.insert]:
    [None] on success, the error message otherwise. *)
Definition InsertOutcome := option string.

(** [YouTubeService.getChatMessages] *)
Definition getChatMessages (tz : Z) (q : QuotaManager.t) (now : Z)
    (chatId pageToken : option string) (api : ListOutcome)
    : ListOutcome * QuotaManager.t * list Effect :=
  let '(ok, q1) := QuotaManager.canMakeApiCall tz q now "CHAT_LIST" in
  if negb ok
  then (ListErr "Quota limit reached for chat messages", q1, [])
  else
    match api with
    | ListOk messages token interval =>
        (api, QuotaManager.trackApiCall q1 now "CHAT_LIST" true,
         [ApiChatList chatId pageToken])
    | ListErr message =>
        (api, QuotaManager.trackApiCall q1 now "CHAT_LIST" false,
         [ApiChatList chatId pageToken])
    end.

(** [YouTubeService.sendMessage]; the result is the error thrown, if any. *)
Definition sendMessage (tz : Z) (q : QuotaManager.t) (now : Z) (canSend : bool)
    (chatId : option string) (messageText : string) (api : InsertOutcome)
    : option string * QuotaManager.t * list Effect :=
  let '(ok, q1) := QuotaManager.canMakeApiCall tz q now "CHAT_INSERT" in
  if negb ok
  then (Some "Quota limit reached for sending messages", q1, [])
  else if negb canSend
  then (Some "OAuth tokens not configured for message sending", q1, [])
  else
    match api with
    | None =>
        (None, QuotaManager.trackApiCall q1 now "CHAT_INSERT" true,
         [ApiChatInsert chatId messageText])
    | Some message =>
        (Some message, QuotaManager.trackApiCall q1 now "CHAT_INSERT" false,
         [ApiChatInsert chatId messageText])
    end.

Definition farewellText : string :=
  "🤖 Bot going offline. Thanks for the great stream! 👋".

(** [gracefulShutdown].  The method suspends at its first [await]; what it
    issues before that point is the first list, what its continuation issues
    is the second.  The returned bot is the one left by the whole method. *)
Definition gracefulShutdown (tz : Z) (b : t) (now : Z) (farewell : InsertOutcome)
    : t * list Effect * list Effect :=
  let s' := setStopped (state b) in
  let b1 := withState b s' in
  if Js.truthyStr (liveChatId s') && canSendMessages b1
  then
    let '(_, q1, sent) :=
      sendMessage tz (quotaManager b1) now (canSendMessages b1)
                  (liveChatId s') farewellText farewell in
    (withQuota b1 q1, ClearIntervals :: sent,
     [WebServerStop; EmitBotStopped; SetTimeoutExit 2000])
  else
    (b1, [ClearIntervals; WebServerStop], [EmitBotStopped; SetTimeoutExit 2000]).

(** [stop] *)
Definition stop := gracefulShutdown.

(** [handleError]: the two effect lists are those of [stop], which is
    called without [await]. *)
Definition handleError (tz : Z) (b : t) (now : Z) (farewell : InsertOutcome)
    : t * list Effect * list Effect :=
  let s' := setErrors (state b) (consecutiveErrors (state b) + 1) in
  let b1 := withState b s' in
  if maxConsecutiveErrors s' <=? consecutiveErrors s'
  then stop tz b1 now farewell
  else (b1, [], []).

(** [handleStreamEnded], the listener of ['streamEnded']. *)
Definition handleStreamEnded (b : t) : t := cleanup b.

(** [Math.min(MIN_POLL_INTERVAL * Math.pow(2, consecutiveErrors), MAX_BACKOFF)] *)
Definition backoffTime (errors : Z) : Z :=
  Z.min (MIN_POLL_INTERVAL * 2 ^ errors) MAX_BACKOFF.

(** [Math.max(result.pollingIntervalMillis || 15000, MIN_POLL_INTERVAL)] *)
Definition pollInterval (pollingIntervalMillis : option Z) : Z :=
  Z.max (Js.orDefault pollingIntervalMillis 15000) MIN_POLL_INTERVAL.

Definition isTerminal (message : string) : bool :=
  Js.includes message "disabled" || Js.includes message "not found".

(** [pollMessages].  [api] is the transport's answer should the list request
    be issued, [farewell] its answer should a farewell be sent.  The
    listeners of ['messageReceived'] are not run here: each dispatch is
    logged as [EmitMessageReceived]. *)
Definition pollMessages (tz : Z) (b : t) (now : Z) (api : ListOutcome)
    (farewell : InsertOutcome) : t * list Effect :=
  let s := state b in
  if negb (isRunning s) || negb (Js.truthyStr (liveChatId s))
  then (b, [])
  else
    let '(ok, q1) := QuotaManager.canMakeApiCall tz (quotaManager b) now "CHAT_LIST" in
    if negb ok
    then (withQuota b q1, [SetTimeoutPoll 60000])
    else
      let '(result, q2, issued) :=
        getChatMessages tz q1 now (liveChatId s) (nextPageToken s) api in
      let b2 := withQuota b q2 in
      match result with
      | ListOk messages token interval =>
          let s' := mkState (isRunning s) (isMonitoring s) (videoId s)
                            (liveChatId s) token 0 (maxConsecutiveErrors s)
                            (lastResponseTime s) (startTime s) in
          (withState b2 s',
           issued ++ map EmitMessageReceived messages
                  ++ [SetTimeoutPoll (pollInterval interval)])
      | ListErr message =>
          let '(b3, begun, resumed) := handleError tz b2 now farewell in
          if isTerminal message
          then (handleStreamEnded b3, issued ++ begun ++ [EmitStreamEnded] ++ resumed)
          else
            (b3, issued ++ begun
                   ++ [SetTimeoutPoll (backoffTime (consecutiveErrors (state b3)))]
                   ++ resumed)
      end.

(** [restart] *)
Definition restart (b : t) : t * list Effect :=
  (cleanup b, [ClearIntervals; SetTimeoutStartMonitoring 3000]).

(** The list request of a poll on [b]. *)
Definition request (b : t) : Effect :=
  ApiChatList (liveChatId (state b)) (nextPageToken (state b)).

(** The delays of the poll timers registered in an effect log. *)
Fixpoint pollTimers (l : list Effect) : list Z :=
  match l with
  | [] => []
  | SetTimeoutPoll d :: r => d :: pollTimers r
  | _ :: r => pollTimers r
  end.

(** What is issued after the intervals are cleared, that is after shutdown
    has begun. *)
Fixpoint afterShutdownBegins (l : list Effect) : list Effect :=
  match l with
  | [] => []
  | ClearIntervals :: r => r
  | _ :: r => afterShutdownBegins r
  end.

(** One poll attempt with the transport's answers. *)
Record PollInput := mkPollInput {
  piNow : Z;
  piList : ListOutcome;
  piFarewell : InsertOutcome
}.

(** The list request fails with an error that does not end the stream. *)
Definition isTransientFailure (i : PollInput) : bool :=
  match piList i with
  | ListErr message => negb (isTerminal message)
  | ListOk _ _ _ => false
  end.

(** Successive poll attempts, each fired by the timer of the one before;
    the log of every attempt is kept apart. *)
Fixpoint pollRun (tz : Z) (b : t) (inputs : list PollInput) : t * list (list Effect) :=
  match inputs with
  | [] => (b, [])
  | i :: r =>
      let '(b1, log) := pollMessages tz b (piNow i) (piList i) (piFarewell i) in
      let '(b2, logs) := pollRun tz b1 r in
      (b2, log :: logs)
  end.

(** *** Lifecycle events that touch the context *)

Inductive Op :=
| OpUpdateContext (now : Z) (eventType : string) (data : EventData)
| OpCleanupContext (now : Z)
| OpCleanup
| OpPoll (input : PollInput)
| OpShutdown (now : Z) (farewell : InsertOutcome)
| OpRestart
| OpSetStreamerMood (mood : string)
| OpSetGame (game : option string).

Definition setStreamerMood (c : Context) (mood : string) : Context :=
  mkContext (currentGame c) (gameState c) (chatMood c) mood
            (messageHistory c) (topicHistory c) (recentEvents c).

Definition setCurrentGame (c : Context) (game : option string) : Context :=
  mkContext game (gameState c) (chatMood c) (streamerMood c)
            (messageHistory c) (topicHistory c) (recentEvents c).

Definition apply (tz : Z) (b : t) (o : Op) : t :=
  match o with
  | OpUpdateContext now eventType data =>
      withContext b (updateContext (context b) now eventType data)
  | OpCleanupContext now => withContext b (cleanupContext (context b) now)
  | OpCleanup => cleanup b
  | OpPoll i => fst (pollMessages tz b (piNow i) (piList i) (piFarewell i))
  | OpShutdown now farewell => fst (fst (gracefulShutdown tz b now farewell))
  | OpRestart => fst (restart b)
  | OpSetStreamerMood mood => withContext b (setStreamerMood (context b) mood)
  | OpSetGame game => withContext b (setCurrentGame (context b) game)
  end.

Definition applyAll (tz : Z) (b : t) (ops : list Op) : t := foldl (apply tz) b ops.

(** *** Runs of context updates *)

(** One call [updateContext(eventType, data)] at an instant. *)
Record Update := mkUpdate {
  upNow : Z;
  upType : string;
  upData : EventData
}.

Definition updateAll (c : Context) (us : list Update) : Context :=
  foldl (λ c u, updateContext c (upNow u) (upType u) (upData u)) c us.

(** The event an update appends. *)
Definition asEvent (u : Update) : ContextEvent :=
  mkContextEvent (upNow u) (upType u) (upData u).

(** The history entry an update appends, if it is an analysed message. *)
Definition asMessage (u : Update) : option HistoryMessage :=
  match upData u with
  | MessageData author _ (Some analysis) =>
      if String.eqb (upType u) "messageReceived"
      then Some (mkHistoryMessage (upNow u) author (sentiment analysis)
                   (intent analysis) (gameRelated analysis))
      else None
  | _ => None
  end.

End Bot.

(** ** bot/OwnerDetection.js *)

Module OwnerDetection.

(** [PERMISSION_LEVELS] *)
Inductive PermissionLevel := USER | VERIFIED | MODERATOR | OWNER.

(** [message.authorDetails], as far as it is read. *)
Record AuthorDetails := mkAuthor {
  channelId : option string;
  isChatOwner : bool;
  isVerified : bool;
  displayName : option string
}.

(** The detector: the owner's channel id and the two lists parsed from the
    configuration. *)
Record t := mk {
  ownerChannelId : option string;
  ownerUsernames : list string;
  moderators : list string
}.

(** [author.displayName?.toLowerCase() || ''] *)
Definition lowerName (a : AuthorDetails) : string :=
  match displayName a with
  | Some n => Js.toLowerCase n
  | None => ""
  end.

(** [a === b] on two optional ids: two missing ids are equal. *)
Definition sameId (a b : option string) : bool := bool_decide (a = b).

Definition usernameMatch (d : t) (name : string) : bool :=
  existsb (λ username, String.eqb name username || Js.includes name username)
          (ownerUsernames d).

Definition moderatorMatch (d : t) (name : string) : bool :=
  existsb (λ moderator, String.eqb name moderator) (moderators d).

Definition nonEmpty {A} (l : list A) : bool := (0 <? length l)%nat.

Definition isOwnerOrAdmin (d : t) (authorDetails : option AuthorDetails) : bool :=
  match authorDetails with
  | None => false
  | Some author =>
      if sameId (channelId author) (ownerChannelId d) then true
      else if isChatOwner author then true
      else
        let name := lowerName author in
        if nonEmpty (ownerUsernames d) && usernameMatch d name then true
        else if nonEmpty (moderators d) && moderatorMatch d name then true
        else false
  end.

Definition getUserPermissionLevel (d : t) (authorDetails : option AuthorDetails)
    : PermissionLevel :=
  match authorDetails with
  | None => USER
  | Some author =>
      if sameId (channelId author) (ownerChannelId d) || isChatOwner author
      then OWNER
      else
        let name := lowerName author in
        if nonEmpty (ownerUsernames d) && usernameMatch d name then OWNER
        else if nonEmpty (moderators d) && moderatorMatch d name then MODERATOR
        else if isVerified author then VERIFIED
        else USER
  end.

(** [getDetectionMethods] *)
Definition getDetectionMethods (d : t) (authorDetails : option AuthorDetails)
    : list string :=
  match authorDetails with
  | None => []
  | Some author =>
      let name := lowerName author in
      (if sameId (channelId author) (ownerChannelId d) then ["channel_id"] else [])
      ++ (if isChatOwner author then ["chat_owner_flag"] else [])
      ++ (if usernameMatch d name then ["username_match"] else [])
      ++ (if moderatorMatch d name then ["moderator_list"] else [])
      ++ (if isVerified author then ["verified_channel"] else [])
  end.

End OwnerDetection.

(** ** bot/MessageAnalyzer.js: the decisions taken on a classified message *)

Module MessageAnalyzer.

(** The outcome of the pattern tests that [detectIntent] and [mentionsBot]
    read, taken on the lower-cased, trimmed text. *)
Record Patterns := mkPatterns {
  greetings : bool;
  questions : bool;
  bots : bool;
  commands : bool;
  encouragement : bool;
  reactions : bool
}.

Inductive Intent :=
  command | greeting | question | bot_mention | encouragementIntent
| reaction | comment.

Definition intentString (i : Intent) : string :=
  match i with
  | command => "command"
  | greeting => "greeting"
  | question => "question"
  | bot_mention => "bot_mention"
  | encouragementIntent => "encouragement"
  | reaction => "reaction"
  | comment => "comment"
  end.

Inductive Urgency := high | medium | low.

(** The values of [determineResponseType]: four [RESPONSE_TYPES] and
    ['general']. *)
Inductive ResponseType := GREETING | QUESTION | GAMEPLAY | REACTION | general.

(** The pattern [commands] is [/^!/]. *)
Definition isCommand (text : string) : bool := Js.startsWith "!" text.

Definition detectIntent (patterns : Patterns) : Intent :=
  if commands patterns then command
  else if greetings patterns then greeting
  else if questions patterns then question
  else if bots patterns then bot_mention
  else if encouragement patterns then encouragementIntent
  else if reactions patterns then reaction
  else comment.

(** [mentionsBot(text, context)] *)
Definition mentionsBot (patterns : Patterns) (text : string)
    (botName : option string) : bool :=
  if bots patterns then true
  else
    match botName with
    | Some name =>
        negb (String.eqb (Js.toLowerCase name) "")
        && Js.includes text (Js.toLowerCase name)
    | None => false
    end.

Definition isIntent (a b : Intent) : bool :=
  String.eqb (intentString a) (intentString b).

Definition requiresResponse (intent : Intent) (botMention streamerMention : bool)
    (sentiment : string) : bool :=
  if isIntent intent greeting then true
  else if isIntent intent question then true
  else if isIntent intent bot_mention then true
  else if botMention then true
  else if isIntent intent encouragementIntent && String.eqb sentiment "positive"
  then true
  else if streamerMention && isIntent intent question then true
  else false.

Definition determineUrgency (intent : Intent) (botMention requires : bool)
    : Urgency :=
  if isIntent intent question && botMention then high
  else if isIntent intent greeting || isIntent intent bot_mention then medium
  else if requires then medium
  else low.

Definition determineResponseType (intent : Intent) (gameRelated : bool)
    (sentiment : string) : ResponseType :=
  if isIntent intent greeting then GREETING
  else if isIntent intent question then QUESTION
  else if gameRelated then GAMEPLAY
  else if negb (String.eqb sentiment "neutral") then REACTION
  else general.

(** What [analyze] derives once the patterns, the sentiment and the two
    content tests are known. *)
Record Decisions := mkDecisions {
  intent : Intent;
  botMention : bool;
  requires : bool;
  urgency : Urgency;
  responseType : ResponseType
}.

Definition decide (patterns : Patterns) (text : string) (botName : option string)
    (sentiment : string) (gameRelated streamerMention : bool) : Decisions :=
  let i := detectIntent patterns in
  let m := mentionsBot patterns text botName in
  let r := requiresResponse i m streamerMention sentiment in
  mkDecisions i m r (determineUrgency i m r)
              (determineResponseType i gameRelated sentiment).

End MessageAnalyzer.

(** ** bot/SmartYouTubeChatBot.js: message handling and stream monitoring *)

Module Session.
Import Constants Bot.

(** What the handlers read of the configuration and of the detector. *)
Record Env := mkEnv {
  BOT_NAME : string;
  ownerDetection : OwnerDetection.t;
  STREAM_START_HOUR : Z;
  STREAM_END_HOUR : Z
}.

Definition withLimiter (b : t) (r : RateLimiter.t) : t :=
  mk (state b) (context b) r (quotaManager b) (canSendMessages b).

(** A chat message as [handleMessageReceived] reads it. *)
Record IncomingMessage := mkIncoming {
  authorDetails : option OwnerDetection.AuthorDetails;
  snippetText : option string
}.

(** What the collaborators answer for one message: the analysis, whether
    the random draw of [shouldRespond] falls below the response chance, and
    the text chosen by the response generator, if any. *)
Record Oracle := mkOracle {
  analysis : Analysis;
  requiresResponse : bool;
  lucky : bool;
  generated : option string
}.

(** The reply of an admin command, by the template that builds it; the text
    of every template but [ReplySay] is non-empty. *)
Inductive Reply :=
| ReplyShutdown
| ReplyRestart
| ReplyQuota
| ReplyStats
| ReplyDebug
| ReplySay (text : string)
| ReplyMood (mood : string)
| ReplyGame (game : string)
| ReplyStatus (level : OwnerDetection.PermissionLevel)
| ReplyPong (level : OwnerDetection.PermissionLevel) (now : Z)
| ReplyHelp (level : OwnerDetection.PermissionLevel)
| ReplyContext.

Definition replyTruthy (r : Reply) : bool :=
  match r with
  | ReplySay text => negb (String.eqb text "")
  | _ => true
  end.

(** What a send timer carries. *)
Inductive Outgoing :=
| AdminReply (reply : Reply)
| ChatReply (text : string).

(** [gracefulShutdown] up to its first [await]: the flags are lowered, the
    intervals cleared and, when a farewell is due, the ledger is asked and
    the insert request issued.  What the method does when the farewell is
    answered is [Loop.farewellAnswered]. *)
Definition beginShutdown (tz : Z) (b : t) (now : Z) : t * list Effect :=
  let s' := setStopped (state b) in
  let b1 := withState b s' in
  if Js.truthyStr (liveChatId s') && canSendMessages b1
  then
    let '(ok, q1) :=
      QuotaManager.canMakeApiCall tz (quotaManager b1) now "CHAT_INSERT" in
    (withQuota b1 q1,
     ClearIntervals
       :: (if ok then [ApiChatInsert (liveChatId s') farewellText] else []))
  else (b1, [ClearIntervals; WebServerStop]).

Definition isOwner (level : OwnerDetection.PermissionLevel) : bool :=
  match level with OwnerDetection.OWNER => true | _ => false end.

Definition isOwnerOrModerator (level : OwnerDetection.PermissionLevel) : bool :=
  match level with
  | OwnerDetection.OWNER | OwnerDetection.MODERATOR => true
  | _ => false
  end.

(** The owner-only part of [handleAdminCommand]; [None] when no owner
    command matches. *)
Definition ownerCommand (tz : Z) (b : t) (now : Z) (command : string)
    : option (Reply * t * list Effect) :=
  if String.eqb command "!shutdown"
  then let '(b1, begun) := beginShutdown tz b now in
       Some (ReplyShutdown, b1, begun)
  else if String.eqb command "!restart"
  then let '(b1, issued) := restart b in Some (ReplyRestart, b1, issued)
  else if String.eqb command "!quota" then Some (ReplyQuota, b, [])
  else if String.eqb command "!stats"
  then Some (ReplyStats,
             withLimiter b (snd (RateLimiter.getStats (rateLimiter b) now)), [])
  else if String.eqb command "!debug"
  then Some (ReplyDebug,
             withLimiter b (snd (RateLimiter.getStats (rateLimiter b) now)), [])
  else if Js.startsWith "!say " command
  then Some (ReplySay (Js.substring 5 command), b, [])
  else if Js.startsWith "!mood " command
  then Some (ReplyMood (Js.substring 6 command),
             withContext b (setStreamerMood (context b) (Js.substring 6 command)),
             [])
  else if Js.startsWith "!game " command
  then Some (ReplyGame (Js.substring 6 command),
             withContext b
               (setCurrentGame (context b) (Some (Js.substring 6 command))),
             [])
  else None.

(** The part of [handleAdminCommand] open to owners and moderators. *)
Definition moderatorCommand (level : OwnerDetection.PermissionLevel) (now : Z)
    (command : string) : option Reply :=
  if String.eqb command "!status" then Some (ReplyStatus level)
  else if String.eqb command "!ping" then Some (ReplyPong level now)
  else if String.eqb command "!help" then Some (ReplyHelp level)
  else if String.eqb command "!context" then Some ReplyContext
  else None.

Definition handleAdminCommand (e : Env) (tz : Z) (b : t) (now : Z)
    (text : string) (message : IncomingMessage)
    : option Reply * t * list Effect :=
  let command := Js.trim (Js.toLowerCase text) in
  let permissionLevel :=
    OwnerDetection.getUserPermissionLevel (ownerDetection e)
      (authorDetails message) in
  match (if isOwner permissionLevel then ownerCommand tz b now command else None)
  with
  | Some (reply, b1, issued) => (Some reply, b1, issued)
  | None =>
      if isOwnerOrModerator permissionLevel
      then (moderatorCommand permissionLevel now command, b, [])
      else (None, b, [])
  end.

(** [shouldRespond]; [lucky] is the outcome of
    [Math.random() < responseChance]. *)
Definition shouldRespond (requires lucky : bool) : bool :=
  if requires then true else lucky.

(** [sendResponse] up to the registration of the send timer; the boolean
    tells whether the timer is registered. *)
Definition sendResponse (tz : Z) (b : t) (now : Z) : t * bool :=
  let '(ok, q1) :=
    QuotaManager.canMakeApiCall tz (quotaManager b) now "CHAT_INSERT" in
  let b1 := withQuota b q1 in
  if negb ok then (b1, false)
  else if negb (canSendMessages b1) then (b1, false)
  else (b1, true).

(** [handleMessageReceived].  The result lists the effects issued and the
    reply handed to a send timer, if any. *)
Definition handleMessageReceived (e : Env) (tz : Z) (b : t) (now : Z)
    (message : IncomingMessage) (o : Oracle)
    : t * list Effect * option Outgoing :=
  let author :=
    Js.orDefaultStr
      (match authorDetails message with
       | Some a => OwnerDetection.displayName a
       | None => None
       end) "Unknown" in
  let text := Js.orDefaultStr (snippetText message) "" in
  if String.eqb author (BOT_NAME e) then (b, [], None)
  else
    let '(adminResponse, b1, issued) :=
      if OwnerDetection.isOwnerOrAdmin (ownerDetection e) (authorDetails message)
      then handleAdminCommand e tz b now text message
      else (None, b, []) in
    match (match adminResponse with
           | Some reply => if replyTruthy reply then Some reply else None
           | None => None
           end)
    with
    | Some reply =>
        let '(b2, timer) := sendResponse tz b1 now in
        (b2, issued, if timer then Some (AdminReply reply) else None)
    | None =>
        let '(rateLimitResult, limiter) :=
          RateLimiter.canRespond (rateLimiter b1) now author in
        let b2 := withLimiter b1 limiter in
        if negb (RateLimiter.allowed rateLimitResult) then (b2, issued, None)
        else
          let b3 :=
            withContext b2
              (updateContext (context b2) now "messageReceived"
                 (MessageData author text (Some (analysis o)))) in
          if shouldRespond (requiresResponse o) (lucky o)
          then
            match generated o with
            | Some response =>
                if negb (String.eqb response "")
                then
                  let b4 :=
                    withLimiter b3
                      (RateLimiter.recordResponse (rateLimiter b3) now author) in
                  let '(b5, timer) := sendResponse tz b4 now in
                  (b5, issued, if timer then Some (ChatReply response) else None)
                else (b3, issued, None)
            | None => (b3, issued, None)
            end
          else (b3, issued, None)
    end.

(** The callback of a send timer: the message is sent to the current chat,
    and a failure goes to [handleError]. *)
Definition deliverResponse (tz : Z) (b : t) (now : Z) (messageText : string)
    (api farewell : InsertOutcome) : t * list Effect :=
  let '(failure, q1, sent) :=
    sendMessage tz (quotaManager b) now (canSendMessages b)
                (liveChatId (state b)) messageText api in
  let b1 := withQuota b q1 in
  match failure with
  | None => (b1, sent)
  | Some _ =>
      let '(b2, begun, resumed) := handleError tz b1 now farewell in
      (b2, sent ++ begun ++ resumed)
  end.

(** *** Stream monitoring *)

Definition isStreamingTime (e : Env) (hour : Z) : bool :=
  if STREAM_START_HOUR e <=? STREAM_END_HOUR e
  then (STREAM_START_HOUR e <=? hour) && (hour <=? STREAM_END_HOUR e)
  else (STREAM_START_HOUR e <=? hour) || (hour <=? STREAM_END_HOUR e).

(** Answer of the transport to [search.list]: the live video, if any. *)
Inductive SearchOutcome :=
| SearchOk (stream : option (string * string))
| SearchErr (message : string).

(** Answer of the transport to [videos.list]: the active chat id, if any. *)
Inductive VideoOutcome :=
| VideoOk (activeLiveChatId : option string)
| VideoErr (message : string).

Inductive MonitorEffect :=
| ApiSearch
| ApiVideoList (videoId : option string)
| EmitStreamStarted (videoId title : string)
| EmitStreamEndedByProbe
| EmitChatConnected
| FromPoll (effect : Effect).

(** [YouTubeService.checkForLiveStream] *)
Definition checkForLiveStream (tz : Z) (q : QuotaManager.t) (now : Z)
    (api : SearchOutcome) : SearchOutcome * QuotaManager.t * list MonitorEffect :=
  let '(ok, q1) := QuotaManager.canMakeApiCall tz q now "SEARCH" in
  if negb ok
  then (SearchErr "Quota limit reached for stream search", q1, [])
  else
    match api with
    | SearchOk _ => (api, QuotaManager.trackApiCall q1 now "SEARCH" true, [ApiSearch])
    | SearchErr _ => (api, QuotaManager.trackApiCall q1 now "SEARCH" false, [ApiSearch])
    end.

(** [YouTubeService.getLiveChatId]; a missing or empty chat id is [null]. *)
Definition getLiveChatId (tz : Z) (q : QuotaManager.t) (now : Z)
    (video : option string) (api : VideoOutcome)
    : VideoOutcome * QuotaManager.t * list MonitorEffect :=
  let '(ok, q1) := QuotaManager.canMakeApiCall tz q now "VIDEO_LIST" in
  if negb ok
  then (VideoErr "Quota limit reached for video details", q1, [])
  else
    match api with
    | VideoOk chat =>
        (VideoOk (if Js.truthyStr chat then chat else None),
         QuotaManager.trackApiCall q1 now "VIDEO_LIST" true, [ApiVideoList video])
    | VideoErr _ =>
        (api, QuotaManager.trackApiCall q1 now "VIDEO_LIST" false,
         [ApiVideoList video])
    end.

Definition setVideoId (s : State) (v : option string) : State :=
  mkState (isRunning s) (isMonitoring s) v (liveChatId s) (nextPageToken s)
          (consecutiveErrors s) (maxConsecutiveErrors s) (lastResponseTime s)
          (startTime s).

(** [state.liveChatId = id; state.isRunning = true;
    state.consecutiveErrors = 0] *)
Definition setConnected (s : State) (chat : option string) : State :=
  mkState true (isMonitoring s) (videoId s) chat (nextPageToken s) 0
          (maxConsecutiveErrors s) (lastResponseTime s) (startTime s).

(** [checkForStream].  [hour] is the local hour, [api] the transport's
    answer should the search be issued, [detected] what the game detector
    makes of the title. *)
Definition checkForStream (e : Env) (tz : Z) (b : t) (now hour : Z)
    (api : SearchOutcome) (detected : option string)
    : bool * t * list MonitorEffect :=
  let '(ok, q1) := QuotaManager.canMakeApiCall tz (quotaManager b) now "SEARCH" in
  let b1 := withQuota b q1 in
  if negb ok then (false, b1, [])
  else if negb (isStreamingTime e hour) then (false, b1, [])
  else
    let '(result, q2, issued) := checkForLiveStream tz q1 now api in
    let b2 := withQuota b1 q2 in
    match result with
    | SearchOk (Some (video, title)) =>
        if negb (bool_decide (Some video = videoId (state b2)))
        then
          let b3 := withState b2 (setVideoId (state b2) (Some video)) in
          let b4 := withContext b3 (setCurrentGame (context b3) detected) in
          let b5 :=
            withContext b4
              (updateContext (context b4) now "streamStarted"
                 (StreamInfo video title)) in
          (true, b5, issued ++ [EmitStreamStarted video title])
        else (true, b2, issued)
    | SearchOk None =>
        if Js.truthyStr (videoId (state b2))
        then (false, cleanup (handleStreamEnded b2),
              issued ++ [EmitStreamEndedByProbe])
        else (false, b2, issued)
    | SearchErr _ =>
        (false,
         withState b2 (setErrors (state b2) (consecutiveErrors (state b2) + 1)),
         issued)
    end.

(** [connectToChat]; a successful connection starts polling at once, with
    [first] the transport's answers to that first poll. *)
Definition connectToChat (tz : Z) (b : t) (now : Z) (api : VideoOutcome)
    (first : PollInput) : t * list MonitorEffect :=
  let '(result, q1, issued) :=
    getLiveChatId tz (quotaManager b) now (videoId (state b)) api in
  let b1 := withQuota b q1 in
  match result with
  | VideoOk (Some chat) =>
      let b2 := withState b1 (setConnected (state b1) (Some chat)) in
      let '(b3, polled) :=
        pollMessages tz b2 now (piList first) (piFarewell first) in
      (b3, issued ++ [EmitChatConnected] ++ map FromPoll polled)
  | VideoOk None => (b1, issued)
  | VideoErr _ =>
      let '(b2, begun, resumed) := handleError tz b1 now (piFarewell first) in
      (b2, issued ++ map FromPoll (begun ++ resumed))
  end.

(** What the transport and the detector answer during one monitoring
    round. *)
Record Probe := mkProbe {
  prNow : Z;
  prHour : Z;
  prSearch : SearchOutcome;
  prDetected : option string;
  prVideo : VideoOutcome;
  prFirst : PollInput
}.

(** The first round of [startMonitoring]. *)
Definition startMonitoring (e : Env) (tz : Z) (b : t) (p : Probe)
    : t * list MonitorEffect :=
  let '(isStreaming, b1, probed) :=
    checkForStream e tz b (prNow p) (prHour p) (prSearch p) (prDetected p) in
  if isStreaming
  then let '(b2, connected) := connectToChat tz b1 (prNow p) (prVideo p) (prFirst p) in
       (b2, probed ++ connected)
  else (b1, probed).

(** The callback of the stream-check interval. *)
Definition monitorTick (e : Env) (tz : Z) (b : t) (p : Probe)
    : t * list MonitorEffect :=
  let '(isStreaming, b1, probed) :=
    checkForStream e tz b (prNow p) (prHour p) (prSearch p) (prDetected p) in
  if isStreaming && negb (isRunning (state b1))
  then let '(b2, connected) := connectToChat tz b1 (prNow p) (prVideo p) (prFirst p) in
       (b2, probed ++ connected)
  else (b1, probed).

(** *** Everything that can happen to a bot, one event at a time

    An event is a method run together with the answers to the requests it
    makes: these are the runs in which every request is answered before
    anything else happens.  [Loop] has the tasks one by one. *)

Inductive Event :=
| EvPoll (input : PollInput)
| EvMessage (now : Z) (message : IncomingMessage) (oracle : Oracle)
| EvDeliver (now : Z) (messageText : string) (api farewell : InsertOutcome)
| EvStart (probe : Probe)
| EvTick (probe : Probe)
| EvContextCleanup (now : Z)
| EvLimiterCleanup (now : Z)
| EvQuotaCheck (now : Z)
| EvShutdown (now : Z) (farewell : InsertOutcome)
| EvRestart.

Definition react (e : Env) (tz : Z) (b : t) (ev : Event) : t :=
  match ev with
  | EvPoll i => (pollMessages tz b (piNow i) (piList i) (piFarewell i)).1
  | EvMessage now message o => (handleMessageReceived e tz b now message o).1.1
  | EvDeliver now text api fw => (deliverResponse tz b now text api fw).1
  | EvStart p => (startMonitoring e tz b p).1
  | EvTick p => (monitorTick e tz b p).1
  | EvContextCleanup now => withContext b (cleanupContext (context b) now)
  | EvLimiterCleanup now =>
      withLimiter b (RateLimiter.cleanup (rateLimiter b) now)
  | EvQuotaCheck now =>
      withQuota b (QuotaManager.checkQuotaReset tz (quotaManager b) now)
  | EvShutdown now fw => (gracefulShutdown tz b now fw).1.1
  | EvRestart => (restart b).1
  end.

Definition reactAll (e : Env) (tz : Z) (b : t) (evs : list Event) : t :=
  foldl (react e tz) b evs.

(** [message.authorDetails?.displayName || 'Unknown'] *)
Definition authorName (message : IncomingMessage) : string :=
  Js.orDefaultStr
    (match authorDetails message with
     | Some a => OwnerDetection.displayName a
     | None => None
     end) "Unknown".

(** [message.snippet?.displayMessage || ''] *)
Definition messageText (message : IncomingMessage) : string :=
  Js.orDefaultStr (snippetText message) "".

Definition ledgerOk (q : QuotaManager.t) : Prop :=
  0 ≤ QuotaManager.dailyQuotaUsed q ≤ SAFE_QUOTA_LIMIT.

Definition contextOk (c : Context) : Prop :=
  (length (messageHistory c) ≤ 100)%nat ∧
  (length (recentEvents c) ≤ 50)%nat ∧
  chatMood c ≠ HYPED.

(** What holds of a bot whatever happens to it. *)
Definition wellFormed (b : t) : Prop :=
  0 ≤ QuotaManager.dailyQuotaUsed (quotaManager b) ≤ SAFE_QUOTA_LIMIT ∧
  0 ≤ consecutiveErrors (state b) ∧
  (length (messageHistory (context b)) ≤ 100)%nat ∧
  (length (recentEvents (context b)) ≤ 50)%nat ∧
  chatMood (context b) ≠ HYPED.

End Session.

(** ** The asynchronous methods, one task at a time

    [Session.react] runs a method and the request it makes as one step.  In
    the program a method of the service asks the ledger, hands its request to
    the transport and suspends at [await]; it charges the ledger when the
    answer arrives, and in between timers fire and other answers arrive.
    Here a step is one task of the event loop: a timer, a signal, or the
    answer to a request in flight, with everything the program runs from
    there until it waits for the transport again.  An [await] on a method
    that has not waited for the transport resumes in the same task, after the
    code that is running has returned.  A task reads the clock once. *)

Module Loop.
Import Constants Bot Session.

(** Who called [checkForStream]: [startMonitoring] itself, which connects
    whenever a stream is live, or the callback of its interval, which
    connects when the bot is not running. *)
Inductive Caller := ByStartMonitoring | ByInterval.

(** A request in flight, by the method that awaits its answer. *)
Inductive Pending :=
| AwaitSearch (caller : Caller)
| AwaitVideoList
| AwaitChatList
| AwaitReply
| AwaitFarewell.

(** The operation that the service records when the answer arrives. *)
Definition operationOf (p : Pending) : string :=
  match p with
  | AwaitSearch _ => "SEARCH"
  | AwaitVideoList => "VIDEO_LIST"
  | AwaitChatList => "CHAT_LIST"
  | AwaitReply | AwaitFarewell => "CHAT_INSERT"
  end.

(** The units that the requests in flight will be charged when they
    succeed. *)
Definition reserved (l : list Pending) : Z :=
  foldr (λ p acc, QuotaManager.costOf (operationOf p) + acc) 0 l.

(** The inserts among the effects of [gracefulShutdown]: its farewell. *)
Definition farewellsIn (issued : list Effect) : list Pending :=
  omap (λ x, match x with
             | ApiChatInsert _ _ => Some AwaitFarewell
             | _ => None
             end) issued.

(** [gracefulShutdown] up to the [await] inside the farewell's
    [sendMessage]. *)
Definition shutdownBegins (tz : Z) (b : t) (now : Z) : t * list Pending :=
  let '(b1, issued) := beginShutdown tz b now in
  (b1, farewellsIn issued).

(** The farewell is answered: [sendMessage] records the call; the rest of
    [gracefulShutdown] stops the web server, emits ['botStopped'] and
    schedules the exit. *)
Definition farewellAnswered (b : t) (now : Z) (api : InsertOutcome) : t :=
  withQuota b
    (QuotaManager.trackApiCall (quotaManager b) now "CHAT_INSERT"
       (bool_decide (api = None))).

(** [handleError]; [stop] is called without [await] and runs up to the
    farewell's [await]. *)
Definition handleErrorBegins (tz : Z) (b : t) (now : Z) : t * list Pending :=
  let s' := setErrors (state b) (consecutiveErrors (state b) + 1) in
  let b1 := withState b s' in
  if maxConsecutiveErrors s' <=? consecutiveErrors s'
  then shutdownBegins tz b1 now
  else (b1, []).

(** The [catch] block of [pollMessages]. *)
Definition pollFailed (tz : Z) (b : t) (now : Z) (message : string)
    : t * list Pending :=
  let '(b1, begun) := handleErrorBegins tz b now in
  if isTerminal message then (handleStreamEnded b1, begun) else (b1, begun).

(** [pollMessages] up to the [await] inside [getChatMessages]; the service
    asks the ledger a second time. *)
Definition pollBegins (tz : Z) (b : t) (now : Z) : t * list Pending :=
  let s := state b in
  if negb (isRunning s) || negb (Js.truthyStr (liveChatId s))
  then (b, [])
  else
    let '(ok, q1) := QuotaManager.canMakeApiCall tz (quotaManager b) now "CHAT_LIST" in
    if negb ok
    then (withQuota b q1, [])
    else
      let '(ok', q2) := QuotaManager.canMakeApiCall tz q1 now "CHAT_LIST" in
      if negb ok'
      then pollFailed tz (withQuota b q2) now "Quota limit reached for chat messages"
      else (withQuota b q2, [AwaitChatList]).

(** [handleMessageReceived] from the throttle check on: what the listener
    does when no admin reply is due. *)
Definition respond (tz : Z) (b : t) (now : Z) (author text : string) (o : Oracle)
    : t * option Outgoing :=
  let '(rateLimitResult, limiter) :=
    RateLimiter.canRespond (rateLimiter b) now author in
  let b2 := withLimiter b limiter in
  if negb (RateLimiter.allowed rateLimitResult) then (b2, None)
  else
    let b3 :=
      withContext b2
        (updateContext (context b2) now "messageReceived"
           (MessageData author text (Some (analysis o)))) in
    if shouldRespond (requiresResponse o) (lucky o)
    then
      match generated o with
      | Some response =>
          if negb (String.eqb response "")
          then
            let b4 :=
              withLimiter b3
                (RateLimiter.recordResponse (rateLimiter b3) now author) in
            let '(b5, timer) := sendResponse tz b4 now in
            (b5, if timer then Some (ChatReply response) else None)
          else (b3, None)
      | None => (b3, None)
      end
    else (b3, None).

(** A listener suspended on [await this.handleAdminCommand(...)], with the
    reply that the command has returned. *)
Record Suspended := mkSuspended {
  suMessage : IncomingMessage;
  suOracle : Oracle;
  suAdminResponse : option Reply
}.

(** [handleMessageReceived] up to its first [await].  For an admin that is
    the [await] on [handleAdminCommand], whose body has run; for any other
    author the listener runs to its end. *)
Definition listenerBegins (e : Env) (tz : Z) (b : t) (now : Z)
    (message : IncomingMessage) (o : Oracle)
    : t * list Pending * list Suspended :=
  if String.eqb (authorName message) (BOT_NAME e) then (b, [], [])
  else if OwnerDetection.isOwnerOrAdmin (ownerDetection e) (authorDetails message)
  then
    let '(adminResponse, b1, issued) :=
      handleAdminCommand e tz b now (messageText message) message in
    (b1, farewellsIn issued, [mkSuspended message o adminResponse])
  else
    ((respond tz b now (authorName message) (messageText message) o).1, [], []).

(** [handleMessageReceived] after [await this.handleAdminCommand(...)]. *)
Definition listenerResumes (tz : Z) (b : t) (now : Z) (l : Suspended) : t :=
  match (match suAdminResponse l with
         | Some reply => if replyTruthy reply then Some reply else None
         | None => None
         end)
  with
  | Some reply => (sendResponse tz b now).1
  | None =>
      (respond tz b now (authorName (suMessage l)) (messageText (suMessage l))
         (suOracle l)).1
  end.

(** [emit('messageReceived', message)] for each message of a poll. *)
Fixpoint dispatch (e : Env) (tz : Z) (b : t) (now : Z)
    (items : list (IncomingMessage * Oracle))
    : t * list Pending * list Suspended :=
  match items with
  | [] => (b, [], [])
  | (message, o) :: r =>
      let '(b1, begun, suspended) := listenerBegins e tz b now message o in
      let '(b2, begun', suspended') := dispatch e tz b1 now r in
      (b2, begun ++ begun', suspended ++ suspended')
  end.

(** Answer of the chat transport to [liveChatMessages.list], with the items
    as the listener reads them and what the collaborators make of each. *)
Inductive ChatListOutcome :=
| ChatListOk (items : list (IncomingMessage * Oracle))
             (nextPageToken : option string) (pollingIntervalMillis : option Z)
| ChatListErr (message : string).

(** The list request is answered: [getChatMessages] records the call, and
    [pollMessages] dispatches the messages, keeps the page token, resets
    the error counter and registers the next poll; the suspended listeners
    resume after that. *)
Definition listAnswered (e : Env) (tz : Z) (b : t) (now : Z)
    (api : ChatListOutcome) : t * list Pending :=
  match api with
  | ChatListOk items token interval =>
      let b1 :=
        withQuota b
          (QuotaManager.trackApiCall (quotaManager b) now "CHAT_LIST" true) in
      let '(b2, begun, suspended) := dispatch e tz b1 now items in
      let s := state b2 in
      let b3 :=
        withState b2
          (mkState (isRunning s) (isMonitoring s) (videoId s) (liveChatId s)
                   token 0 (maxConsecutiveErrors s) (lastResponseTime s)
                   (startTime s)) in
      (foldl (λ b l, listenerResumes tz b now l) b3 suspended, begun)
  | ChatListErr message =>
      pollFailed tz
        (withQuota b
           (QuotaManager.trackApiCall (quotaManager b) now "CHAT_LIST" false))
        now message
  end.

(** The callback of a send timer up to the [await] inside [sendMessage]. *)
Definition sendTimerFires (tz : Z) (b : t) (now : Z) : t * list Pending :=
  let '(ok, q1) := QuotaManager.canMakeApiCall tz (quotaManager b) now "CHAT_INSERT" in
  let b1 := withQuota b q1 in
  if negb ok then handleErrorBegins tz b1 now
  else if negb (canSendMessages b1) then handleErrorBegins tz b1 now
  else (b1, [AwaitReply]).

(** The insert of a reply is answered: [sendMessage] records the call, and
    a failure goes to [handleError]. *)
Definition replyAnswered (tz : Z) (b : t) (now : Z) (api : InsertOutcome)
    : t * list Pending :=
  match api with
  | None =>
      (withQuota b
         (QuotaManager.trackApiCall (quotaManager b) now "CHAT_INSERT" true), [])
  | Some _ =>
      handleErrorBegins tz
        (withQuota b
           (QuotaManager.trackApiCall (quotaManager b) now "CHAT_INSERT" false))
        now
  end.

(** [connectToChat] up to the [await] inside [getLiveChatId]. *)
Definition connectBegins (tz : Z) (b : t) (now : Z) : t * list Pending :=
  let '(ok, q1) := QuotaManager.canMakeApiCall tz (quotaManager b) now "VIDEO_LIST" in
  let b1 := withQuota b q1 in
  if negb ok then handleErrorBegins tz b1 now else (b1, [AwaitVideoList]).

(** The video request is answered: [getLiveChatId] records the call, and
    [connectToChat] attaches to the chat and starts polling. *)
Definition videoAnswered (tz : Z) (b : t) (now : Z) (api : VideoOutcome)
    : t * list Pending :=
  match api with
  | VideoOk chat =>
      let b1 :=
        withQuota b
          (QuotaManager.trackApiCall (quotaManager b) now "VIDEO_LIST" true) in
      if Js.truthyStr chat
      then pollBegins tz (withState b1 (setConnected (state b1) chat)) now
      else (b1, [])
  | VideoErr _ =>
      handleErrorBegins tz
        (withQuota b
           (QuotaManager.trackApiCall (quotaManager b) now "VIDEO_LIST" false))
        now
  end.

(** [checkForStream] up to the [await] inside [checkForLiveStream]; the
    service asks the ledger a second time, and its refusal is caught by
    [checkForStream]. *)
Definition streamCheckBegins (e : Env) (tz : Z) (b : t) (now hour : Z)
    (caller : Caller) : t * list Pending :=
  let '(ok, q1) := QuotaManager.canMakeApiCall tz (quotaManager b) now "SEARCH" in
  let b1 := withQuota b q1 in
  if negb ok then (b1, [])
  else if negb (isStreamingTime e hour) then (b1, [])
  else
    let '(ok', q2) := QuotaManager.canMakeApiCall tz q1 now "SEARCH" in
    let b2 := withQuota b1 q2 in
    if negb ok'
    then (withState b2 (setErrors (state b2) (consecutiveErrors (state b2) + 1)),
          [])
    else (b2, [AwaitSearch caller]).

(** What the caller of [checkForStream] does with a live stream. *)
Definition connectIfDue (tz : Z) (b : t) (now : Z) (caller : Caller)
    : t * list Pending :=
  match caller with
  | ByStartMonitoring => connectBegins tz b now
  | ByInterval =>
      if negb (isRunning (state b)) then connectBegins tz b now else (b, [])
  end.

(** The search is answered: [checkForLiveStream] records the call,
    [checkForStream] compares the stream with the one attached, and its
    caller connects to the chat. *)
Definition searchAnswered (e : Env) (tz : Z) (b : t) (now : Z) (caller : Caller)
    (api : SearchOutcome) (detected : option string) : t * list Pending :=
  match api with
  | SearchOk stream =>
      let b1 :=
        withQuota b
          (QuotaManager.trackApiCall (quotaManager b) now "SEARCH" true) in
      match stream with
      | Some (video, title) =>
          if negb (bool_decide (Some video = videoId (state b1)))
          then
            let b2 := withState b1 (setVideoId (state b1) (Some video)) in
            let b3 := withContext b2 (setCurrentGame (context b2) detected) in
            let b4 :=
              withContext b3
                (updateContext (context b3) now "streamStarted"
                   (StreamInfo video title)) in
            connectIfDue tz b4 now caller
          else connectIfDue tz b1 now caller
      | None =>
          if Js.truthyStr (videoId (state b1))
          then (cleanup (handleStreamEnded b1), [])
          else (b1, [])
      end
  | SearchErr _ =>
      let b1 :=
        withQuota b
          (QuotaManager.trackApiCall (quotaManager b) now "SEARCH" false) in
      (withState b1 (setErrors (state b1) (consecutiveErrors (state b1) + 1)), [])
  end.

(** What the transport answers, with what the collaborators make of it. *)
Inductive Answer :=
| SearchAnswer (api : SearchOutcome) (detected : option string)
| VideoAnswer (api : VideoOutcome)
| ListAnswer (api : ChatListOutcome)
| InsertAnswer (api : InsertOutcome).

(** The method that awaits [p] resumes with [a]; an answer of another kind
    is not for [p]. *)
Definition resume (e : Env) (tz : Z) (b : t) (now : Z) (p : Pending) (a : Answer)
    : option (t * list Pending) :=
  match p, a with
  | AwaitSearch caller, SearchAnswer api detected =>
      Some (searchAnswered e tz b now caller api detected)
  | AwaitVideoList, VideoAnswer api => Some (videoAnswered tz b now api)
  | AwaitChatList, ListAnswer api => Some (listAnswered e tz b now api)
  | AwaitReply, InsertAnswer api => Some (replyAnswered tz b now api)
  | AwaitFarewell, InsertAnswer api => Some (farewellAnswered b now api, [])
  | _, _ => None
  end.

(** The bot and the requests it has in flight. *)
Record Machine := mkMachine {
  bot : t;
  inflight : list Pending
}.

(** The tasks of the event loop: the timers of the bot and of its
    components, a status page served by the web server ([getStatusReport]), a
    termination signal, and the answer to the request at position [i] among
    those in flight. *)
Inductive Task :=
| PollTimer (now : Z)
| SendTimer (now : Z)
| MonitoringStarts (now hour : Z)
| StreamCheckTimer (now hour : Z)
| ContextCleanupTimer (now : Z)
| LimiterCleanupTimer (now : Z)
| QuotaCheckTimer (now : Z)
| StatusRequest (now : Z)
| ShutdownSignal (now : Z)
| Answered (i : nat) (now : Z) (answer : Answer).

Definition began (m : Machine) (r : t * list Pending) : Machine :=
  mkMachine r.1 (inflight m ++ r.2).

Definition step (e : Env) (tz : Z) (m : Machine) (task : Task) : Machine :=
  match task with
  | PollTimer now => began m (pollBegins tz (bot m) now)
  | SendTimer now => began m (sendTimerFires tz (bot m) now)
  | MonitoringStarts now hour =>
      began m (streamCheckBegins e tz (bot m) now hour ByStartMonitoring)
  | StreamCheckTimer now hour =>
      began m (streamCheckBegins e tz (bot m) now hour ByInterval)
  | ContextCleanupTimer now =>
      mkMachine (withContext (bot m) (cleanupContext (context (bot m)) now))
                (inflight m)
  | LimiterCleanupTimer now =>
      mkMachine
        (withLimiter (bot m) (RateLimiter.cleanup (rateLimiter (bot m)) now))
        (inflight m)
  | QuotaCheckTimer now =>
      mkMachine
        (withQuota (bot m)
           (QuotaManager.checkQuotaReset tz (quotaManager (bot m)) now))
        (inflight m)
  | StatusRequest now =>
      mkMachine
        (withLimiter (bot m) (RateLimiter.getStats (rateLimiter (bot m)) now).2)
        (inflight m)
  | ShutdownSignal now => began m (shutdownBegins tz (bot m) now)
  | Answered i now answer =>
      match inflight m !! i with
      | Some p =>
          match resume e tz (bot m) now p answer with
          | Some r => began (mkMachine (bot m) (delete i (inflight m))) r
          | None => m
          end
      | None => m
      end
  end.

Definition run (e : Env) (tz : Z) (m : Machine) (tasks : list Task) : Machine :=
  foldl (step e tz) m tasks.

(** A bot that has just been constructed. *)
Definition boot (tz now : Z) (limits : RateLimiter.Config) (oauth : bool)
    : Machine :=
  mkMachine (new tz now limits oauth) [].

(** No request is handed to the transport while another one is in flight:
    after every task at most one request awaits its answer. *)
Fixpoint serialised (e : Env) (tz : Z) (m : Machine) (tasks : list Task) : bool :=
  match tasks with
  | [] => true
  | task :: r =>
      (length (inflight (step e tz m task)) <=? 1)%nat
      && serialised e tz (step e tz m task) r
  end.

(** What a task does between two waits.  Before it hands a request to the
    transport the program only asks the ledger: the ledger is left as it is
    or as the reset check at [now] leaves it, the error counter stays
    non-negative, and a single request that has begun fits under the safe
    ceiling. *)
Definition quiet (tz now : Z) (b b' : t) (begun : list Pending) : Prop :=
  (quotaManager b' = quotaManager b ∨
   quotaManager b' = QuotaManager.checkQuotaReset tz (quotaManager b) now) ∧
  (0 ≤ consecutiveErrors (state b) → 0 ≤ consecutiveErrors (state b')) ∧
  (∀ p, begun = [p] →
     QuotaManager.dailyQuotaUsed (quotaManager b')
     + QuotaManager.costOf (operationOf p) ≤ SAFE_QUOTA_LIMIT).

(** The ledger has room for the requests in flight. *)
Definition inBounds (m : Machine) : Prop :=
  0 ≤ QuotaManager.dailyQuotaUsed (quotaManager (bot m)) ∧
  QuotaManager.dailyQuotaUsed (quotaManager (bot m)) + reserved (inflight m)
  ≤ SAFE_QUOTA_LIMIT ∧
  0 ≤ consecutiveErrors (state (bot m)).

End Loop.

(** ** Sample inputs *)

Module Fixtures.
Import Constants.

(** An instant of November 2023, in epoch milliseconds. *)
Definition T0 : Z := 1700000000000.

Definition sampleCalls : list QuotaManager.Call :=
  [ QuotaManager.Admit (T0 + 1000) "SEARCH";
    QuotaManager.Record_ (T0 + 1400) "SEARCH" true;
    QuotaManager.Admit (T0 + 2000) "video_list";
    QuotaManager.Sweep (T0 + 2500);
    QuotaManager.Record_ (T0 + 2600) "VIDEO_LIST" true;
    QuotaManager.Admit (T0 + 3000) "CHAT_LIST";
    QuotaManager.Record_ (T0 + 3900) "CHAT_LIST" false;
    QuotaManager.Admit (T0 + 4000) "CHAT_INSERT";
    QuotaManager.Admit (T0 + 4001) "CHAT_LIST";
    QuotaManager.Record_ (T0 + 4500) "CHAT_INSERT" true ].

(** Two sends admitted before either is recorded. *)
Definition overlappingSends : list QuotaManager.Call :=
  [ QuotaManager.Admit (T0 + 1000) "CHAT_INSERT";
    QuotaManager.Admit (T0 + 1001) "CHAT_INSERT";
    QuotaManager.Record_ (T0 + 2000) "CHAT_INSERT" true;
    QuotaManager.Record_ (T0 + 2001) "CHAT_INSERT" true ].

(** Eighty-nine searches, each admitted and then recorded, followed by a
    search and a chat poll that are both admitted before either is
    recorded. *)
Definition overlappingRequests : list QuotaManager.Call :=
  flat_map
    (λ i : nat,
       [ QuotaManager.Admit (T0 + 1000 * Z.of_nat i) "SEARCH";
         QuotaManager.Record_ (T0 + 1000 * Z.of_nat i + 400) "SEARCH" true ])
    (seq 1 89)
  ++ [ QuotaManager.Admit (T0 + 90000) "SEARCH";
       QuotaManager.Admit (T0 + 90100) "CHAT_LIST";
       QuotaManager.Record_ (T0 + 90400) "SEARCH" true;
       QuotaManager.Record_ (T0 + 90500) "CHAT_LIST" true ].

(** A ledger near the ceiling whose reset time lies ahead of [T0]. *)
Definition nearCeiling : QuotaManager.t :=
  QuotaManager.mk 8910 (QuotaManager.getNextQuotaReset 0 T0) [].

(** A ledger whose reset time [T0] is reached but not yet applied. *)
Definition staleLedger : QuotaManager.t :=
  QuotaManager.mk 8990 T0 [QuotaManager.mkEntry (T0 - 60000) "SEARCH" 100 true].

Definition freshLimiter : RateLimiter.t := RateLimiter.new RateLimiter.defaultConfig.

(** Thirty replies, ten seconds apart, to four authors in turn; the last
    one is recorded at [T0 + 300000]. *)
Definition authorOf (i : nat) : string :=
  nth (i mod 4) ["ana"; "ben"; "cleo"; "dev"] "ana".

Definition thirtyReplies : list (Z * string) :=
  map (λ i : nat, (T0 + 10000 * Z.of_nat i, authorOf i)) (seq 1 30).

Definition positive : Bot.Analysis := Bot.mkAnalysis "positive" "reaction" false.
Definition negative : Bot.Analysis := Bot.mkAnalysis "negative" "reaction" false.

(** [n] messages of one sentiment recorded one second apart. *)
Fixpoint feed (n : nat) (a : Bot.Analysis) (c : Bot.Context) : Bot.Context :=
  match n with
  | O => c
  | S k =>
      Bot.recordMessage (feed k a c) (T0 + 1000 * Z.of_nat n) "viewer" "gg" a
  end.

(** A bot attached to a chat and polling. *)
Definition pollingBot : Bot.t :=
  Bot.mk (Bot.mkState true true (Some "video-1") (Some "chat-1") None 0 5 0 T0)
         Bot.initializeContext freshLimiter (QuotaManager.new 0 T0) true.

(** The same bot with the ledger four units below the safe ceiling. *)
Definition exhaustedBot : Bot.t :=
  Bot.withQuota pollingBot
    (QuotaManager.mk 8996 (QuotaManager.getNextQuotaReset 0 T0) []).

Definition failureAt (now : Z) : Bot.PollInput :=
  Bot.mkPollInput now (Bot.ListErr "socket hang up") None.

Definition fiveFailures : list Bot.PollInput :=
  [ failureAt (T0 + 1000); failureAt (T0 + 25000); failureAt (T0 + 73000);
    failureAt (T0 + 169000); failureAt (T0 + 361000) ].

End Fixtures.

(** ** Sample inputs for messages and monitoring *)

Module Samples.
Import Constants.

Definition T0 : Z := Fixtures.T0.

(** An owner channel, one owner name and one moderator. *)
Definition detector : OwnerDetection.t :=
  OwnerDetection.mk (Some "UC-owner") ["sam"] ["mod_mia"].

Definition env : Session.Env := Session.mkEnv "GameBuddy" detector 18 23.

Definition viewer (name : string) : OwnerDetection.AuthorDetails :=
  OwnerDetection.mkAuthor (Some "UC-viewer") false false (Some name).

Definition ownerAuthor : OwnerDetection.AuthorDetails :=
  OwnerDetection.mkAuthor (Some "UC-owner") false false (Some "Sam").

Definition say (author : OwnerDetection.AuthorDetails) (text : string)
    : Session.IncomingMessage :=
  Session.mkIncoming (Some author) (Some text).

(** A greeting for which a reply has been chosen. *)
Definition greetingOracle : Session.Oracle :=
  Session.mkOracle (Bot.mkAnalysis "positive" "greeting" false) true false
                   (Some "Hey there!").

(** The polling bot just after a reply to ana. *)
Definition coolingBot : Bot.t :=
  Session.withLimiter Fixtures.pollingBot
    (RateLimiter.recordResponse Fixtures.freshLimiter T0 "ana").

(** The polling bot one error short of the threshold. *)
Definition strugglingBot : Bot.t :=
  Bot.withState Fixtures.pollingBot
    (Bot.setErrors (Bot.state Fixtures.pollingBot) 4).


Definition updates : list Bot.Update :=
  [ Bot.mkUpdate (T0 + 1000) "streamStarted" (Bot.StreamInfo "video-1" "Ranked");
    Bot.mkUpdate (T0 + 2000) "messageReceived"
      (Bot.MessageData "ana" "gg" (Some Fixtures.positive));
    Bot.mkUpdate (T0 + 3000) "messageReceived" (Bot.MessageData "ben" "hm" None) ].

Definition probe (hour : Z) (search : Session.SearchOutcome) : Session.Probe :=
  Session.mkProbe (T0 + 1000) hour search None (Session.VideoOk (Some "chat-1"))
                  (Fixtures.failureAt (T0 + 1000)).

(** A running bot whose ledger stands at 8900 units. *)
Definition busyBot : Bot.t :=
  Bot.withQuota Fixtures.pollingBot
    (QuotaManager.mk 8900 (QuotaManager.getNextQuotaReset 0 T0) []).

(** A poll timer fires while the search of a stream check is in flight. *)
Definition pollDuringSearch : list Loop.Task :=
  [ Loop.StreamCheckTimer (T0 + 1000) 20;
    Loop.PollTimer (T0 + 1100);
    Loop.Answered 0 (T0 + 1400)
      (Loop.SearchAnswer (Session.SearchOk (Some ("video-1", "Ranked"))) None);
    Loop.Answered 0 (T0 + 1500)
      (Loop.ListAnswer (Loop.ChatListOk [] None None)) ].

(** A session from the start of monitoring to the owner's shutdown, every
    request answered before the next task. *)
Definition shortSession : list Loop.Task :=
  [ Loop.MonitoringStarts (T0 + 1000) 20;
    Loop.Answered 0 (T0 + 1400)
      (Loop.SearchAnswer (Session.SearchOk (Some ("video-1", "Ranked")))
         (Some "valorant"));
    Loop.Answered 0 (T0 + 1800)
      (Loop.VideoAnswer (Session.VideoOk (Some "chat-1")));
    Loop.Answered 0 (T0 + 2300)
      (Loop.ListAnswer
         (Loop.ChatListOk
            [ (say (viewer "ana") "hello", greetingOracle);
              (say ownerAuthor "!shutdown", greetingOracle) ]
            (Some "page-2") (Some 5000)));
    Loop.Answered 0 (T0 + 2900) (Loop.InsertAnswer None) ].





End Samples.

(** * Properties *)

(** ** Quota ledger *)

Module QuotaFacts.
Import Constants QuotaManager.

Lemma costOf_cases (operationType : string) :
  costOf operationType ∈ [100; 1; 5; 50].
Proof.
  unfold costOf, COSTS.
  rewrite !lookup_insert, lookup_empty.
  repeat case_decide; simpl; set_solver.
Qed.

Lemma costOf_range (operationType : string) : 1 ≤ costOf operationType ≤ 100.
Proof.
  pose proof (costOf_cases operationType) as H.
  rewrite !elem_of_cons in H.
  destruct H as [-> | [-> | [-> | [-> | H]]]]; try lia.
  by apply elem_of_nil in H.
Qed.

Lemma costOf_kind (a b : string) : kind a = kind b → costOf a = costOf b.
Proof. unfold kind, costOf. by intros ->. Qed.

Lemma next_reset_after (tz now : Z) : now < getNextQuotaReset tz now.
Proof.
  unfold getNextQuotaReset, DAY_MS.
  pose proof (Z.mul_succ_div_gt (now + tz) 86400000 ltac:(lia)) as H.
  unfold Z.succ in H. lia.
Qed.

Lemma checkQuotaReset_used (tz : Z) (q : t) (now : Z) :
  dailyQuotaUsed (checkQuotaReset tz q now) = dailyQuotaUsed q ∨
  dailyQuotaUsed (checkQuotaReset tz q now) = 0.
Proof. unfold checkQuotaReset. destruct (_ <=? _); simpl; auto. Qed.

Lemma checkQuotaReset_idem (tz : Z) (q : t) (now : Z) :
  checkQuotaReset tz (checkQuotaReset tz q now) now = checkQuotaReset tz q now.
Proof.
  unfold checkQuotaReset at 2 3.
  destruct (quotaResetTime q <=? now) eqn:E.
  - unfold checkQuotaReset; simpl.
    pose proof (next_reset_after tz now).
    destruct (getNextQuotaReset tz now <=? now) eqn:E'; [lia | done].
  - unfold checkQuotaReset. by rewrite E.
Qed.

Lemma canMakeApiCall_state (tz : Z) (q : t) (now : Z) (op : string) :
  snd (canMakeApiCall tz q now op) = checkQuotaReset tz q now.
Proof. unfold canMakeApiCall. by destruct (_ <? _). Qed.

Lemma canMakeApiCall_true (tz : Z) (q : t) (now : Z) (op : string) :
  fst (canMakeApiCall tz q now op) = true ↔
  dailyQuotaUsed (checkQuotaReset tz q now) + costOf op ≤ SAFE_QUOTA_LIMIT.
Proof.
  unfold canMakeApiCall.
  destruct (SAFE_QUOTA_LIMIT <? _) eqn:E; simpl; split; intros; try done; lia.
Qed.

Lemma canMakeApiCall_false (tz : Z) (q : t) (now : Z) (op : string) :
  fst (canMakeApiCall tz q now op) = false ↔
  SAFE_QUOTA_LIMIT < dailyQuotaUsed (checkQuotaReset tz q now) + costOf op.
Proof.
  unfold canMakeApiCall.
  destruct (SAFE_QUOTA_LIMIT <? _) eqn:E; simpl; split; intros; try done; lia.
Qed.

(** A second admission at the same instant sees the same ledger. *)
Lemma canMakeApiCall_again (tz : Z) (q : t) (now : Z) (op op' : string) :
  canMakeApiCall tz (snd (canMakeApiCall tz q now op)) now op'
  = canMakeApiCall tz q now op'.
Proof.
  rewrite canMakeApiCall_state.
  unfold canMakeApiCall. by rewrite checkQuotaReset_idem.
Qed.

(** The admission half of the reset policy: an admission made at or after
    the reset time starts from a zeroed ledger whose reset time lies ahead. *)
Lemma canMakeApiCall_resets (tz : Z) (q : t) (now : Z) (op : string) :
  quotaResetTime q ≤ now →
  canMakeApiCall tz q now op = (true, mk 0 (getNextQuotaReset tz now) []) ∧
  now < getNextQuotaReset tz now.
Proof.
  intros H. split; [| apply next_reset_after].
  unfold canMakeApiCall, checkQuotaReset.
  destruct (quotaResetTime q <=? now) eqn:E; [| lia]. simpl.
  pose proof (costOf_range op). unfold SAFE_QUOTA_LIMIT.
  destruct (9000 <? 0 + costOf op) eqn:E'; [lia | done].
Qed.

(** A record never looks at the clock: the reset time is kept and the charge
    is added to the ledger as it stands. *)
Lemma trackApiCall_ledger (q : t) (now : Z) (op : string) (ok : bool) :
  quotaResetTime (trackApiCall q now op ok) = quotaResetTime q ∧
  dailyQuotaUsed (trackApiCall q now op ok)
  = dailyQuotaUsed q + (if ok then costOf op else 0).
Proof. unfold trackApiCall. destruct ok; simpl; split; lia. Qed.

Lemma safe_reset (tz : Z) (q : t) (now : Z) (admitted : list string) :
  safe q admitted → safe (checkQuotaReset tz q now) admitted.
Proof.
  intros [Hb Ha]. unfold checkQuotaReset.
  destruct (_ <=? _); [| done].
  split; simpl; [unfold SAFE_QUOTA_LIMIT; lia |].
  intros op _. pose proof (costOf_range op). unfold SAFE_QUOTA_LIMIT. lia.
Qed.

Lemma safe_step (tz : Z) (cs : list Call) :
  ∀ (q : t) (admitted : list string),
    safe q admitted →
    disciplined tz q admitted cs = true →
    ∀ pre, pre `prefix_of` cs →
      0 ≤ dailyQuotaUsed (run tz q pre) ≤ SAFE_QUOTA_LIMIT.
Proof.
  induction cs as [| c cs IH]; intros q admitted Hs Hd pre Hp.
  - apply prefix_nil_inv in Hp as ->. apply Hs.
  - destruct pre as [| c' pre]; [apply Hs |].
    apply prefix_cons_inv_1 in Hp as Hc; subst c'.
    apply prefix_cons_inv_2 in Hp.
    unfold run; simpl. fold (run tz (step tz q c) pre).
    destruct c as [now op | now op [] | now]; simpl in *.
    + destruct (canMakeApiCall tz q now op) as [ok q'] eqn:E.
      pose proof (canMakeApiCall_state tz q now op) as Hq.
      pose proof (canMakeApiCall_true tz q now op) as Ht.
      rewrite E in Hq, Ht; simpl in Hq, Ht; subst q'.
      eapply IH; [| exact Hd | exact Hp].
      pose proof (safe_reset tz q now admitted Hs) as [Hb Ha].
      split; [done |]. intros op' Hin.
      destruct ok; [| by apply Ha].
      apply elem_of_cons in Hin as [Hk | Hin]; [| by apply Ha].
      rewrite (costOf_kind op' op Hk). by apply Ht.
    + apply andb_prop in Hd as [Hin Hd]. apply bool_decide_eq_true in Hin.
      eapply IH; [| exact Hd | exact Hp].
      destruct Hs as [Hb Ha]. specialize (Ha op Hin).
      pose proof (costOf_range op).
      split; simpl; [lia |]. intros op' Hin'. by apply elem_of_nil in Hin'.
    + eapply IH; [| exact Hd | exact Hp].
      destruct Hs as [Hb Ha]. split; simpl; [lia |].
      intros op' Hin. specialize (Ha op' Hin). lia.
    + eapply IH; [| exact Hd | exact Hp]. by apply safe_reset.
Qed.

(** C1.  Along every call sequence on a fresh ledger in which each
    successful record follows an admission of the same kind that answered
    true (no other charge in between), the counter stays within the safe
    ceiling after every call; and on the ledger so reached an admission is
    refused exactly when the counter plus the cost of the operation would
    pass the ceiling. *)
Theorem quota_admission_invariant (tz t0 : Z) (cs pre : list Call) :
  disciplined tz (new tz t0) [] cs = true →
  pre `prefix_of` cs →
  dailyQuotaUsed (run tz (new tz t0) pre) ≤ SAFE_QUOTA_LIMIT ∧
  ∀ now op,
    fst (canMakeApiCall tz (run tz (new tz t0) pre) now op) = false ↔
    SAFE_QUOTA_LIMIT
    < dailyQuotaUsed (checkQuotaReset tz (run tz (new tz t0) pre) now) + costOf op.
Proof.
  intros Hd Hp. split.
  - eapply (safe_step tz cs (new tz t0) []); [| exact Hd | exact Hp].
    split; simpl; [unfold SAFE_QUOTA_LIMIT; lia |].
    intros op Hin. by apply elem_of_nil in Hin.
  - intros now op. apply canMakeApiCall_false.
Qed.

(** The invariant on a sample call sequence. *)
Lemma quota_admission_invariant_witness :
  dailyQuotaUsed (run 0 (new 0 Fixtures.T0) Fixtures.sampleCalls) ≤ SAFE_QUOTA_LIMIT ∧
  ∀ now op,
    fst (canMakeApiCall 0 (run 0 (new 0 Fixtures.T0) Fixtures.sampleCalls) now op)
    = false ↔
    SAFE_QUOTA_LIMIT
    < dailyQuotaUsed
        (checkQuotaReset 0 (run 0 (new 0 Fixtures.T0) Fixtures.sampleCalls) now)
      + costOf op.
Proof.
  apply (quota_admission_invariant 0 Fixtures.T0
           Fixtures.sampleCalls Fixtures.sampleCalls).
  - vm_compute. reflexivity.
  - exists []. reflexivity.
Defined.

(** The discipline is the condition of the specification made stricter:
    a disciplined call sequence is one in which every successful record is
    preceded by its own true admission. *)
Lemma disciplined_precededByAdmit (tz : Z) (cs : list Call) :
  ∀ (q : t) (admitted unused : list string),
    (∀ k, k ∈ admitted → k ∈ unused) →
    disciplined tz q admitted cs = true →
    precededByAdmit tz q unused cs = true.
Proof.
  induction cs as [| c cs IH]; intros q admitted unused Hsub Hd; [done |].
  destruct c as [now op | now op [] | now]; simpl in *.
  - destruct (canMakeApiCall tz q now op) as [[] q'].
    + apply (IH q' (kind op :: admitted)); [| done].
      intros k Hk. apply elem_of_cons in Hk as [-> | Hk].
      * apply elem_of_cons. by left.
      * apply elem_of_cons. right. by apply Hsub.
    + by apply (IH q' admitted).
  - apply andb_prop in Hd as [Hin Hd]. apply bool_decide_eq_true in Hin.
    apply andb_true_intro. split.
    + apply bool_decide_eq_true. by apply Hsub.
    + apply (IH _ []); [| done]. intros k Hk. by apply elem_of_nil in Hk.
  - by apply (IH _ admitted).
  - by apply (IH _ admitted).
Qed.

(** C1 as stated fails: on a fresh ledger, after eighty-nine searches a
    search and a chat poll are both admitted at 8900 units and then both
    recorded.  Every successful record is preceded by its own admission of
    the same kind that answered true, and the counter ends at 9005, past the
    safe ceiling. *)
Lemma overlapping_admissions_counterexample :
  let cs := Fixtures.overlappingRequests in
  precededByAdmit 0 (new 0 Fixtures.T0) [] cs = true ∧
  dailyQuotaUsed (run 0 (new 0 Fixtures.T0) cs) = 9005 ∧
  ¬ dailyQuotaUsed (run 0 (new 0 Fixtures.T0) cs) ≤ SAFE_QUOTA_LIMIT.
Proof.
  intros cs. split; [vm_compute; reflexivity |].
  split; [vm_compute; reflexivity |].
  intros H. vm_compute in H. by apply H.
Qed.

(** The discipline matters: when two admissions are answered before either
    charge is recorded, both answer true and the second charge passes the
    ceiling. *)
Example two_admissions_then_two_charges :
  fst (canMakeApiCall 0 Fixtures.nearCeiling (Fixtures.T0 + 1000) "CHAT_INSERT")
  = true ∧
  fst (canMakeApiCall 0 Fixtures.nearCeiling (Fixtures.T0 + 1001) "CHAT_INSERT")
  = true ∧
  dailyQuotaUsed (run 0 Fixtures.nearCeiling Fixtures.overlappingSends) = 9010 ∧
  disciplined 0 Fixtures.nearCeiling [] Fixtures.overlappingSends = false.
Proof. vm_compute. repeat split. Qed.

(** C3.  A record made after the reset time is charged to the stale ledger:
    the reset time of the ledger has passed, the record takes the counter
    from 8990 to 9090, keeps the reset time and keeps the old history,
    whereas an admission at the same instant zeroes the ledger and moves the
    reset time to the next midnight. *)
Theorem record_past_reset_charges_stale_ledger :
  let q := Fixtures.staleLedger in
  let now := Fixtures.T0 + 100 in
  quotaResetTime q ≤ now ∧
  dailyQuotaUsed (trackApiCall q now "SEARCH" true) = 9090 ∧
  quotaResetTime (trackApiCall q now "SEARCH" true) = quotaResetTime q ∧
  length (quotaHistory (trackApiCall q now "SEARCH" true)) = 2%nat ∧
  canMakeApiCall 0 q now "SEARCH"
  = (true, mk 0 (getNextQuotaReset 0 now) []).
Proof. vm_compute. repeat split; discriminate. Qed.

End QuotaFacts.

(** ** Response throttle *)

Module ThrottleFacts.
Import RateLimiter.

Lemma filter_twice {A} (f : A → bool) (l : list A) :
  List.filter f (List.filter f l) = List.filter f l.
Proof.
  induction l as [| x l IH]; [done |]. simpl.
  destruct (f x) eqn:E; simpl; [rewrite E |]; by rewrite ?IH.
Qed.

Lemma filter_all {A} (f : A → bool) (l : list A) :
  Forall (λ x, f x = true) l → List.filter f l = l.
Proof.
  induction 1 as [| x l Hx _ IH]; [done |]. simpl. by rewrite Hx, IH.
Qed.

Lemma recordAll_app (r : t) (xs ys : list (Z * string)) :
  recordAll r (xs ++ ys) = recordAll (recordAll r xs) ys.
Proof. unfold recordAll. apply foldl_app. Qed.

Lemma recordAll_fields (replies : list (Z * string)) :
  ∀ r : t,
    maxResponsesPerHour (recordAll r replies) = maxResponsesPerHour r ∧
    globalCooldown (recordAll r replies) = globalCooldown r ∧
    userCooldown (recordAll r replies) = userCooldown r ∧
    hourlyResponses (recordAll r replies) = hourlyResponses r ++ map fst replies.
Proof.
  induction replies as [| p l IH]; intros r; simpl.
  - by rewrite app_nil_r.
  - destruct (IH (recordResponse r p.1 p.2)) as (H1 & H2 & H3 & H4).
    unfold recordAll in *. simpl. rewrite H1, H2, H3, H4. simpl.
    by rewrite <- app_assoc.
Qed.

(** The two ways out of [canRespond] when the hourly list holds at least
    [maxResponsesPerHour] entries of the last hour. *)
Lemma canRespond_hourly_full (r : t) (now : Z) (userId : string) :
  maxResponsesPerHour r
  ≤ Z.of_nat (length (List.filter (inLastHour now) (hourlyResponses r))) →
  fst (canRespond r now userId)
  = if now - lastGlobalResponse r <? globalCooldown r
    then mkVerdict false (Some global_cooldown)
    else mkVerdict false (Some hourly_limit).
Proof.
  intros H. unfold canRespond, getHourlyResponseCount.
  destruct (now - lastGlobalResponse r <? globalCooldown r); [done |].
  simpl. destruct (maxResponsesPerHour r <=? _) eqn:E; [done | lia].
Qed.

(** A check leaves every field but the hourly list alone, and the hourly
    list is either kept or pruned to the last hour. *)
Lemma canRespond_frame (r : t) (now : Z) (userId : string) :
  let r' := snd (canRespond r now userId) in
  maxResponsesPerHour r' = maxResponsesPerHour r ∧
  globalCooldown r' = globalCooldown r ∧
  userCooldown r' = userCooldown r ∧
  lastGlobalResponse r' = lastGlobalResponse r ∧
  userResponses r' = userResponses r ∧
  (hourlyResponses r' = hourlyResponses r ∨
   hourlyResponses r' = List.filter (inLastHour now) (hourlyResponses r)).
Proof.
  unfold canRespond, getHourlyResponseCount.
  destruct (now - lastGlobalResponse r <? globalCooldown r); simpl; [tauto |].
  destruct (maxResponsesPerHour r <=? _); simpl; [tauto |].
  destruct (userResponses r !! userId) as [last |]; simpl; [| tauto].
  destruct (negb (last =? 0) && (now - last <? userCooldown r)); simpl; tauto.
Qed.

(** The verdict reads the hourly list only through its entries of the last
    hour. *)
Lemma canRespond_verdict_ext (r r' : t) (now : Z) (userId : string) :
  maxResponsesPerHour r' = maxResponsesPerHour r →
  globalCooldown r' = globalCooldown r →
  userCooldown r' = userCooldown r →
  lastGlobalResponse r' = lastGlobalResponse r →
  userResponses r' = userResponses r →
  List.filter (inLastHour now) (hourlyResponses r')
  = List.filter (inLastHour now) (hourlyResponses r) →
  fst (canRespond r' now userId) = fst (canRespond r now userId).
Proof.
  intros H1 H2 H3 H4 H5 H6.
  unfold canRespond, getHourlyResponseCount. simpl.
  rewrite H1, H2, H3, H4, H5, H6.
  destruct (now - lastGlobalResponse r <? globalCooldown r); [done |].
  destruct (maxResponsesPerHour r <=? _); [done |].
  destruct (userResponses r !! userId) as [last |]; [| done].
  by destruct (negb (last =? 0) && (now - last <? userCooldown r)).
Qed.

Lemma canRespond_after_check (r : t) (now : Z) (other userId : string) :
  fst (canRespond (snd (canRespond r now other)) now userId)
  = fst (canRespond r now userId).
Proof.
  destruct (canRespond_frame r now other) as (H1 & H2 & H3 & H4 & H5 & H6).
  apply canRespond_verdict_ext; try done.
  destruct H6 as [-> | ->]; [done | apply filter_twice].
Qed.

Lemma canRespond_after_checks (users : list string) :
  ∀ (r : t) (now : Z) (userId : string),
    fst (canRespond (checkAll r now users) now userId)
    = fst (canRespond r now userId).
Proof.
  induction users as [| u l IH]; intros r now userId; [done |].
  unfold checkAll in *. simpl. rewrite IH. apply canRespond_after_check.
Qed.

Lemma checkAll_frame (users : list string) :
  ∀ (r : t) (now : Z),
    lastGlobalResponse (checkAll r now users) = lastGlobalResponse r ∧
    userResponses (checkAll r now users) = userResponses r ∧
    (hourlyResponses (checkAll r now users) = hourlyResponses r ∨
     hourlyResponses (checkAll r now users)
     = List.filter (inLastHour now) (hourlyResponses r)).
Proof.
  induction users as [| u l IH]; intros r now; [simpl; tauto |].
  unfold checkAll in *. simpl.
  destruct (IH (snd (canRespond r now u)) now) as (H1 & H2 & H3).
  destruct (canRespond_frame r now u) as (_ & _ & _ & H4 & H5 & H6).
  simpl in H4, H5, H6. rewrite H1, H2, H4, H5. do 2 (split; [done |]).
  destruct H3 as [-> | ->], H6 as [-> | ->]; rewrite ?filter_twice; tauto.
Qed.

(** A reply recorded at [now] closes the gate for every author until the
    global cooldown has run. *)
Lemma canRespond_after_record (r : t) (now later : Z) (userId other : string) :
  later - now < globalCooldown r →
  canRespond (recordResponse r now userId) later other
  = (mkVerdict false (Some global_cooldown), recordResponse r now userId).
Proof.
  intros H. unfold canRespond. simpl.
  destruct (later - now <? globalCooldown r) eqn:E; [done | lia].
Qed.

(** C6 (amended).  With the cap at 30, once 30 replies have been recorded
    within the hour before [now], a check at [now] is refused for every
    author; the reason reported is [hourly_limit] when the global cooldown
    has run since the last reply, and [global_cooldown] otherwise. *)
Theorem hourly_cap_refuses (r0 : t) (replies : list (Z * string))
    (now : Z) (userId : string) :
  maxResponsesPerHour r0 = 30 →
  length replies = 30%nat →
  Forall (λ p, now - 3600000 < p.1) replies →
  let r := recordAll r0 replies in
  let v := fst (canRespond r now userId) in
  allowed v = false ∧
  (globalCooldown r ≤ now - lastGlobalResponse r → reason v = Some hourly_limit) ∧
  (now - lastGlobalResponse r < globalCooldown r → reason v = Some global_cooldown).
Proof.
  intros Hmax Hlen Hwin r v.
  destruct (recordAll_fields replies r0) as (H1 & _ & _ & H4).
  assert (Hfull : maxResponsesPerHour r
    ≤ Z.of_nat (length (List.filter (inLastHour now) (hourlyResponses r)))).
  { subst r. rewrite H1, H4, Hmax, List.filter_app, length_app.
    rewrite (filter_all (inLastHour now) (map fst replies)).
    - rewrite length_map, Hlen. lia.
    - apply Forall_map. eapply Forall_impl; [exact Hwin |].
      intros p Hp. unfold inLastHour. simpl in *. by apply Z.ltb_lt. }
  subst v. rewrite (canRespond_hourly_full r now userId Hfull).
  destruct (now - lastGlobalResponse r <? globalCooldown r) eqn:E; simpl;
    repeat split; intros; try done; lia.
Qed.

(** C7 (amended).  With the global cooldown at 8000 ms, when a reply is
    recorded at the instant of a first check, a second check 5000 ms later is
    refused with [global_cooldown], whatever the two authors are. *)
Theorem global_cooldown_after_reply (r : t) (now : Z) (first second : string) :
  globalCooldown r = 8000 →
  let r1 := snd (canRespond r now first) in
  let r2 := recordResponse r1 now first in
  fst (canRespond r2 (now + 5000) second)
  = mkVerdict false (Some global_cooldown).
Proof.
  intros Hg r1 r2. subst r2.
  rewrite canRespond_after_record; [done |].
  destruct (canRespond_frame r now first) as (_ & H2 & _).
  subst r1. rewrite H2, Hg. lia.
Qed.

(** C9.  A check is a pure gate: it keeps the last global reply time and the
    per-author map, it appends nothing to the hourly list (which is kept or
    pruned to the last hour), and after any number of checks at one instant,
    for whatever authors, the verdict for an author is the one the first
    check would have given; so a check that allows starts no cooldown. *)
Theorem canRespond_pure_gate (r : t) (now : Z) (userId : string)
    (users : list string) :
  lastGlobalResponse (snd (canRespond r now userId)) = lastGlobalResponse r ∧
  userResponses (snd (canRespond r now userId)) = userResponses r ∧
  (hourlyResponses (snd (canRespond r now userId)) = hourlyResponses r ∨
   hourlyResponses (snd (canRespond r now userId))
   = List.filter (inLastHour now) (hourlyResponses r)) ∧
  fst (canRespond (checkAll r now users) now userId)
  = fst (canRespond r now userId) ∧
  lastGlobalResponse (checkAll r now users) = lastGlobalResponse r ∧
  userResponses (checkAll r now users) = userResponses r.
Proof.
  destruct (canRespond_frame r now userId) as (_ & _ & _ & H4 & H5 & H6).
  destruct (checkAll_frame users r now) as (H7 & H8 & _).
  repeat split; try done. apply canRespond_after_checks.
Qed.

(** C6 as stated fails: thirty replies recorded within the hour, the last one
    at [T0 + 300000]; a check one millisecond later reports
    [global_cooldown], not [hourly_limit]. *)
Lemma hourly_limit_reason_counterexample :
  let r := recordAll Fixtures.freshLimiter Fixtures.thirtyReplies in
  let now := Fixtures.T0 + 300001 in
  maxResponsesPerHour r = 30 ∧
  length Fixtures.thirtyReplies = 30%nat ∧
  Forall (λ p, now - 3600000 < p.1 ∧ p.1 ≤ now) Fixtures.thirtyReplies ∧
  fst (canRespond r now "other") = mkVerdict false (Some global_cooldown) ∧
  reason (fst (canRespond r now "other")) ≠ Some hourly_limit.
Proof.
  intros r now. split; [reflexivity |]. split; [reflexivity |]. split.
  - apply (bool_decide_unpack _). vm_compute. reflexivity.
  - split; [vm_compute; reflexivity | vm_compute; discriminate].
Qed.

(** The refusal ten seconds after the thirtieth reply. *)
Lemma hourly_cap_refuses_witness :
  let r := recordAll Fixtures.freshLimiter Fixtures.thirtyReplies in
  let v := fst (canRespond r (Fixtures.T0 + 310000) "other") in
  allowed v = false ∧
  (globalCooldown r ≤ Fixtures.T0 + 310000 - lastGlobalResponse r →
   reason v = Some hourly_limit) ∧
  (Fixtures.T0 + 310000 - lastGlobalResponse r < globalCooldown r →
   reason v = Some global_cooldown).
Proof.
  apply (hourly_cap_refuses Fixtures.freshLimiter Fixtures.thirtyReplies
           (Fixtures.T0 + 310000) "other").
  - reflexivity.
  - reflexivity.
  - apply (bool_decide_unpack _). vm_compute. reflexivity.
Defined.

(** C7 as stated fails: on a fresh limiter with the cooldown at 8000 ms, two
    checks 5000 ms apart with no reply recorded in between are both
    allowed. *)
Lemma two_checks_both_allowed_counterexample :
  let r := Fixtures.freshLimiter in
  let first := canRespond r Fixtures.T0 "alice" in
  let second := canRespond (snd first) (Fixtures.T0 + 5000) "bob" in
  globalCooldown r = 8000 ∧
  allowed (fst first) = true ∧ allowed (fst second) = true.
Proof. vm_compute. repeat split. Qed.

(** The refusal on a fresh limiter. *)
Lemma global_cooldown_after_reply_witness :
  let r1 := snd (canRespond Fixtures.freshLimiter Fixtures.T0 "alice") in
  let r2 := recordResponse r1 Fixtures.T0 "alice" in
  fst (canRespond r2 (Fixtures.T0 + 5000) "bob")
  = mkVerdict false (Some global_cooldown).
Proof.
  apply (global_cooldown_after_reply Fixtures.freshLimiter Fixtures.T0
           "alice" "bob").
  reflexivity.
Defined.

End ThrottleFacts.

(** ** Chat context *)

Module ContextFacts.
Import Constants Bot.

Lemma moodOf_not_hyped (l : list string) : moodOf l ≠ HYPED.
Proof. unfold moodOf. by repeat destruct (_ <=? _). Qed.

(** The mood after a recorded message is taken from the history as it was
    before the message was appended. *)
Lemma recordMessage_mood (c : Context) (now : Z) (author text : string)
    (a : Analysis) :
  chatMood (recordMessage c now author text a)
  = moodOf (map hmSentiment (Js.sliceLast 10 (messageHistory c))).
Proof. reflexivity. Qed.

Lemma recordMessage_history (c : Context) (now : Z) (author text : string)
    (a : Analysis) :
  messageHistory (recordMessage c now author text a)
  = capTo 100 (messageHistory c
      ++ [mkHistoryMessage now author (sentiment a) (intent a) (gameRelated a)]).
Proof. reflexivity. Qed.

Lemma updateContext_mood (c : Context) (now : Z) (eventType : string)
    (data : EventData) :
  chatMood c ≠ HYPED → chatMood (updateContext c now eventType data) ≠ HYPED.
Proof.
  intros H. unfold updateContext.
  destruct data as [author text [a |] | v title]; try done.
  destruct (String.eqb eventType "messageReceived"); [| done].
  simpl. apply moodOf_not_hyped.
Qed.

Lemma gracefulShutdown_context (tz : Z) (b : t) (now : Z) (fw : InsertOutcome) :
  context (gracefulShutdown tz b now fw).1.1 = context b.
Proof.
  unfold gracefulShutdown.
  destruct (_ && _); [| done].
  by destruct (sendMessage _ _ _ _ _ _ _) as [[e q] sent].
Qed.

Lemma handleError_context (tz : Z) (b : t) (now : Z) (fw : InsertOutcome) :
  context (handleError tz b now fw).1.1 = context b.
Proof.
  unfold handleError. destruct (_ <=? _); [| done].
  unfold stop. by rewrite gracefulShutdown_context.
Qed.

Lemma cleanup_mood (b : t) : chatMood (context (cleanup b)) = NEUTRAL.
Proof. reflexivity. Qed.

Lemma pollMessages_mood (tz : Z) (b : t) (now : Z) (api : ListOutcome)
    (fw : InsertOutcome) :
  chatMood (context (pollMessages tz b now api fw).1) = chatMood (context b) ∨
  chatMood (context (pollMessages tz b now api fw).1) = NEUTRAL.
Proof.
  unfold pollMessages.
  destruct (_ || _); [by left |].
  destruct (QuotaManager.canMakeApiCall _ _ _ _) as [ok q1].
  destruct ok; simpl; [| by left].
  destruct (getChatMessages _ _ _ _ _ _) as [[result q2] issued].
  destruct result as [messages token interval | message]; [by left |].
  pose proof (handleError_context tz (withQuota b q2) now fw) as H.
  destruct (handleError _ _ _ _) as [[b3 begun] resumed]. simpl in H.
  destruct (isTerminal message); simpl; [by right | left; by rewrite H].
Qed.

Lemma apply_mood (tz : Z) (b : t) (o : Op) :
  chatMood (context b) ≠ HYPED → chatMood (context (apply tz b o)) ≠ HYPED.
Proof.
  intros H. destruct o as [now ty d | now | | i | now fw | | mood | game]; simpl;
    try done.
  - by apply updateContext_mood.
  - destruct (pollMessages_mood tz b (piNow i) (piList i) (piFarewell i))
      as [-> | ->]; done.
  - by rewrite gracefulShutdown_context.
Qed.

(** C10.  From a freshly constructed bot, whatever messages are recorded and
    whatever lifecycle events happen (context updates and sweeps, polls with
    any outcome, stream end, restart, shutdown, the owner's mood and game
    commands), [chatMood] is never [HYPED]. *)
Theorem chatMood_never_hyped (tz now : Z) (limits : RateLimiter.Config)
    (oauth : bool) (ops : list Op) :
  chatMood (context (applyAll tz (new tz now limits oauth) ops)) ≠ HYPED.
Proof.
  unfold applyAll.
  assert (H : chatMood (context (new tz now limits oauth)) ≠ HYPED) by done.
  revert H. generalize (new tz now limits oauth).
  induction ops as [| o ops IH]; intros b H; [done |].
  simpl. apply IH. by apply apply_mood.
Qed.

(** C2.  Six positive messages recorded into a fresh context leave the mood
    at [SUPPORTIVE]: the sixth recomputation reads the five messages
    recorded before it.  The last ten entries of the history, the sixth
    included, would give [EXCITED].  Likewise six negative messages leave
    [NEUTRAL] where the history gives [FRUSTRATED]. *)
Theorem six_messages_mood_lags :
  let c := Fixtures.feed 6 Fixtures.positive initializeContext in
  let d := Fixtures.feed 6 Fixtures.negative initializeContext in
  length (messageHistory c) = 6%nat ∧
  chatMood c = SUPPORTIVE ∧
  moodOf (map hmSentiment (Js.sliceLast 10 (messageHistory c))) = EXCITED ∧
  chatMood d = NEUTRAL ∧
  moodOf (map hmSentiment (Js.sliceLast 10 (messageHistory d))) = FRUSTRATED ∧
  chatMood (Fixtures.feed 7 Fixtures.positive initializeContext) = EXCITED.
Proof. vm_compute. repeat split. Qed.

End ContextFacts.

(** ** Polling orchestrator *)

Module PollFacts.
Import Constants Bot QuotaFacts.

Lemma pollTimers_app (l1 l2 : list Effect) :
  pollTimers (l1 ++ l2) = pollTimers l1 ++ pollTimers l2.
Proof.
  induction l1 as [| e l1 IH]; [done |].
  destruct e; simpl; by rewrite ?IH.
Qed.

Lemma sendMessage_effects (tz : Z) (q : QuotaManager.t) (now : Z)
    (canSend : bool) (chatId : option string) (text : string)
    (api : InsertOutcome) :
  (sendMessage tz q now canSend chatId text api).2 = [] ∨
  (sendMessage tz q now canSend chatId text api).2 = [ApiChatInsert chatId text].
Proof.
  unfold sendMessage.
  destruct (QuotaManager.canMakeApiCall _ _ _ _) as [ok q1].
  destruct ok, canSend, api; simpl; auto.
Qed.

(** Shutdown: both flags are lowered and every other field of the state is
    kept; the intervals are cleared first, a farewell insert (if any) comes
    after that, and the continuation schedules the exit. *)
Lemma gracefulShutdown_spec (tz : Z) (b : t) (now : Z) (fw : InsertOutcome) :
  ∃ b' sent resumed,
    gracefulShutdown tz b now fw = (b', ClearIntervals :: sent, resumed) ∧
    state b' = setStopped (state b) ∧
    pollTimers sent = [] ∧ pollTimers resumed = [] ∧
    SetTimeoutExit 2000 ∈ sent ++ resumed.
Proof.
  unfold gracefulShutdown.
  destruct (_ && _).
  - pose proof (sendMessage_effects tz (quotaManager (withState b (setStopped (state b))))
                  now (canSendMessages (withState b (setStopped (state b))))
                  (liveChatId (setStopped (state b))) farewellText fw) as H.
    destruct (sendMessage _ _ _ _ _ _ _) as [[e q1] sent]. simpl in H.
    eexists _, sent, _. split; [reflexivity |].
    split; [done |]. split; [by destruct H as [-> | ->] |].
    split; [done |].
    apply elem_of_app. right. rewrite !elem_of_cons. auto.
  - eexists _, [WebServerStop], _. split; [reflexivity |].
    do 3 (split; [done |]).
    apply elem_of_app. right. rewrite !elem_of_cons. auto.
Qed.

Lemma handleError_below (tz : Z) (b : t) (now : Z) (fw : InsertOutcome) :
  consecutiveErrors (state b) + 1 < maxConsecutiveErrors (state b) →
  handleError tz b now fw
  = (withState b (setErrors (state b) (consecutiveErrors (state b) + 1)), [], []).
Proof.
  intros H. unfold handleError. simpl.
  destruct (_ <=? _) eqn:E; [lia | done].
Qed.

Lemma handleError_reached (tz : Z) (b : t) (now : Z) (fw : InsertOutcome) :
  maxConsecutiveErrors (state b) ≤ consecutiveErrors (state b) + 1 →
  handleError tz b now fw
  = gracefulShutdown tz
      (withState b (setErrors (state b) (consecutiveErrors (state b) + 1))) now fw.
Proof.
  intros H. unfold handleError. simpl.
  destruct (_ <=? _) eqn:E; [done | lia].
Qed.

Lemma handleError_errors (tz : Z) (b : t) (now : Z) (fw : InsertOutcome) :
  consecutiveErrors (state (handleError tz b now fw).1.1)
  = consecutiveErrors (state b) + 1 ∧
  pollTimers (handleError tz b now fw).1.2 = [] ∧
  pollTimers (handleError tz b now fw).2 = [].
Proof.
  unfold handleError. simpl.
  destruct (_ <=? _); [| done]. unfold stop.
  destruct (gracefulShutdown_spec tz
              (withState b (setErrors (state b) (consecutiveErrors (state b) + 1)))
              now fw) as (b' & sent & resumed & -> & Hs & H1 & H2 & _).
  simpl. by rewrite Hs.
Qed.

(** The catch branch of [pollMessages], reached when the poll is admitted
    and the list request fails. *)
Lemma pollMessages_failure (tz : Z) (b : t) (now : Z) (message : string)
    (fw : InsertOutcome) :
  isRunning (state b) = true →
  Js.truthyStr (liveChatId (state b)) = true →
  (QuotaManager.canMakeApiCall tz (quotaManager b) now "CHAT_LIST").1 = true →
  pollMessages tz b now (ListErr message) fw
  = let q2 := QuotaManager.trackApiCall
                (QuotaManager.checkQuotaReset tz (quotaManager b) now)
                now "CHAT_LIST" false in
    let request := ApiChatList (liveChatId (state b)) (nextPageToken (state b)) in
    let '(b3, begun, resumed) := handleError tz (withQuota b q2) now fw in
    if isTerminal message
    then (handleStreamEnded b3, [request] ++ begun ++ [EmitStreamEnded] ++ resumed)
    else (b3, [request] ++ begun
                ++ [SetTimeoutPoll (backoffTime (consecutiveErrors (state b3)))]
                ++ resumed).
Proof.
  intros Hr Hc Hq. unfold pollMessages, getChatMessages.
  rewrite Hr, Hc. simpl.
  pose proof (canMakeApiCall_again tz (quotaManager b) now "CHAT_LIST" "CHAT_LIST") as Ha.
  pose proof (canMakeApiCall_state tz (quotaManager b) now "CHAT_LIST") as Hs.
  destruct (QuotaManager.canMakeApiCall tz (quotaManager b) now "CHAT_LIST")
    as [ok q1] eqn:E.
  simpl in Hq, Ha, Hs. subst ok q1. simpl. rewrite Ha. simpl.
  reflexivity.
Qed.

(** C4 (amended).  When an admitted poll fails with a transient error while
    [consecutiveErrors] is [n], the counter becomes [n + 1] and exactly one
    poll timer is registered, with delay
    [min (12000 * 2 ^ (n + 1)) 300000]: the exponent is the counter after
    the increment. *)
Theorem backoff_after_transient_failure (tz : Z) (b : t) (now : Z)
    (message : string) (farewell : InsertOutcome) (n : Z) :
  isRunning (state b) = true →
  Js.truthyStr (liveChatId (state b)) = true →
  (QuotaManager.canMakeApiCall tz (quotaManager b) now "CHAT_LIST").1 = true →
  isTerminal message = false →
  consecutiveErrors (state b) = n →
  consecutiveErrors (state (pollMessages tz b now (ListErr message) farewell).1)
  = n + 1 ∧
  pollTimers (pollMessages tz b now (ListErr message) farewell).2
  = [Z.min (12000 * 2 ^ (n + 1)) 300000].
Proof.
  intros Hr Hc Hq Ht Hn.
  rewrite (pollMessages_failure tz b now message farewell Hr Hc Hq). simpl.
  rewrite Ht.
  match goal with |- context [handleError tz ?x now farewell] =>
    pose proof (handleError_errors tz x now farewell) as (He & H1 & H2);
    destruct (handleError tz x now farewell) as [[b3 begun] resumed]
  end.
  simpl in *. rewrite He, Hn. split; [done |].
  rewrite pollTimers_app. simpl. by rewrite H1, H2.
Qed.

(** C5.  When the poll is reached ([isRunning], a chat id) and the quota gate
    refuses the chat-list operation, the only effect is one poll timer of
    60000 ms, and the whole session state (error counter, video id, chat id,
    page token, running flag) is unchanged, as are the context and the
    throttle; no request is issued and nothing is raised. *)
Theorem quota_denied_poll_pauses (tz : Z) (b : t) (now : Z) (api : ListOutcome)
    (farewell : InsertOutcome) :
  isRunning (state b) = true →
  Js.truthyStr (liveChatId (state b)) = true →
  (QuotaManager.canMakeApiCall tz (quotaManager b) now "CHAT_LIST").1 = false →
  (pollMessages tz b now api farewell).2 = [SetTimeoutPoll 60000] ∧
  state (pollMessages tz b now api farewell).1 = state b ∧
  context (pollMessages tz b now api farewell).1 = context b ∧
  rateLimiter (pollMessages tz b now api farewell).1 = rateLimiter b.
Proof.
  intros Hr Hc Hq. unfold pollMessages. rewrite Hr, Hc. simpl.
  destruct (QuotaManager.canMakeApiCall tz (quotaManager b) now "CHAT_LIST")
    as [ok q1].
  simpl in Hq. subst ok. done.
Qed.

Lemma pollMessages_stopped (tz : Z) (b : t) (now : Z) (api : ListOutcome)
    (fw : InsertOutcome) :
  isRunning (state b) = false → pollMessages tz b now api fw = (b, []).
Proof. intros H. unfold pollMessages. by rewrite H. Qed.

Lemma chat_list_admitted (tz : Z) (q : QuotaManager.t) (now : Z) :
  QuotaManager.dailyQuotaUsed q ≤ 8995 →
  (QuotaManager.canMakeApiCall tz q now "CHAT_LIST").1 = true ∧
  QuotaManager.dailyQuotaUsed
    (QuotaManager.trackApiCall (QuotaManager.checkQuotaReset tz q now)
       now "CHAT_LIST" false) ≤ 8995.
Proof.
  intros H. rewrite canMakeApiCall_true.
  assert (Hc : QuotaManager.costOf "CHAT_LIST" = 5) by reflexivity.
  rewrite Hc. unfold SAFE_QUOTA_LIMIT. simpl.
  destruct (checkQuotaReset_used tz q now) as [-> | ->]; lia.
Qed.

Lemma poll_transient_below (tz : Z) (b : t) (i : PollInput) :
  isRunning (state b) = true →
  Js.truthyStr (liveChatId (state b)) = true →
  QuotaManager.dailyQuotaUsed (quotaManager b) ≤ 8995 →
  isTransientFailure i = true →
  consecutiveErrors (state b) + 1 < maxConsecutiveErrors (state b) →
  ∃ b',
    pollMessages tz b (piNow i) (piList i) (piFarewell i)
    = (b', [request b;
            SetTimeoutPoll (backoffTime (consecutiveErrors (state b) + 1))]) ∧
    state b' = setErrors (state b) (consecutiveErrors (state b) + 1) ∧
    QuotaManager.dailyQuotaUsed (quotaManager b') ≤ 8995.
Proof.
  intros Hr Hc Hq Ht Hn. unfold isTransientFailure in Ht.
  destruct (piList i) as [| message]; [done |].
  apply negb_true_iff in Ht.
  destruct (chat_list_admitted tz (quotaManager b) (piNow i) Hq) as [Ha Hu].
  rewrite (pollMessages_failure tz b (piNow i) message (piFarewell i) Hr Hc Ha).
  simpl. rewrite handleError_below by exact Hn. rewrite Ht.
  eexists. split; [reflexivity |]. split; [reflexivity | exact Hu].
Qed.

Lemma poll_transient_reached (tz : Z) (b : t) (i : PollInput) :
  isRunning (state b) = true →
  Js.truthyStr (liveChatId (state b)) = true →
  QuotaManager.dailyQuotaUsed (quotaManager b) ≤ 8995 →
  isTransientFailure i = true →
  maxConsecutiveErrors (state b) ≤ consecutiveErrors (state b) + 1 →
  ∃ b' rest,
    pollMessages tz b (piNow i) (piList i) (piFarewell i)
    = (b', request b :: ClearIntervals :: rest) ∧
    state b'
    = setStopped (setErrors (state b) (consecutiveErrors (state b) + 1)) ∧
    pollTimers rest = [backoffTime (consecutiveErrors (state b) + 1)] ∧
    SetTimeoutExit 2000 ∈ rest.
Proof.
  intros Hr Hc Hq Ht Hn. unfold isTransientFailure in Ht.
  destruct (piList i) as [| message]; [done |].
  apply negb_true_iff in Ht.
  destruct (chat_list_admitted tz (quotaManager b) (piNow i) Hq) as [Ha Hu].
  rewrite (pollMessages_failure tz b (piNow i) message (piFarewell i) Hr Hc Ha).
  simpl. rewrite handleError_reached by exact Hn. rewrite Ht.
  match goal with |- context [gracefulShutdown tz ?x ?n ?f] =>
    destruct (gracefulShutdown_spec tz x n f)
      as (b' & sent & resumed & -> & Hs & H1 & H2 & Hin)
  end.
  simpl in Hs. eexists b', _. split; [reflexivity |].
  rewrite Hs. split; [reflexivity |].
  rewrite pollTimers_app. simpl. rewrite H1, H2. simpl. split; [done |].
  apply elem_of_app in Hin as [Hin | Hin]; apply elem_of_app.
  - by left.
  - right. by apply elem_of_cons; right.
Qed.

(** Rewrites the state of every bot of a run down to the first one. *)
Ltac unwind :=
  repeat match goal with
         | H : state ?x = _ |- context [state ?x] => rewrite H; simpl
         end.

Ltac unwind_side := first [assumption | unwind; first [assumption | lia]].

(** One failed poll below the threshold, inside a run. *)
Ltac failed_poll tz b i b' :=
  let Hp := fresh "Hp" in
  let Hs := fresh "Hs" in
  let Hq := fresh "Hq" in
  destruct (poll_transient_below tz b i) as (b' & Hp & Hs & Hq);
  [ unwind_side .. | rewrite Hp; clear Hp ].

(** C8 (amended).  With the threshold at 5, five polls in a row that fail
    with a transient error, starting from a zero counter, register the poll
    timers 24000, 48000, 96000 and 192000 ms, and the fifth lowers
    [isRunning] and [isMonitoring] with the counter at 5: the intervals are
    cleared first, the farewell insert (if any) and the exit come after that,
    and one more poll timer (300000 ms) is registered after shutdown has
    begun; a poll fired on the stopped bot returns at once, with no request
    and no timer. *)
Theorem five_failures_shut_down (tz : Z) (b : t) (inputs : list PollInput) :
  isRunning (state b) = true →
  Js.truthyStr (liveChatId (state b)) = true →
  consecutiveErrors (state b) = 0 →
  maxConsecutiveErrors (state b) = 5 →
  QuotaManager.dailyQuotaUsed (quotaManager b) ≤ 8995 →
  length inputs = 5%nat →
  Forall (λ i, isTransientFailure i = true) inputs →
  state (pollRun tz b inputs).1 = setStopped (setErrors (state b) 5) ∧
  (∃ rest,
     (pollRun tz b inputs).2
     = [ [request b; SetTimeoutPoll 24000];
         [request b; SetTimeoutPoll 48000];
         [request b; SetTimeoutPoll 96000];
         [request b; SetTimeoutPoll 192000];
         request b :: ClearIntervals :: rest ] ∧
     pollTimers rest = [300000] ∧
     SetTimeoutExit 2000 ∈ rest) ∧
  ∀ now api farewell,
    pollMessages tz (pollRun tz b inputs).1 now api farewell
    = ((pollRun tz b inputs).1, []).
Proof.
  intros Hr Hc He Hm Hq Hlen Ht.
  destruct inputs as [| i1 [| i2 [| i3 [| i4 [| i5 [| i6 l]]]]]]; try done.
  clear Hlen.
  apply Forall_cons in Ht as [Ht1 Ht].
  apply Forall_cons in Ht as [Ht2 Ht].
  apply Forall_cons in Ht as [Ht3 Ht].
  apply Forall_cons in Ht as [Ht4 Ht].
  apply Forall_cons in Ht as [Ht5 _].
  simpl.
  failed_poll tz b i1 b1.
  failed_poll tz b1 i2 b2.
  failed_poll tz b2 i3 b3.
  failed_poll tz b3 i4 b4.
  destruct (poll_transient_reached tz b4 i5)
    as (b5 & rest & Hp & Hs5 & Hpt & Hin); [unwind_side .. |].
  rewrite Hp. clear Hp. simpl.
  unfold request in *. revert Hs5 Hpt. unwind. rewrite !He.
  change (backoffTime (0 + 1)) with 24000.
  change (backoffTime (0 + 1 + 1)) with 48000.
  change (backoffTime (0 + 1 + 1 + 1)) with 96000.
  change (backoffTime (0 + 1 + 1 + 1 + 1)) with 192000.
  change (backoffTime (0 + 1 + 1 + 1 + 1 + 1)) with 300000.
  intros Hs5 Hpt.
  split; [exact Hs5 |]. split.
  - exists rest. split; [reflexivity |]. split; [exact Hpt | exact Hin].
  - intros now api fw. apply pollMessages_stopped. by rewrite Hs5.
Qed.

(** C4 as stated fails: with the counter at 0 the timer registered after a
    transient failure is 24000 ms, not [min (12000 * 2 ^ 0) 300000]. *)
Lemma backoff_exponent_counterexample :
  let b := Fixtures.pollingBot in
  let r := pollMessages 0 b (Fixtures.T0 + 1000) (ListErr "socket hang up") None in
  consecutiveErrors (state b) = 0 ∧
  isTerminal "socket hang up" = false ∧
  consecutiveErrors (state r.1) = 1 ∧
  pollTimers r.2 = [24000] ∧
  pollTimers r.2 ≠ [Z.min (12000 * 2 ^ consecutiveErrors (state b)) 300000].
Proof. vm_compute. repeat split; discriminate. Qed.

(** The first failure of a polling bot. *)
Lemma backoff_after_transient_failure_witness :
  consecutiveErrors
    (state (pollMessages 0 Fixtures.pollingBot (Fixtures.T0 + 1000)
              (ListErr "socket hang up") None).1) = 0 + 1 ∧
  pollTimers (pollMessages 0 Fixtures.pollingBot (Fixtures.T0 + 1000)
                (ListErr "socket hang up") None).2
  = [Z.min (12000 * 2 ^ (0 + 1)) 300000].
Proof.
  apply (backoff_after_transient_failure 0 Fixtures.pollingBot
           (Fixtures.T0 + 1000) "socket hang up" None 0).
  - reflexivity.
  - reflexivity.
  - vm_compute. reflexivity.
  - vm_compute. reflexivity.
  - reflexivity.
Defined.

(** A poll on a bot whose ledger leaves less than the cost of a chat-list
    request. *)
Lemma quota_denied_poll_pauses_witness :
  (pollMessages 0 Fixtures.exhaustedBot (Fixtures.T0 + 1000)
     (ListOk [] None None) None).2 = [SetTimeoutPoll 60000] ∧
  state (pollMessages 0 Fixtures.exhaustedBot (Fixtures.T0 + 1000)
           (ListOk [] None None) None).1 = state Fixtures.exhaustedBot ∧
  context (pollMessages 0 Fixtures.exhaustedBot (Fixtures.T0 + 1000)
             (ListOk [] None None) None).1 = context Fixtures.exhaustedBot ∧
  rateLimiter (pollMessages 0 Fixtures.exhaustedBot (Fixtures.T0 + 1000)
                 (ListOk [] None None) None).1 = rateLimiter Fixtures.exhaustedBot.
Proof.
  apply (quota_denied_poll_pauses 0 Fixtures.exhaustedBot (Fixtures.T0 + 1000)
           (ListOk [] None None) None).
  - reflexivity.
  - reflexivity.
  - vm_compute. reflexivity.
Defined.

(** C8 as stated fails: in the fifth failed poll a poll timer of 300000 ms is
    registered after the intervals have been cleared, that is after shutdown
    has begun, and no handle of it is kept that a later step could cancel. *)
Lemma retry_after_shutdown_counterexample :
  let r := pollRun 0 Fixtures.pollingBot Fixtures.fiveFailures in
  isRunning (state r.1) = false ∧
  consecutiveErrors (state r.1) = 5 ∧
  (∃ fifth, last r.2 = Some fifth ∧
            pollTimers (afterShutdownBegins fifth) = [300000]) ∧
  ¬ Forall (λ log, pollTimers (afterShutdownBegins log) = []) r.2.
Proof.
  intros r.
  split; [vm_compute; reflexivity |]. split; [vm_compute; reflexivity |]. split.
  - eexists. split; vm_compute; reflexivity.
  - intros H. rewrite Forall_forall in H.
    specialize (H (default [] (last r.2))).
    assert (Hin : default [] (last r.2) ∈ r.2)
      by (apply list_elem_of_In; vm_compute; tauto).
    specialize (H Hin). vm_compute in H. discriminate.
Qed.

(** Five failures of a polling bot, each fired by the timer of the one
    before. *)
Lemma five_failures_shut_down_witness :
  state (pollRun 0 Fixtures.pollingBot Fixtures.fiveFailures).1
  = setStopped (setErrors (state Fixtures.pollingBot) 5) ∧
  (∃ rest,
     (pollRun 0 Fixtures.pollingBot Fixtures.fiveFailures).2
     = [ [request Fixtures.pollingBot; SetTimeoutPoll 24000];
         [request Fixtures.pollingBot; SetTimeoutPoll 48000];
         [request Fixtures.pollingBot; SetTimeoutPoll 96000];
         [request Fixtures.pollingBot; SetTimeoutPoll 192000];
         request Fixtures.pollingBot :: ClearIntervals :: rest ] ∧
     pollTimers rest = [300000] ∧
     SetTimeoutExit 2000 ∈ rest) ∧
  ∀ now api farewell,
    pollMessages 0 (pollRun 0 Fixtures.pollingBot Fixtures.fiveFailures).1
      now api farewell
    = ((pollRun 0 Fixtures.pollingBot Fixtures.fiveFailures).1, []).
Proof.
  apply (five_failures_shut_down 0 Fixtures.pollingBot Fixtures.fiveFailures).
  - reflexivity.
  - reflexivity.
  - reflexivity.
  - reflexivity.
  - vm_compute. discriminate.
  - reflexivity.
  - apply (bool_decide_unpack _). vm_compute. reflexivity.
Defined.

End PollFacts.

(** ** Quota ledger: history, reset and estimate *)

Module LedgerFacts.
Import Constants QuotaManager QuotaFacts.

Lemma sliceLast_length {A} (n : nat) (l : list A) :
  length (Js.sliceLast n l) = Nat.min n (length l).
Proof. unfold Js.sliceLast. rewrite length_drop. lia. Qed.

Lemma trimHistory_length (h : list Entry) : (length (trimHistory h) ≤ 100)%nat.
Proof.
  unfold trimHistory. destruct (100 <? length h)%nat eqn:E.
  - rewrite sliceLast_length. lia.
  - apply Nat.ltb_ge in E. lia.
Qed.

Lemma trimHistory_last (h : list Entry) (e : Entry) :
  last (trimHistory (h ++ [e])) = Some e.
Proof.
  unfold trimHistory, Js.sliceLast.
  destruct (100 <? length (h ++ [e]))%nat; [| apply last_snoc].
  rewrite length_app. simpl.
  rewrite drop_app_le by lia.
  apply last_snoc.
Qed.

Lemma step_history_bounded (tz : Z) (q : t) (c : Call) :
  (length (quotaHistory q) ≤ 100)%nat →
  (length (quotaHistory (step tz q c)) ≤ 100)%nat.
Proof.
  intros H. destruct c as [now op | now op ok | now]; simpl.
  - rewrite canMakeApiCall_state. unfold checkQuotaReset.
    destruct (_ <=? _); simpl; [lia | done].
  - unfold trackApiCall. destruct ok; simpl; apply trimHistory_length.
  - unfold checkQuotaReset. destruct (_ <=? _); simpl; [lia | done].
Qed.

(** The history never holds more than 100 entries, whatever the calls, and
    the entry of a record is the newest one: it is last in the history and
    carries the cost charged, which is 0 for a failed call. *)
Theorem history_bounded_newest_last (tz t0 : Z) (cs : list Call) (now : Z)
    (op : string) (ok : bool) :
  (length (quotaHistory (run tz (new tz t0) cs)) ≤ 100)%nat ∧
  last (quotaHistory (trackApiCall (run tz (new tz t0) cs) now op ok))
  = Some (mkEntry now op (if ok then costOf op else 0) ok).
Proof.
  split.
  - assert (G : ∀ q, (length (quotaHistory q) ≤ 100)%nat →
                (length (quotaHistory (run tz q cs)) ≤ 100)%nat).
    { unfold run. induction cs as [| c cs IH]; intros q H; [done |].
      simpl. apply IH. by apply step_history_bounded. }
    apply G. simpl. lia.
  - unfold trackApiCall. destruct ok; simpl; apply trimHistory_last.
Qed.

Lemma checkQuotaReset_fixed_offset (tz : Z) (q : t) (now : Z) :
  checkQuotaReset tz q now = checkQuotaResetIn (getNextQuotaReset tz) q now.
Proof. reflexivity. Qed.


Lemma spend_ledger (q : t) (now : Z) (op : string) (k : nat) :
  dailyQuotaUsed (spend q now op k) = dailyQuotaUsed q + Z.of_nat k * costOf op ∧
  quotaResetTime (spend q now op k) = quotaResetTime q.
Proof.
  induction k as [| k [IH1 IH2]]; [simpl; lia |].
  cbn [spend].
  destruct (trackApiCall_ledger (spend q now op k) now op true) as [H1 H2].
  rewrite H1, H2, IH1, IH2. lia.
Qed.

(** [estimateRemainingCalls] is exact: while no reset is due, after [k]
    further successful calls of a kind the next one of that kind is admitted
    exactly when [k] is below the estimate taken beforehand. *)
Theorem estimate_counts_admissions (tz : Z) (q : t) (now : Z) (op : string)
    (k : nat) :
  now < quotaResetTime q →
  fst (canMakeApiCall tz (spend q now op k) now op) = true ↔
  Z.of_nat k < estimateRemainingCalls q op.
Proof.
  intros H. rewrite canMakeApiCall_true.
  destruct (spend_ledger q now op k) as [Hu Hr].
  unfold checkQuotaReset. rewrite Hr.
  destruct (quotaResetTime q <=? now) eqn:E; [lia |].
  rewrite Hu. unfold estimateRemainingCalls.
  pose proof (costOf_range op) as Hc.
  split; intros G.
  - apply Z.lt_le_trans with (m := (Z.of_nat k + 1)); [lia |].
    apply Z.div_le_lower_bound; lia.
  - assert (Z.of_nat k + 1 ≤ (SAFE_QUOTA_LIMIT - dailyQuotaUsed q) / costOf op)
      as G' by lia.
    pose proof (Z.mul_div_le (SAFE_QUOTA_LIMIT - dailyQuotaUsed q) (costOf op)
                  ltac:(lia)).
    nia.
Qed.

Lemma historyCost_app (h1 h2 : list Entry) :
  historyCost (h1 ++ h2) = historyCost h1 + historyCost h2.
Proof.
  unfold historyCost. induction h1 as [| e h1 IH]; simpl; [done |].
  rewrite IH. lia.
Qed.

Lemma historyCost_drop (n : nat) (h : list Entry) :
  Forall (λ e, 0 ≤ cost e) h →
  0 ≤ historyCost (drop n h) ≤ historyCost h.
Proof.
  intros H. revert n. induction H as [| e h He _ IH]; intros n.
  - rewrite drop_nil. simpl. lia.
  - destruct n as [| n]; simpl.
    + specialize (IH 0%nat). rewrite drop_0 in IH. lia.
    + specialize (IH n). lia.
Qed.

Lemma accounted_reset (tz : Z) (q : t) (now : Z) :
  accounted q → accounted (checkQuotaReset tz q now).
Proof.
  intros H. unfold checkQuotaReset. destruct (_ <=? _); [| done].
  repeat split; simpl; try done; lia.
Qed.

Lemma accounted_track (q : t) (now : Z) (op : string) (ok : bool) :
  accounted q → accounted (trackApiCall q now op ok).
Proof.
  intros (Hpos & Hlen & Hle & Heq).
  pose proof (costOf_range op) as Hc.
  set (e := mkEntry now op (if ok then costOf op else 0) ok).
  assert (He : 0 ≤ cost e) by (subst e; destruct ok; simpl; lia).
  assert (Hq : quotaHistory (trackApiCall q now op ok)
               = trimHistory (quotaHistory q ++ [e])
               ∧ dailyQuotaUsed (trackApiCall q now op ok)
                 = dailyQuotaUsed q + cost e).
  { subst e. unfold trackApiCall. destruct ok; simpl; split; try done; lia. }
  destruct Hq as [Hh Hu]. unfold accounted. rewrite Hh, Hu.
  assert (Hall : Forall (λ e, 0 ≤ cost e) (quotaHistory q ++ [e])).
  { apply Forall_app. split; [done |]. by apply Forall_singleton. }
  assert (Hsum : historyCost (quotaHistory q ++ [e])
                 = historyCost (quotaHistory q) + cost e).
  { rewrite historyCost_app. unfold historyCost. simpl. lia. }
  unfold trimHistory. destruct (100 <? length (quotaHistory q ++ [e]))%nat eqn:E.
  - unfold Js.sliceLast. split; [by apply Forall_drop |].
    rewrite length_drop. rewrite length_app in *. simpl in *.
    apply Nat.ltb_lt in E.
    pose proof (historyCost_drop (length (quotaHistory q) + 1 - 100)
                  (quotaHistory q ++ [e]) Hall) as Hd.
    split; [lia |]. split; [lia |]. intros G. lia.
  - apply Nat.ltb_ge in E. rewrite length_app in *. simpl in *.
    split; [done |]. split; [lia |].
    rewrite Hsum. rewrite Heq by lia. split; [lia |]. intros _. lia.
Qed.

Lemma accounted_step (tz : Z) (q : t) (c : Call) :
  accounted q → accounted (step tz q c).
Proof.
  intros H. destruct c as [now op | now op ok | now]; simpl.
  - rewrite canMakeApiCall_state. by apply accounted_reset.
  - by apply accounted_track.
  - by apply accounted_reset.
Qed.

(** The history never overstates the counter: after any calls on a fresh
    ledger the costs of its entries add up to at most [dailyQuotaUsed], and
    to exactly [dailyQuotaUsed] as long as it holds fewer than 100 entries,
    that is until the first eviction after a reset. *)
Theorem history_accounts_for_counter (tz t0 : Z) (cs : list Call) :
  historyCost (quotaHistory (run tz (new tz t0) cs))
  ≤ dailyQuotaUsed (run tz (new tz t0) cs) ∧
  ((length (quotaHistory (run tz (new tz t0) cs)) < 100)%nat →
   historyCost (quotaHistory (run tz (new tz t0) cs))
   = dailyQuotaUsed (run tz (new tz t0) cs)).
Proof.
  assert (G : ∀ q, accounted q → accounted (run tz q cs)).
  { unfold run. induction cs as [| c cs IH]; intros q H; [done |].
    simpl. apply IH. by apply accounted_step. }
  destruct (G (new tz t0)) as (_ & _ & H1 & H2).
  - repeat split; simpl; try done; lia.
  - split; [exact H1 | exact H2].
Qed.

End LedgerFacts.

(** ** Response throttle: cooldowns, sweep and statistics *)

Module ThrottleMore.
Import RateLimiter ThrottleFacts.

Lemma filter_none {A} (f : A → bool) (l : list A) :
  Forall (λ x, f x = false) l → List.filter f l = [].
Proof.
  induction 1 as [| x l Hx _ IH]; [done |]. simpl. by rewrite Hx.
Qed.

Lemma filter_narrower {A} (f g : A → bool) (l : list A) :
  (∀ x, f x = true → g x = true) →
  List.filter f (List.filter g l) = List.filter f l.
Proof.
  intros H. induction l as [| x l IH]; [done |]. simpl.
  destruct (g x) eqn:Eg; simpl.
  - destruct (f x); by rewrite IH.
  - destruct (f x) eqn:Ef; [| done]. apply H in Ef. congruence.
Qed.

Lemma recordAll_cons (r : t) (p : Z * string) (l : list (Z * string)) :
  recordAll r (p :: l) = recordAll (recordResponse r p.1 p.2) l.
Proof. reflexivity. Qed.

(** The per-author map is a faithful register: after a run of recorded
    replies the entry of an author is the instant of the latest reply to
    that author, and the entries of the other authors are as before. *)
Theorem userResponses_latest_reply (replies : list (Z * string)) (r : t)
    (userId : string) :
  userResponses (recordAll r replies) !! userId
  = match lastReplyTo userId replies with
    | Some latest => Some latest
    | None => userResponses r !! userId
    end.
Proof.
  revert r. induction replies as [| [time author] l IH]; intros r; [done |].
  rewrite recordAll_cons, IH. simpl.
  destruct (lastReplyTo userId l); [done |].
  rewrite lookup_insert.
  destruct (String.eqb author userId) eqn:E.
  - apply String.eqb_eq in E. by rewrite decide_True.
  - apply String.eqb_neq in E. by rewrite decide_False.
Qed.

Lemma recordAll_dom (replies : list (Z * string)) (r : t) :
  dom (userResponses (recordAll r replies))
  = dom (userResponses r) ∪ list_to_set (map snd replies).
Proof.
  revert r. induction replies as [| [time author] l IH]; intros r.
  - simpl. by rewrite union_empty_r_L.
  - rewrite recordAll_cons, IH. simpl. rewrite dom_insert_L.
    apply set_eq. intros x. rewrite !elem_of_union. tauto.
Qed.

(** [getStats] counts the distinct authors replied to: on a limiter that has
    just been constructed and has recorded some replies, [activeUsers] is
    the number of different authors among them, and [hourlyResponses] the
    number of replies of the last hour. *)
Theorem getStats_counts (config : Config) (replies : list (Z * string))
    (now : Z) :
  let stats := fst (getStats (recordAll (new config) replies) now) in
  statActiveUsers stats = Z.of_nat (length (remove_dups (map snd replies))) ∧
  statHourlyResponses stats
  = Z.of_nat (length (List.filter (inLastHour now) (map fst replies))).
Proof.
  unfold getStats, getHourlyResponseCount. simpl.
  destruct (recordAll_fields replies (new config)) as (_ & _ & _ & H4).
  split.
  - rewrite <- size_dom, recordAll_dom. simpl. rewrite dom_empty_L.
    f_equal.
    assert (E : (∅ ∪ list_to_set (map snd replies) : gset string)
                = list_to_set (remove_dups (map snd replies))).
    { apply set_eq. intros x.
      rewrite elem_of_union, !elem_of_list_to_set, elem_of_remove_dups.
      rewrite elem_of_empty. tauto. }
    rewrite E. apply size_list_to_set, NoDup_remove_dups.
  - by rewrite H4.
Qed.

(** After a reply to an author, once the global cooldown has run and while
    the author's own cooldown has not, with the hourly list still below the
    cap, that author is refused with [user_cooldown] while an author never
    replied to is allowed. *)
Theorem author_cooldown_after_reply (r : t) (time later : Z)
    (userId other : string) :
  time ≠ 0 →
  globalCooldown r ≤ later - time →
  later - time < userCooldown r →
  Z.of_nat (length (List.filter (inLastHour later) (hourlyResponses r ++ [time])))
  < maxResponsesPerHour r →
  userResponses r !! other = None →
  other ≠ userId →
  fst (canRespond (recordResponse r time userId) later userId)
  = mkVerdict false (Some user_cooldown) ∧
  fst (canRespond (recordResponse r time userId) later other)
  = mkVerdict true None.
Proof.
  intros Ht Hg Hu Hh Ho Hne.
  unfold canRespond, getHourlyResponseCount. simpl.
  destruct (later - time <? globalCooldown r) eqn:E1; [lia |].
  destruct (maxResponsesPerHour r <=? _) eqn:E2; [lia |].
  rewrite lookup_insert_eq, lookup_insert_ne, Ho by done.
  split; [| done].
  destruct (time =? 0) eqn:E3; [lia |].
  destruct (later - time <? userCooldown r) eqn:E4; [done | lia].
Qed.

(** The periodic sweep is invisible to later checks when the per-author
    cooldown is at most one hour: a check made at or after the sweep gives
    the verdict it would have given without it. *)
Theorem cleanup_keeps_verdicts (r : t) (now later : Z) (userId : string) :
  userCooldown r ≤ 3600000 →
  now ≤ later →
  fst (canRespond (cleanup r now) later userId)
  = fst (canRespond r later userId).
Proof.
  intros Hu Hl. unfold canRespond, getHourlyResponseCount, cleanup. simpl.
  destruct (later - lastGlobalResponse r <? globalCooldown r); [done |].
  rewrite (filter_narrower (inLastHour later) (inLastHour now)).
  2:{ intros x. unfold inLastHour. intros H.
      apply Z.ltb_lt in H. apply Z.ltb_lt. lia. }
  destruct (maxResponsesPerHour r <=? _); [done |].
  destruct (userResponses r !! userId) as [last |] eqn:E.
  - destruct (decide (last < now - 3600000)) as [Hold | Hnew].
    + assert (G : filter (λ kv : string * Z, ¬ kv.2 < now - 3600000)
                    (userResponses r) !! userId = None).
      { apply map_lookup_filter_None. right. intros x Hx.
        rewrite E in Hx. injection Hx as <-. simpl. lia. }
      rewrite G.
      assert (E' : (later - last <? userCooldown r) = false)
        by (apply Z.ltb_ge; lia).
      rewrite E'. by rewrite andb_false_r.
    + assert (G : filter (λ kv : string * Z, ¬ kv.2 < now - 3600000)
                    (userResponses r) !! userId = Some last).
      { apply map_lookup_filter_Some. split; [done |]. simpl. lia. }
      rewrite G. by destruct (negb (last =? 0) && _).
  - assert (G : filter (λ kv : string * Z, ¬ kv.2 < now - 3600000)
                  (userResponses r) !! userId = None).
    { apply map_lookup_filter_None. by left. }
    by rewrite G.
Qed.

Lemma times_bounded (c : Z) (l : list Z) : ∃ T, Forall (λ t, t + c ≤ T) l.
Proof.
  induction l as [| t l [T IH]].
  - by exists 0.
  - exists (Z.max T (t + c)). constructor; [lia |].
    eapply Forall_impl; [exact IH |]. simpl. intros. lia.
Qed.

Lemma entries_bounded (c : Z) (m : gmap string Z) :
  ∃ T, map_Forall (λ _ t, t + c ≤ T) m.
Proof.
  induction m as [| k t m Hk [T IH]] using map_ind.
  - exists 0. apply map_Forall_empty.
  - exists (Z.max T (t + c)). apply map_Forall_insert; [done |].
    split; [lia |]. eapply map_Forall_impl; [exact IH |]. simpl. intros. lia.
Qed.

(** The throttle always reopens: whatever its state, with a cap of at least
    one reply per hour there is an instant from which every check, for every
    author, is allowed as long as no further reply is recorded. *)
Theorem throttle_reopens (r : t) :
  1 ≤ maxResponsesPerHour r →
  ∃ T, ∀ now userId,
    T ≤ now → fst (canRespond r now userId) = mkVerdict true None.
Proof.
  intros Hm.
  destruct (times_bounded 3600000 (hourlyResponses r)) as [T1 H1].
  destruct (entries_bounded (userCooldown r) (userResponses r)) as [T2 H2].
  exists (Z.max (lastGlobalResponse r + globalCooldown r) (Z.max T1 T2)).
  intros now userId Hn. unfold canRespond, getHourlyResponseCount. simpl.
  destruct (now - lastGlobalResponse r <? globalCooldown r) eqn:E1; [lia |].
  rewrite (filter_none (inLastHour now) (hourlyResponses r)).
  2:{ eapply Forall_impl; [exact H1 |]. simpl. intros t Ht.
      unfold inLastHour. apply Z.ltb_ge. lia. }
  simpl. change (Z.of_nat 0) with 0.
  destruct (maxResponsesPerHour r <=? 0) eqn:E2; [lia |].
  destruct (userResponses r !! userId) as [last |] eqn:E; [| done].
  specialize (H2 userId last E). simpl in H2.
  destruct (now - last <? userCooldown r) eqn:E3; [lia |].
  by rewrite andb_false_r.
Qed.

(** Edge cases of the hourly cap: a configured cap of 0 (like a missing one)
    falls back to 30, so 0 cannot switch replies off; a negative cap is kept
    and then no check is ever allowed. *)
Theorem hourly_cap_edge_cases (g u : option Z) (r : t) (now : Z)
    (userId : string) :
  maxResponsesPerHour (new (mkConfig (Some 0) g u)) = 30 ∧
  maxResponsesPerHour (new (mkConfig None g u)) = 30 ∧
  (∀ n, n ≠ 0 → maxResponsesPerHour (new (mkConfig (Some n) g u)) = n) ∧
  (maxResponsesPerHour r ≤ 0 → allowed (fst (canRespond r now userId)) = false).
Proof.
  split; [done |]. split; [done |]. split.
  - intros n Hn. simpl. destruct (n =? 0) eqn:E; [lia | done].
  - intros H. unfold canRespond, getHourlyResponseCount. simpl.
    destruct (_ <? _); [done |].
    destruct (maxResponsesPerHour r <=? _) eqn:E; [done |].
    exfalso. apply Z.leb_gt in E. lia.
Qed.

End ThrottleMore.

(** ** Chat context: bounded histories *)

Module ContextMore.
Import Constants Bot ContextFacts.

Lemma capTo_sliceLast {A} (n : nat) (l : list A) : capTo n l = Js.sliceLast n l.
Proof.
  unfold capTo, Js.sliceLast. destruct (n <? length l)%nat eqn:E; [done |].
  apply Nat.ltb_ge in E. replace (length l - n)%nat with 0%nat by lia. done.
Qed.

Lemma capTo_length {A} (n : nat) (l : list A) : (length (capTo n l) ≤ n)%nat.
Proof.
  rewrite capTo_sliceLast. unfold Js.sliceLast. rewrite length_drop. lia.
Qed.

Lemma sliceLast_all {A} (n : nat) (l : list A) :
  (length l ≤ n)%nat → Js.sliceLast n l = l.
Proof.
  intros H. unfold Js.sliceLast.
  replace (length l - n)%nat with 0%nat by lia. done.
Qed.

(** Capping after every append keeps what capping once at the end keeps. *)
Lemma sliceLast_app_sliceLast {A} (n : nat) (l xs : list A) :
  Js.sliceLast n (Js.sliceLast n l ++ xs) = Js.sliceLast n (l ++ xs).
Proof.
  destruct (decide (length l ≤ n)%nat) as [Hle | Hgt].
  - by rewrite (sliceLast_all n l).
  - unfold Js.sliceLast. rewrite !length_app, length_drop.
    destruct (decide (length xs ≤ n)%nat) as [Hx | Hx].
    + rewrite (drop_app_le l xs) by lia.
      rewrite (drop_app_le (drop _ l) xs) by (rewrite length_drop; lia).
      rewrite drop_drop. f_equal. f_equal. lia.
    + rewrite (drop_app_ge l xs) by lia.
      rewrite (drop_app_ge (drop _ l) xs) by (rewrite length_drop; lia).
      rewrite length_drop. f_equal. lia.
Qed.

Lemma updateContext_events (c : Context) (u : Update) :
  recentEvents (updateContext c (upNow u) (upType u) (upData u))
  = Js.sliceLast 50 (recentEvents c ++ [asEvent u]).
Proof.
  unfold updateContext, asEvent.
  destruct (upData u) as [author text [a |] | v title]; simpl;
    try apply capTo_sliceLast.
  destruct (String.eqb (upType u) "messageReceived"); simpl;
    apply capTo_sliceLast.
Qed.

Lemma updateContext_messages (c : Context) (u : Update) :
  messageHistory (updateContext c (upNow u) (upType u) (upData u))
  = match asMessage u with
    | Some m => Js.sliceLast 100 (messageHistory c ++ [m])
    | None => messageHistory c
    end.
Proof.
  unfold updateContext, asMessage.
  destruct (upData u) as [author text [a |] | v title]; simpl; try done.
  destruct (String.eqb (upType u) "messageReceived"); simpl; [| done].
  apply capTo_sliceLast.
Qed.

(** Both histories keep exactly the most recent entries, oldest first: after
    any run of context updates on a context within its bounds, the events
    are the last 50 of the old events followed by one event per update, and
    the messages are the last 100 of the old messages followed by one entry
    per analysed chat message. *)
Theorem histories_keep_most_recent (c : Context) (us : list Update) :
  (length (recentEvents c) ≤ 50)%nat →
  (length (messageHistory c) ≤ 100)%nat →
  recentEvents (updateAll c us)
  = Js.sliceLast 50 (recentEvents c ++ map asEvent us) ∧
  messageHistory (updateAll c us)
  = Js.sliceLast 100 (messageHistory c ++ omap asMessage us).
Proof.
  revert c. induction us as [| u us IH]; intros c He Hm.
  - simpl. rewrite !app_nil_r. by rewrite !sliceLast_all.
  - unfold updateAll in *. simpl.
    destruct (IH (updateContext c (upNow u) (upType u) (upData u))) as [IH1 IH2].
    { rewrite updateContext_events, LedgerFacts.sliceLast_length. lia. }
    { rewrite updateContext_messages. destruct (asMessage u); [| done].
      rewrite LedgerFacts.sliceLast_length. lia. }
    rewrite IH1, IH2, updateContext_events, updateContext_messages.
    split.
    + by rewrite sliceLast_app_sliceLast, <- app_assoc.
    + destruct (asMessage u) as [m |]; [| done].
      by rewrite sliceLast_app_sliceLast, <- app_assoc.
Qed.

End ContextMore.

(** ** Polling orchestrator: stream end, success and timers *)

Module PollMore.
Import Constants Bot QuotaFacts PollFacts.

Lemma handleError_pair (tz : Z) (b : t) (now : Z) (fw : InsertOutcome) :
  handleError tz b now fw
  = ((handleError tz b now fw).1.1, (handleError tz b now fw).1.2,
     (handleError tz b now fw).2).
Proof. by destruct (handleError tz b now fw) as [[? ?] ?]. Qed.

(** A terminal error below the error threshold ends the session cleanly:
    the only effects are the list request and the stream-ended event, the
    session identifiers and the derived context are reset, the error counter
    is back at 0, no poll timer is left, and a poll fired later returns at
    once. *)
Theorem terminal_error_ends_session (tz : Z) (b : t) (now : Z)
    (message : string) (farewell : InsertOutcome) :
  isRunning (state b) = true →
  Js.truthyStr (liveChatId (state b)) = true →
  (QuotaManager.canMakeApiCall tz (quotaManager b) now "CHAT_LIST").1 = true →
  isTerminal message = true →
  consecutiveErrors (state b) + 1 < maxConsecutiveErrors (state b) →
  let r := pollMessages tz b now (ListErr message) farewell in
  r.2 = [request b; EmitStreamEnded] ∧
  state r.1
  = mkState false (isMonitoring (state b)) None None None 0
            (maxConsecutiveErrors (state b)) (lastResponseTime (state b))
            (startTime (state b)) ∧
  currentGame (context r.1) = None ∧
  gameState (context r.1) = UNKNOWN ∧
  chatMood (context r.1) = NEUTRAL ∧
  messageHistory (context r.1) = messageHistory (context b) ∧
  ∀ later api fw, pollMessages tz r.1 later api fw = (r.1, []).
Proof.
  intros Hr Hc Hq Ht Hn r. subst r.
  rewrite (pollMessages_failure tz b now message farewell Hr Hc Hq). simpl.
  rewrite handleError_below by exact Hn. rewrite Ht. simpl.
  do 6 (split; [done |]). intros later api fw. by apply pollMessages_stopped.
Qed.

(** When a farewell is due and the ledger has room for it, shutdown issues
    the insert request right after clearing the intervals. *)
Lemma gracefulShutdown_farewell (tz : Z) (b : t) (now : Z) (fw : InsertOutcome) :
  Js.truthyStr (liveChatId (state b)) = true →
  canSendMessages b = true →
  QuotaManager.dailyQuotaUsed (quotaManager b) ≤ 8950 →
  (gracefulShutdown tz b now fw).1.2
  = [ClearIntervals; ApiChatInsert (liveChatId (state b)) farewellText].
Proof.
  intros Hc Hs Hq. unfold gracefulShutdown, sendMessage. simpl.
  rewrite Hc, Hs. simpl.
  assert (Hi : (QuotaManager.canMakeApiCall tz (quotaManager b) now
                  "CHAT_INSERT").1 = true).
  { apply canMakeApiCall_true.
    assert (Hcost : QuotaManager.costOf "CHAT_INSERT" = 50) by reflexivity.
    rewrite Hcost. unfold SAFE_QUOTA_LIMIT.
    destruct (checkQuotaReset_used tz (quotaManager b) now) as [-> | ->]; lia. }
  destruct (QuotaManager.canMakeApiCall tz (quotaManager b) now "CHAT_INSERT")
    as [ok q1].
  simpl in Hi. subst ok. simpl. by destruct fw.
Qed.

(** A terminal error that is also the error that reaches the threshold
    shuts the bot down although the stream merely ended: the intervals are
    cleared and the exit is scheduled, and when the bot can send and the
    ledger has room, the farewell is still sent to the chat that has just
    gone. *)
Theorem terminal_error_at_threshold_shuts_down (tz : Z) (b : t) (now : Z)
    (message : string) (farewell : InsertOutcome) :
  isRunning (state b) = true →
  Js.truthyStr (liveChatId (state b)) = true →
  QuotaManager.dailyQuotaUsed (quotaManager b) ≤ 8950 →
  isTerminal message = true →
  maxConsecutiveErrors (state b) ≤ consecutiveErrors (state b) + 1 →
  let r := pollMessages tz b now (ListErr message) farewell in
  isMonitoring (state r.1) = false ∧
  liveChatId (state r.1) = None ∧
  pollTimers r.2 = [] ∧
  (∃ rest, r.2 = request b :: ClearIntervals :: rest ∧
           EmitStreamEnded ∈ rest ∧ SetTimeoutExit 2000 ∈ rest ∧
           (canSendMessages b = true →
            ApiChatInsert (liveChatId (state b)) farewellText ∈ rest)).
Proof.
  intros Hr Hc Hq Ht Hn r. subst r.
  destruct (chat_list_admitted tz (quotaManager b) now ltac:(lia)) as [Ha _].
  rewrite (pollMessages_failure tz b now message farewell Hr Hc Ha). cbv zeta.
  rewrite handleError_reached by exact Hn. rewrite Ht.
  match goal with |- context [gracefulShutdown tz ?x now farewell] =>
    set (b1 := x)
  end.
  assert (Hu : QuotaManager.dailyQuotaUsed (quotaManager b1) ≤ 8950).
  { subst b1. simpl.
    destruct (checkQuotaReset_used tz (quotaManager b) now) as [-> | ->]; lia. }
  assert (Hc1 : Js.truthyStr (liveChatId (state b1)) = true) by exact Hc.
  pose proof (gracefulShutdown_farewell tz b1 now farewell Hc1) as Hf.
  destruct (gracefulShutdown_spec tz b1 now farewell)
    as (b' & sent & resumed & Hg & Hst & H1 & H2 & Hin).
  rewrite Hg in Hf. rewrite Hg. simpl in Hf. simpl.
  rewrite Hst. simpl.
  split; [done |]. split; [done |]. split.
  { rewrite !pollTimers_app. simpl. by rewrite H1, H2. }
  eexists. split; [reflexivity |]. split.
  { rewrite !elem_of_app, elem_of_cons. tauto. }
  split.
  { rewrite !elem_of_app in *. rewrite elem_of_cons. tauto. }
  intros Hs. specialize (Hf Hs Hu). injection Hf as ->.
  rewrite elem_of_app. left. rewrite elem_of_cons. by left.
Qed.


Lemma gracefulShutdown_timers (tz : Z) (b : t) (now : Z) (fw : InsertOutcome) :
  pollTimers (gracefulShutdown tz b now fw).1.2 = [] ∧
  pollTimers (gracefulShutdown tz b now fw).2 = [].
Proof.
  destruct (gracefulShutdown_spec tz b now fw)
    as (b' & sent & resumed & -> & _ & H1 & H2 & _).
  by simpl.
Qed.


End PollMore.

(** ** Permission levels and the decisions on a classified message *)

Module AuthorityFacts.
Import OwnerDetection.

Lemma isOwnerOrAdmin_of_level (d : t) (authorDetails : option AuthorDetails) :
  isOwnerOrAdmin d authorDetails
  = match getUserPermissionLevel d authorDetails with
    | OWNER | MODERATOR => true
    | VERIFIED | USER => false
    end.
Proof.
  destruct authorDetails as [author |]; [| reflexivity].
  unfold isOwnerOrAdmin, getUserPermissionLevel.
  repeat match goal with
         | |- context [if ?c then _ else _] => destruct c; simpl; try reflexivity
         end.
Qed.

(** The admin gate and the permission level agree: [isOwnerOrAdmin] answers
    true exactly for the authors whose level is [OWNER] or [MODERATOR]. *)
Theorem admin_gate_matches_level (d : t) (authorDetails : option AuthorDetails) :
  isOwnerOrAdmin d authorDetails
  = match getUserPermissionLevel d authorDetails with
    | OWNER | MODERATOR => true
    | VERIFIED | USER => false
    end.
Proof.
  unfold isOwnerOrAdmin, getUserPermissionLevel.
  destruct authorDetails as [author |]; [| done].
  destruct (sameId _ _); [done |].
  destruct (isChatOwner author); [done |]. simpl.
  destruct (nonEmpty (ownerUsernames d) && _); [done |].
  destruct (nonEmpty (moderators d) && _); [done |].
  by destruct (isVerified author).
Qed.

Lemma nonEmpty_elem {A} (x : A) (l : list A) : x ∈ l → nonEmpty l = true.
Proof. intros H. destruct l; [by apply elem_of_nil in H | done]. Qed.

(** Owner detection by name is a substring test: an author whose lower-cased
    display name merely contains one of the configured owner names has level
    [OWNER] and passes the admin gate, whatever the channel id and the
    flags. *)
Theorem owner_by_name_is_substring_match (d : t) (author : AuthorDetails)
    (username : string) :
  username ∈ ownerUsernames d →
  Js.includes (lowerName author) username = true →
  getUserPermissionLevel d (Some author) = OWNER ∧
  isOwnerOrAdmin d (Some author) = true.
Proof.
  intros Hin Hsub.
  assert (G : getUserPermissionLevel d (Some author) = OWNER).
  { unfold getUserPermissionLevel.
    destruct (sameId _ _ || _); [done |].
    rewrite (nonEmpty_elem username _ Hin). simpl.
    assert (Hm : usernameMatch d (lowerName author) = true).
    { unfold usernameMatch. apply existsb_exists. exists username.
      split; [by apply list_elem_of_In |]. rewrite Hsub. apply orb_true_r. }
    by rewrite Hm. }
  split; [done |]. by rewrite isOwnerOrAdmin_of_level, G.
Qed.

(** Moderators are matched by equality only, and a verified badge gives no
    admin right: an author who is not the owner by id, flag or name is a
    moderator exactly when the lower-cased display name is on the moderator
    list, and otherwise fails the admin gate. *)
Theorem moderator_by_exact_name (d : t) (author : AuthorDetails) :
  sameId (channelId author) (ownerChannelId d) = false →
  isChatOwner author = false →
  usernameMatch d (lowerName author) = false →
  (getUserPermissionLevel d (Some author) = MODERATOR
   ↔ lowerName author ∈ moderators d) ∧
  (lowerName author ∉ moderators d → isOwnerOrAdmin d (Some author) = false).
Proof.
  intros H1 H2 H3.
  assert (Hm : moderatorMatch d (lowerName author) = true
               ↔ lowerName author ∈ moderators d).
  { unfold moderatorMatch. rewrite existsb_exists. split.
    - intros (m & Hin & Heq). apply String.eqb_eq in Heq. subst m.
      by apply list_elem_of_In.
    - intros Hin. exists (lowerName author).
      split; [by apply list_elem_of_In | apply String.eqb_refl]. }
  assert (Hl : getUserPermissionLevel d (Some author)
               = if nonEmpty (moderators d) && moderatorMatch d (lowerName author)
                 then MODERATOR
                 else if isVerified author then VERIFIED else USER).
  { unfold getUserPermissionLevel. rewrite H1, H2, H3. simpl.
    by rewrite andb_false_r. }
  split.
  - rewrite Hl. split.
    + destruct (nonEmpty (moderators d)) eqn:E1; simpl.
      * destruct (moderatorMatch d (lowerName author)) eqn:E2.
        -- intros _. by apply Hm.
        -- by destruct (isVerified author).
      * by destruct (isVerified author).
    + intros Hin. rewrite (nonEmpty_elem _ _ Hin). simpl.
      apply Hm in Hin. by rewrite Hin.
  - intros Hnot. rewrite isOwnerOrAdmin_of_level, Hl.
    destruct (moderatorMatch d (lowerName author)) eqn:E2.
    + exfalso. apply Hnot. by apply Hm.
    + rewrite andb_false_r. by destruct (isVerified author).
Qed.

End AuthorityFacts.

Module AnalyzerFacts.
Import MessageAnalyzer.

(** The decisions that [analyze] derives hang together: the urgency is
    [low] exactly when no response is required; a message that starts with
    ['!'] has intent [command] and requires a response only when it mentions
    the bot; a greeting or a question that is no command always requires
    one; whether the streamer is mentioned never matters; and with no bot
    name in the context, as in the context the bot passes, the bot is
    mentioned exactly when the bot pattern matches. *)
Theorem decisions_hang_together (patterns : Patterns) (text : string)
    (botName : option string) (sentiment : string)
    (gameRelated streamerMention : bool) :
  let d := decide patterns text botName sentiment gameRelated streamerMention in
  (urgency d = low ↔ requires d = false) ∧
  (commands patterns = true → intent d = command ∧ requires d = botMention d) ∧
  (commands patterns = false →
   greetings patterns = true ∨ questions patterns = true → requires d = true) ∧
  decide patterns text botName sentiment gameRelated (negb streamerMention) = d ∧
  botMention (decide patterns text None sentiment gameRelated streamerMention)
  = bots patterns.
Proof.
  unfold decide, detectIntent, mentionsBot, requiresResponse, determineUrgency.
  destruct patterns as [g q b c e r]. simpl.
  split; [| split; [| split; [| split]]].
  - destruct c, g, q, b, e, r, streamerMention, botName as [n |];
      simpl; try destruct (negb _ && _); simpl;
      try destruct (String.eqb sentiment "positive"); simpl;
      split; intros; congruence.
  - intros ->. simpl. split; [done |].
    destruct b, streamerMention; simpl; try done;
      destruct botName as [n |]; simpl; try done;
      by destruct (negb _ && _).
  - intros -> [-> | ->]; simpl; [done |]. by destruct g.
  - destruct c, g, q, b, e, r, streamerMention, botName as [n |];
      simpl; try destruct (negb _ && _); simpl;
      try destruct (String.eqb sentiment "positive"); simpl; done.
  - by destruct b.
Qed.

End AnalyzerFacts.

(** ** Whatever happens: invariants of the whole bot *)

Module SessionInvariants.
Import Constants Bot Session QuotaFacts ContextFacts ContextMore.

#[local] Arguments QuotaManager.trackApiCall : simpl never.
#[local] Arguments updateContext : simpl never.

Lemma wellFormed_parts (b : t) :
  wellFormed b ↔
  ledgerOk (quotaManager b) ∧ 0 ≤ consecutiveErrors (state b) ∧
  contextOk (context b).
Proof. unfold wellFormed, ledgerOk, contextOk. tauto. Qed.

Lemma ledgerOk_reset (tz : Z) (q : QuotaManager.t) (now : Z) :
  ledgerOk q → ledgerOk (QuotaManager.checkQuotaReset tz q now).
Proof.
  unfold ledgerOk.
  destruct (checkQuotaReset_used tz q now) as [-> | ->];
    unfold SAFE_QUOTA_LIMIT; lia.
Qed.

Lemma ledgerOk_admission (tz : Z) (q : QuotaManager.t) (now : Z) (op : string) :
  ledgerOk q → ledgerOk (QuotaManager.canMakeApiCall tz q now op).2.
Proof. rewrite canMakeApiCall_state. apply ledgerOk_reset. Qed.

(** A charge that follows its own admission keeps the ledger in bounds. *)
Lemma ledgerOk_guarded (tz : Z) (q : QuotaManager.t) (now : Z) (op : string)
    (ok : bool) :
  ledgerOk q →
  (QuotaManager.canMakeApiCall tz q now op).1 = true →
  ledgerOk (QuotaManager.trackApiCall (QuotaManager.canMakeApiCall tz q now op).2
              now op ok).
Proof.
  intros Hq Ha. apply canMakeApiCall_true in Ha.
  rewrite canMakeApiCall_state.
  pose proof (ledgerOk_reset tz q now Hq) as Hr.
  destruct (trackApiCall_ledger (QuotaManager.checkQuotaReset tz q now) now op ok)
    as [_ Hu].
  unfold ledgerOk in *. rewrite Hu.
  pose proof (costOf_range op). destruct ok; lia.
Qed.

Lemma ledgerOk_getChatMessages (tz : Z) (q : QuotaManager.t) (now : Z)
    (chat token : option string) (api : ListOutcome) :
  ledgerOk q → ledgerOk (getChatMessages tz q now chat token api).1.2.
Proof.
  intros Hq. unfold getChatMessages.
  pose proof (ledgerOk_admission tz q now "CHAT_LIST" Hq) as H1.
  pose proof (ledgerOk_guarded tz q now "CHAT_LIST") as H2.
  destruct (QuotaManager.canMakeApiCall tz q now "CHAT_LIST") as [ok q1].
  destruct ok; simpl in *; [| done].
  destruct api; simpl; by apply H2.
Qed.

Lemma ledgerOk_sendMessage (tz : Z) (q : QuotaManager.t) (now : Z)
    (canSend : bool) (chat : option string) (text : string)
    (api : InsertOutcome) :
  ledgerOk q → ledgerOk (sendMessage tz q now canSend chat text api).1.2.
Proof.
  intros Hq. unfold sendMessage.
  pose proof (ledgerOk_admission tz q now "CHAT_INSERT" Hq) as H1.
  pose proof (ledgerOk_guarded tz q now "CHAT_INSERT") as H2.
  destruct (QuotaManager.canMakeApiCall tz q now "CHAT_INSERT") as [ok q1].
  destruct ok; simpl in *; [| done].
  destruct canSend; simpl; [| done].
  destruct api; simpl; by apply H2.
Qed.

Lemma ledgerOk_checkForLiveStream (tz : Z) (q : QuotaManager.t) (now : Z)
    (api : SearchOutcome) :
  ledgerOk q → ledgerOk (checkForLiveStream tz q now api).1.2.
Proof.
  intros Hq. unfold checkForLiveStream.
  pose proof (ledgerOk_admission tz q now "SEARCH" Hq) as H1.
  pose proof (ledgerOk_guarded tz q now "SEARCH") as H2.
  destruct (QuotaManager.canMakeApiCall tz q now "SEARCH") as [ok q1].
  destruct ok; simpl in *; [| done].
  destruct api; simpl; by apply H2.
Qed.

Lemma ledgerOk_getLiveChatId (tz : Z) (q : QuotaManager.t) (now : Z)
    (video : option string) (api : VideoOutcome) :
  ledgerOk q → ledgerOk (getLiveChatId tz q now video api).1.2.
Proof.
  intros Hq. unfold getLiveChatId.
  pose proof (ledgerOk_admission tz q now "VIDEO_LIST" Hq) as H1.
  pose proof (ledgerOk_guarded tz q now "VIDEO_LIST") as H2.
  destruct (QuotaManager.canMakeApiCall tz q now "VIDEO_LIST") as [ok q1].
  destruct ok; simpl in *; [| done].
  destruct api; simpl; by apply H2.
Qed.

Lemma contextOk_update (c : Context) (now : Z) (eventType : string)
    (data : EventData) :
  contextOk c → contextOk (updateContext c now eventType data).
Proof.
  intros (Hm & He & Hh).
  pose proof (updateContext_events c (mkUpdate now eventType data)) as H1.
  pose proof (updateContext_messages c (mkUpdate now eventType data)) as H2.
  simpl in H1, H2. unfold contextOk. rewrite H1, H2. split; [| split].
  - destruct (asMessage _); [| done].
    rewrite LedgerFacts.sliceLast_length. lia.
  - rewrite LedgerFacts.sliceLast_length. lia.
  - by apply updateContext_mood.
Qed.

Lemma filter_shorter {A} (f : A → bool) (l : list A) :
  (length (List.filter f l) ≤ length l)%nat.
Proof.
  induction l as [| x l IH]; [done |]. simpl.
  destruct (f x); simpl; lia.
Qed.

Lemma contextOk_sweep (c : Context) (now : Z) :
  contextOk c → contextOk (cleanupContext c now).
Proof.
  intros (Hm & He & Hh). unfold contextOk, cleanupContext. simpl.
  split; [| split; [| done]].
  - etransitivity; [apply filter_shorter | done].
  - etransitivity; [apply filter_shorter | done].
Qed.

Lemma wellFormed_withQuota (b : t) (q : QuotaManager.t) :
  wellFormed b → ledgerOk q → wellFormed (withQuota b q).
Proof. rewrite !wellFormed_parts. simpl. tauto. Qed.

Lemma wellFormed_withState (b : t) (s : State) :
  wellFormed b → 0 ≤ consecutiveErrors s → wellFormed (withState b s).
Proof. rewrite !wellFormed_parts. simpl. tauto. Qed.

Lemma wellFormed_withContext (b : t) (c : Context) :
  wellFormed b → contextOk c → wellFormed (withContext b c).
Proof. rewrite !wellFormed_parts. simpl. tauto. Qed.

Lemma wellFormed_withLimiter (b : t) (r : RateLimiter.t) :
  wellFormed b → wellFormed (withLimiter b r).
Proof. rewrite !wellFormed_parts. simpl. tauto. Qed.

Lemma wellFormed_cleanup (b : t) : wellFormed b → wellFormed (cleanup b).
Proof.
  rewrite !wellFormed_parts. unfold contextOk. simpl.
  intros (Hq & _ & Hm & He & _). repeat split; try done; apply Hq.
Qed.

Lemma wellFormed_gracefulShutdown (tz : Z) (b : t) (now : Z)
    (fw : InsertOutcome) :
  wellFormed b → wellFormed (gracefulShutdown tz b now fw).1.1.
Proof.
  intros H. unfold gracefulShutdown.
  assert (H1 : wellFormed (withState b (setStopped (state b)))).
  { apply wellFormed_withState; [done |]. simpl. apply H. }
  destruct (_ && _); [| done].
  pose proof (ledgerOk_sendMessage tz
                (quotaManager (withState b (setStopped (state b)))) now
                (canSendMessages (withState b (setStopped (state b))))
                (liveChatId (setStopped (state b))) farewellText fw) as H2.
  destruct (sendMessage _ _ _ _ _ _ _) as [[err q1] sent]. simpl in *.
  apply wellFormed_withQuota; [done |]. apply H2. apply H.
Qed.

Lemma wellFormed_handleError (tz : Z) (b : t) (now : Z) (fw : InsertOutcome) :
  wellFormed b → wellFormed (handleError tz b now fw).1.1.
Proof.
  intros H. unfold handleError.
  assert (H1 : wellFormed
                 (withState b
                    (setErrors (state b) (consecutiveErrors (state b) + 1)))).
  { apply wellFormed_withState; [done |]. simpl.
    destruct H as (_ & He & _). lia. }
  destruct (_ <=? _); [| done].
  by apply wellFormed_gracefulShutdown.
Qed.

Lemma wellFormed_pollMessages (tz : Z) (b : t) (now : Z) (api : ListOutcome)
    (fw : InsertOutcome) :
  wellFormed b → wellFormed (pollMessages tz b now api fw).1.
Proof.
  intros H. unfold pollMessages.
  destruct (_ || _); [done |].
  pose proof (ledgerOk_admission tz (quotaManager b) now "CHAT_LIST"
                ltac:(apply H)) as H1.
  destruct (QuotaManager.canMakeApiCall _ _ _ _) as [ok q1]. simpl in H1.
  destruct ok; simpl; [| by apply wellFormed_withQuota].
  pose proof (ledgerOk_getChatMessages tz q1 now (liveChatId (state b))
                (nextPageToken (state b)) api H1) as H2.
  destruct (getChatMessages _ _ _ _ _ _) as [[result q2] issued]. simpl in H2.
  assert (H3 : wellFormed (withQuota b q2)) by by apply wellFormed_withQuota.
  destruct result as [messages token interval | message].
  - by apply wellFormed_withState.
  - pose proof (wellFormed_handleError tz (withQuota b q2) now fw H3) as H4.
    destruct (handleError _ _ _ _) as [[b3 begun] resumed]. simpl in H4.
    destruct (isTerminal message); simpl; [| done].
    by apply wellFormed_cleanup.
Qed.

Lemma wellFormed_sendResponse (tz : Z) (b : t) (now : Z) :
  wellFormed b → wellFormed (sendResponse tz b now).1.
Proof.
  intros H. unfold sendResponse.
  pose proof (ledgerOk_admission tz (quotaManager b) now "CHAT_INSERT"
                ltac:(apply H)) as H1.
  destruct (QuotaManager.canMakeApiCall _ _ _ _) as [ok q1]. simpl in H1.
  destruct ok; simpl; [| by apply wellFormed_withQuota].
  destruct (canSendMessages b); simpl; by apply wellFormed_withQuota.
Qed.

Lemma wellFormed_beginShutdown (tz : Z) (b : t) (now : Z) :
  wellFormed b → wellFormed (beginShutdown tz b now).1.
Proof.
  intros H. unfold beginShutdown.
  assert (H1 : wellFormed (withState b (setStopped (state b)))).
  { apply wellFormed_withState; [done |]. simpl. apply H. }
  destruct (_ && _); [| done].
  pose proof (ledgerOk_admission tz
                (quotaManager (withState b (setStopped (state b)))) now
                "CHAT_INSERT" ltac:(apply H)) as H2.
  destruct (QuotaManager.canMakeApiCall _ _ _ _) as [ok q1]. simpl in *.
  by apply wellFormed_withQuota.
Qed.

Lemma contextOk_setters (c : Context) (mood : string) (game : option string) :
  contextOk c →
  contextOk (setStreamerMood c mood) ∧ contextOk (setCurrentGame c game).
Proof. unfold contextOk. simpl. tauto. Qed.

Lemma wellFormed_ownerCommand (tz : Z) (b : t) (now : Z) (command : string) :
  wellFormed b →
  match ownerCommand tz b now command with
  | Some (_, b1, _) => wellFormed b1
  | None => True
  end.
Proof.
  intros H. unfold ownerCommand.
  destruct (String.eqb command "!shutdown").
  { pose proof (wellFormed_beginShutdown tz b now H).
    by destruct (beginShutdown tz b now). }
  destruct (String.eqb command "!restart").
  { simpl. by apply wellFormed_cleanup. }
  destruct (String.eqb command "!quota"); [done |].
  destruct (String.eqb command "!stats"); [by apply wellFormed_withLimiter |].
  destruct (String.eqb command "!debug"); [by apply wellFormed_withLimiter |].
  destruct (Js.startsWith "!say " command); [done |].
  destruct (Js.startsWith "!mood " command).
  { apply wellFormed_withContext; [done |].
    apply contextOk_setters; [exact None | apply H]. }
  destruct (Js.startsWith "!game " command); [| done].
  apply wellFormed_withContext; [done |].
  apply contextOk_setters; [exact "" | apply H].
Qed.

Lemma wellFormed_handleAdminCommand (e : Env) (tz : Z) (b : t) (now : Z)
    (text : string) (message : IncomingMessage) :
  wellFormed b → wellFormed (handleAdminCommand e tz b now text message).1.2.
Proof.
  intros H. unfold handleAdminCommand.
  destruct (isOwner _).
  - pose proof (wellFormed_ownerCommand tz b now
                  (Js.trim (Js.toLowerCase text)) H) as H1.
    destruct (ownerCommand _ _ _ _) as [[[reply b1] issued] |]; [done |].
    by destruct (isOwnerOrModerator _).
  - by destruct (isOwnerOrModerator _).
Qed.

Lemma wellFormed_handleMessageReceived (e : Env) (tz : Z) (b : t) (now : Z)
    (message : IncomingMessage) (o : Oracle) :
  wellFormed b → wellFormed (handleMessageReceived e tz b now message o).1.1.
Proof.
  intros H. unfold handleMessageReceived.
  destruct (String.eqb _ (BOT_NAME e)); [done |].
  assert (H1 : wellFormed
                 (if OwnerDetection.isOwnerOrAdmin (ownerDetection e)
                       (authorDetails message)
                  then handleAdminCommand e tz b now
                         (Js.orDefaultStr (snippetText message) "") message
                  else (None, b, [])).1.2).
  { destruct (OwnerDetection.isOwnerOrAdmin _ _); [| done].
    by apply wellFormed_handleAdminCommand. }
  destruct (if OwnerDetection.isOwnerOrAdmin _ _ then _ else _)
    as [[adminResponse b1] issued].
  simpl in H1.
  destruct (match adminResponse with Some _ => _ | None => _ end) as [reply |].
  - pose proof (wellFormed_sendResponse tz b1 now H1) as H2.
    by destruct (sendResponse tz b1 now) as [b2 timer].
  - destruct (RateLimiter.canRespond _ _ _) as [verdict limiter].
    assert (H2 : wellFormed (withLimiter b1 limiter))
      by by apply wellFormed_withLimiter.
    destruct (negb _); [done |].
    match goal with |- context [withContext ?x ?c] =>
      assert (H3 : wellFormed (withContext x c))
    end.
    { apply wellFormed_withContext; [done |].
      apply contextOk_update. apply wellFormed_parts in H2. apply H2. }
    destruct (shouldRespond _ _); [| done].
    destruct (generated o) as [response |]; [| done].
    destruct (negb _); [| done].
    match goal with |- context [sendResponse tz ?x now] =>
      pose proof (wellFormed_sendResponse tz x now
                    ltac:(by apply wellFormed_withLimiter)) as H4;
      destruct (sendResponse tz x now) as [b5 timer]
    end.
    done.
Qed.

Lemma wellFormed_deliverResponse (tz : Z) (b : t) (now : Z) (text : string)
    (api fw : InsertOutcome) :
  wellFormed b → wellFormed (deliverResponse tz b now text api fw).1.
Proof.
  intros H. unfold deliverResponse.
  pose proof (ledgerOk_sendMessage tz (quotaManager b) now (canSendMessages b)
                (liveChatId (state b)) text api ltac:(apply H)) as H1.
  destruct (sendMessage _ _ _ _ _ _ _) as [[failure q1] sent]. simpl in H1.
  assert (H2 : wellFormed (withQuota b q1)) by by apply wellFormed_withQuota.
  destruct failure; [| done].
  pose proof (wellFormed_handleError tz (withQuota b q1) now fw H2) as H3.
  by destruct (handleError _ _ _ _) as [[b2 begun] resumed].
Qed.

Lemma wellFormed_checkForStream (e : Env) (tz : Z) (b : t) (now hour : Z)
    (api : SearchOutcome) (detected : option string) :
  wellFormed b → wellFormed (checkForStream e tz b now hour api detected).1.2.
Proof.
  intros H. unfold checkForStream.
  pose proof (ledgerOk_admission tz (quotaManager b) now "SEARCH"
                ltac:(apply H)) as H1.
  destruct (QuotaManager.canMakeApiCall _ _ _ _) as [ok q1]. simpl in H1.
  assert (H2 : wellFormed (withQuota b q1)) by by apply wellFormed_withQuota.
  destruct ok; simpl; [| done].
  destruct (isStreamingTime e hour); simpl; [| done].
  pose proof (ledgerOk_checkForLiveStream tz q1 now api H1) as H3.
  destruct (checkForLiveStream _ _ _ _) as [[result q2] issued]. simpl in H3.
  assert (H4 : wellFormed (withQuota (withQuota b q1) q2))
    by by apply wellFormed_withQuota.
  destruct result as [[[video title] |] | message].
  - destruct (negb _); [| done]. simpl.
    apply wellFormed_withContext.
    + apply wellFormed_withContext.
      * apply wellFormed_withState; [done |]. simpl. apply H.
      * apply contextOk_setters; [exact "" | apply H].
    + apply contextOk_update. simpl.
      apply contextOk_setters; [exact "" | apply H].
  - destruct (Js.truthyStr _); [| done]. simpl.
    by do 2 apply wellFormed_cleanup.
  - simpl. apply wellFormed_withState; [done |]. simpl.
    destruct H as (_ & He & _). lia.
Qed.

Lemma wellFormed_connectToChat (tz : Z) (b : t) (now : Z) (api : VideoOutcome)
    (first : PollInput) :
  wellFormed b → wellFormed (connectToChat tz b now api first).1.
Proof.
  intros H. unfold connectToChat.
  pose proof (ledgerOk_getLiveChatId tz (quotaManager b) now
                (videoId (state b)) api ltac:(apply H)) as H1.
  destruct (getLiveChatId _ _ _ _ _) as [[result q1] issued]. simpl in H1.
  assert (H2 : wellFormed (withQuota b q1)) by by apply wellFormed_withQuota.
  destruct result as [[chat |] | message]; [| done |].
  - match goal with |- context [pollMessages tz ?x now ?a ?f] =>
      pose proof (wellFormed_pollMessages tz x now a f) as H3;
      destruct (pollMessages tz x now a f) as [b3 polled]
    end.
    simpl. apply H3. by apply wellFormed_withState.
  - pose proof (wellFormed_handleError tz (withQuota b q1) now
                  (piFarewell first) H2) as H3.
    by destruct (handleError _ _ _ _) as [[b2 begun] resumed].
Qed.

Lemma wellFormed_react (e : Env) (tz : Z) (b : t) (ev : Event) :
  wellFormed b → wellFormed (react e tz b ev).
Proof.
  intros H. destruct ev as [i | now m o | now text api fw | p | p | now | now
                            | now | now fw |]; simpl.
  - by apply wellFormed_pollMessages.
  - by apply wellFormed_handleMessageReceived.
  - by apply wellFormed_deliverResponse.
  - unfold startMonitoring.
    pose proof (wellFormed_checkForStream e tz b (prNow p) (prHour p)
                  (prSearch p) (prDetected p) H) as H1.
    destruct (checkForStream _ _ _ _ _ _ _) as [[live b1] probed]. simpl in H1.
    destruct live; [| done].
    pose proof (wellFormed_connectToChat tz b1 (prNow p) (prVideo p)
                  (prFirst p) H1) as H2.
    by destruct (connectToChat _ _ _ _ _).
  - unfold monitorTick.
    pose proof (wellFormed_checkForStream e tz b (prNow p) (prHour p)
                  (prSearch p) (prDetected p) H) as H1.
    destruct (checkForStream _ _ _ _ _ _ _) as [[live b1] probed]. simpl in H1.
    destruct (live && _); [| done].
    pose proof (wellFormed_connectToChat tz b1 (prNow p) (prVideo p)
                  (prFirst p) H1) as H2.
    by destruct (connectToChat _ _ _ _ _).
  - apply wellFormed_withContext; [done |]. apply contextOk_sweep.
    apply wellFormed_parts in H. apply H.
  - by apply wellFormed_withLimiter.
  - apply wellFormed_withQuota; [done |]. apply ledgerOk_reset. apply H.
  - by apply wellFormed_gracefulShutdown.
  - by apply wellFormed_cleanup.
Qed.

Lemma wellFormed_new (tz now : Z) (limits : RateLimiter.Config) (oauth : bool) :
  wellFormed (new tz now limits oauth).
Proof.
  unfold wellFormed, SAFE_QUOTA_LIMIT. simpl. repeat split; try lia. done.
Qed.

Lemma wellFormed_reactAll (e : Env) (tz : Z) (evs : list Event) (b : t) :
  wellFormed b → wellFormed (reactAll e tz b evs).
Proof.
  revert b. unfold reactAll.
  induction evs as [| ev evs IH]; intros b H; [done |].
  simpl. apply IH. by apply wellFormed_react.
Qed.

(** Whatever happens to a bot, the message history holds at most 100
    entries, the recent events at most 50, and the chat mood is never
    [HYPED]: count caps and age sweeps never undo each other. *)
Theorem context_bounded_whatever_happens (e : Env) (tz now : Z)
    (limits : RateLimiter.Config) (oauth : bool) (evs : list Event) :
  let b := reactAll e tz (new tz now limits oauth) evs in
  (length (messageHistory (context b)) ≤ 100)%nat ∧
  (length (recentEvents (context b)) ≤ 50)%nat ∧
  chatMood (context b) ≠ HYPED.
Proof.
  pose proof (wellFormed_reactAll e tz evs (new tz now limits oauth)
                (wellFormed_new tz now limits oauth)) as H.
  unfold wellFormed in H. simpl. tauto.
Qed.

End SessionInvariants.

(** ** Chat messages, admin commands and send timers *)

Module MessageFacts.
Import Constants Bot Session QuotaFacts.

#[local] Arguments QuotaManager.trackApiCall : simpl never.
#[local] Arguments updateContext : simpl never.

(** A message the throttle refuses leaves no trace: for an author who is no
    admin, when the check is refused nothing is issued or scheduled, the
    session state, the ledger and the context are unchanged (the message
    enters neither the history nor the mood), and the throttle keeps its
    reply times. *)
Theorem throttled_message_leaves_no_trace (e : Env) (tz : Z) (b : t) (now : Z)
    (message : IncomingMessage) (o : Oracle) :
  authorName message ≠ BOT_NAME e →
  OwnerDetection.isOwnerOrAdmin (ownerDetection e) (authorDetails message)
  = false →
  RateLimiter.allowed
    (RateLimiter.canRespond (rateLimiter b) now (authorName message)).1 = false →
  let r := handleMessageReceived e tz b now message o in
  r.1.2 = [] ∧ r.2 = None ∧
  state r.1.1 = state b ∧
  context r.1.1 = context b ∧
  quotaManager r.1.1 = quotaManager b ∧
  RateLimiter.lastGlobalResponse (rateLimiter r.1.1)
  = RateLimiter.lastGlobalResponse (rateLimiter b) ∧
  RateLimiter.userResponses (rateLimiter r.1.1)
  = RateLimiter.userResponses (rateLimiter b).
Proof.
  intros Hn Ha Hv r. subst r. unfold handleMessageReceived.
  fold (authorName message).
  apply String.eqb_neq in Hn. rewrite Hn, Ha. simpl.
  destruct (ThrottleFacts.canRespond_frame (rateLimiter b) now (authorName message))
    as (_ & _ & _ & H4 & H5 & _).
  destruct (RateLimiter.canRespond (rateLimiter b) now (authorName message))
    as [verdict limiter].
  simpl in *. rewrite Hv. simpl. done.
Qed.

(** The throttle is charged even when the reply is dropped: when a reply has
    been chosen for an allowed message of an author who is no admin, but the
    ledger refuses the insert or the bot has no send credentials, no send
    timer is registered and yet the reply is recorded in the throttle, which
    starts the global and the author cooldown. *)
Theorem dropped_reply_still_starts_cooldown (e : Env) (tz : Z) (b : t)
    (now : Z) (message : IncomingMessage) (o : Oracle) (response : string) :
  authorName message ≠ BOT_NAME e →
  OwnerDetection.isOwnerOrAdmin (ownerDetection e) (authorDetails message)
  = false →
  RateLimiter.allowed
    (RateLimiter.canRespond (rateLimiter b) now (authorName message)).1 = true →
  shouldRespond (requiresResponse o) (lucky o) = true →
  generated o = Some response →
  response ≠ "" →
  (QuotaManager.canMakeApiCall tz (quotaManager b) now "CHAT_INSERT").1 = false
  ∨ canSendMessages b = false →
  let r := handleMessageReceived e tz b now message o in
  r.2 = None ∧ r.1.2 = [] ∧
  RateLimiter.lastGlobalResponse (rateLimiter r.1.1) = now ∧
  RateLimiter.userResponses (rateLimiter r.1.1) !! authorName message = Some now ∧
  last (RateLimiter.hourlyResponses (rateLimiter r.1.1)) = Some now.
Proof.
  intros Hn Ha Hv Hs Hg Hne Hdrop r. subst r. unfold handleMessageReceived.
  fold (authorName message).
  apply String.eqb_neq in Hn. rewrite Hn, Ha. simpl.
  destruct (RateLimiter.canRespond (rateLimiter b) now (authorName message))
    as [verdict limiter].
  simpl in *. rewrite Hv, Hs, Hg. simpl.
  apply String.eqb_neq in Hne. rewrite Hne. simpl.
  unfold sendResponse. simpl.
  destruct (QuotaManager.canMakeApiCall tz (quotaManager b) now "CHAT_INSERT")
    as [ok q1].
  simpl in Hdrop.
  assert (G : ok = false ∨ canSendMessages b = false) by tauto.
  destruct ok; simpl.
  - destruct G as [G | G]; [done |]. rewrite G. simpl.
    rewrite lookup_insert_eq, last_snoc. done.
  - rewrite lookup_insert_eq, last_snoc. done.
Qed.

(** Admin commands are answered outside the throttle: when an owner or a
    moderator sends ['!ping'], the reply is handed to a send timer whenever
    the ledger admits an insert and the bot can send, whatever the throttle
    would answer, and neither the throttle nor the context records it. *)
Theorem admin_reply_bypasses_throttle (e : Env) (tz : Z) (b : t) (now : Z)
    (message : IncomingMessage) (o : Oracle) :
  authorName message ≠ BOT_NAME e →
  isOwnerOrModerator
    (OwnerDetection.getUserPermissionLevel (ownerDetection e)
       (authorDetails message)) = true →
  Js.trim (Js.toLowerCase (messageText message)) = "!ping" →
  (QuotaManager.canMakeApiCall tz (quotaManager b) now "CHAT_INSERT").1 = true →
  canSendMessages b = true →
  let r := handleMessageReceived e tz b now message o in
  r.2 = Some (AdminReply
                (ReplyPong
                   (OwnerDetection.getUserPermissionLevel (ownerDetection e)
                      (authorDetails message)) now)) ∧
  rateLimiter r.1.1 = rateLimiter b ∧
  context r.1.1 = context b ∧
  state r.1.1 = state b.
Proof.
  intros Hn Hl Hc Hq Hs r. subst r. unfold handleMessageReceived.
  fold (authorName message). fold (messageText message).
  apply String.eqb_neq in Hn. rewrite Hn.
  rewrite AuthorityFacts.isOwnerOrAdmin_of_level.
  unfold handleAdminCommand. rewrite Hc.
  destruct (OwnerDetection.getUserPermissionLevel _ _) eqn:El; try done; simpl.
  - unfold sendResponse.
    destruct (QuotaManager.canMakeApiCall tz (quotaManager b) now "CHAT_INSERT")
      as [ok q1].
    simpl in Hq. subst ok. simpl. rewrite Hs. simpl. done.
  - unfold sendResponse.
    destruct (QuotaManager.canMakeApiCall tz (quotaManager b) now "CHAT_INSERT")
      as [ok q1].
    simpl in Hq. subst ok. simpl. rewrite Hs. simpl. done.
Qed.

(** Commands need authority: for an author whose level is not [OWNER],
    [handleAdminCommand] changes nothing and issues nothing; the reply is one
    of the four moderator replies, and there is none at all below
    [MODERATOR].  So only an owner can shut down, restart, speak through the
    bot or set its mood and game. *)
Theorem commands_need_authority (e : Env) (tz : Z) (b : t) (now : Z)
    (text : string) (message : IncomingMessage) :
  OwnerDetection.getUserPermissionLevel (ownerDetection e)
    (authorDetails message) ≠ OwnerDetection.OWNER →
  let r := handleAdminCommand e tz b now text message in
  r.1.2 = b ∧ r.2 = [] ∧
  match r.1.1 with
  | None | Some (ReplyStatus _) | Some (ReplyPong _ _) | Some (ReplyHelp _)
  | Some ReplyContext => True
  | Some _ => False
  end ∧
  (OwnerDetection.getUserPermissionLevel (ownerDetection e)
     (authorDetails message) ≠ OwnerDetection.MODERATOR →
   r.1.1 = None).
Proof.
  intros Hl r. subst r. unfold handleAdminCommand, moderatorCommand.
  destruct (OwnerDetection.getUserPermissionLevel _ _); try done; simpl.
  repeat destruct (String.eqb _ _); simpl; done.
Qed.

(** The synchronous part of a shutdown, as an admin command starts it, is
    the beginning of [gracefulShutdown]: the same state, the same context
    and the same effects up to the first suspension. *)
Lemma beginShutdown_begins_gracefulShutdown (tz : Z) (b : t) (now : Z)
    (fw : InsertOutcome) :
  state (beginShutdown tz b now).1 = state (gracefulShutdown tz b now fw).1.1 ∧
  context (beginShutdown tz b now).1 = context (gracefulShutdown tz b now fw).1.1 ∧
  (beginShutdown tz b now).2 = (gracefulShutdown tz b now fw).1.2.
Proof.
  unfold beginShutdown, gracefulShutdown, sendMessage. simpl.
  destruct (Js.truthyStr (liveChatId (state b))); simpl; [| done].
  destruct (canSendMessages b); simpl; [| done].
  destruct (QuotaManager.canMakeApiCall _ _ _ _) as [ok q1].
  destruct ok; simpl; [| done]. by destruct fw.
Qed.

End MessageFacts.

Module CommandFacts.
Import Constants Bot Session.

Lemma lowerAscii_idem (c : ascii) : Js.lowerAscii (Js.lowerAscii c) = Js.lowerAscii c.
Proof.
  destruct c as [b0 b1 b2 b3 b4 b5 b6 b7].
  destruct b0, b1, b2, b3, b4, b5, b6, b7; reflexivity.
Qed.

Lemma toLowerCase_idem (s : string) : Js.toLowerCase (Js.toLowerCase s) = Js.toLowerCase s.
Proof.
  induction s as [| c r IH]; [done |]. simpl. by rewrite lowerAscii_idem, IH.
Qed.

Lemma lower_trimStart (s : string) :
  Js.toLowerCase s = s → Js.toLowerCase (Js.trimStart s) = Js.trimStart s.
Proof.
  induction s as [| c r IH]; [done |]. intros H. simpl in *.
  injection H as Hc Hr. destruct (Js.isSpace c); [by apply IH |].
  simpl. by rewrite Hc, Hr.
Qed.

Lemma lower_trimEnd (s : string) :
  Js.toLowerCase s = s → Js.toLowerCase (Js.trimEnd s) = Js.trimEnd s.
Proof.
  induction s as [| c r IH]; [done |]. intros H. simpl in *.
  injection H as Hc Hr. specialize (IH Hr).
  destruct (Js.trimEnd r) as [| d r'].
  - destruct (Js.isSpace c); [done |]. simpl. by rewrite Hc.
  - simpl in *. by rewrite Hc, IH.
Qed.

Lemma lower_substring (n : nat) (s : string) :
  Js.toLowerCase s = s → Js.toLowerCase (Js.substring n s) = Js.substring n s.
Proof.
  revert s. induction n as [| n IH]; intros s H; [done |].
  destruct s as [| c r]; [done |]. simpl in *.
  injection H as _ Hr. by apply IH.
Qed.

Lemma trimEnd_no_trailing_space (s : string) :
  Js.endsWithSpace (Js.trimEnd s) = false.
Proof.
  induction s as [| c r IH]; [done |]. simpl.
  destruct (Js.trimEnd r) as [| d r'].
  - destruct (Js.isSpace c) eqn:E; [done |]. simpl. exact E.
  - exact IH.
Qed.

Lemma startsWith_cons (a : ascii) (p s : string) :
  Js.startsWith (String a p) s = true →
  ∃ r, s = String a r ∧ Js.startsWith p r = true.
Proof.
  destruct s as [| c r]; [done |]. simpl. intros H.
  apply andb_prop in H as [Ha Hr]. apply Ascii.eqb_eq in Ha. subst c.
  by exists r.
Qed.

Lemma lowerAscii_isAscii (c : ascii) :
  (N_of_ascii c <? 128)%N = true → (N_of_ascii (Js.lowerAscii c) <? 128)%N = true.
Proof.
  destruct c as [b0 b1 b2 b3 b4 b5 b6 b7].
  destruct b0, b1, b2, b3, b4, b5, b6, b7; done.
Qed.

Lemma isAscii_toLowerCase (s : string) :
  Js.isAscii s = true → Js.isAscii (Js.toLowerCase s) = true.
Proof.
  induction s as [| c r IH]; [done |]. simpl. intros H.
  apply andb_prop in H as [Hc Hr].
  by rewrite (lowerAscii_isAscii c Hc), (IH Hr).
Qed.

Lemma isAscii_trimStart (s : string) :
  Js.isAscii s = true → Js.isAscii (Js.trimStart s) = true.
Proof.
  induction s as [| c r IH]; [done |]. intros H. simpl.
  destruct (Js.isSpace c); [| done].
  simpl in H. apply andb_prop in H as [_ Hr]. by apply IH.
Qed.

Lemma isAscii_trimEnd (s : string) :
  Js.isAscii s = true → Js.isAscii (Js.trimEnd s) = true.
Proof.
  induction s as [| c r IH]; [done |]. simpl. intros H.
  apply andb_prop in H as [Hc Hr]. specialize (IH Hr).
  destruct (Js.trimEnd r) as [| d r'].
  - destruct (Js.isSpace c); [done |]. simpl. by rewrite Hc.
  - change (Js.isAscii (String c (String d r')))
      with ((N_of_ascii c <? 128)%N && Js.isAscii (String d r')).
    by rewrite Hc, IH.
Qed.

Lemma isAscii_substring (n : nat) (s : string) :
  Js.isAscii s = true → Js.isAscii (Js.substring n s) = true.
Proof.
  revert s. induction n as [| n IH]; intros s H; [done |].
  destruct s as [| c r]; [done |]. simpl in *.
  apply andb_prop in H as [_ Hr]. by apply IH.
Qed.

(** The owner's ['!say'] is repeated in lower case: for an owner, an ASCII
    text whose lower-cased, trimmed form starts with ['!say '] changes
    nothing and is answered with what follows the prefix in that form, which
    is ASCII, never empty and has no upper-case letter left. *)
Theorem say_repeats_in_lower_case (e : Env) (tz : Z) (b : t) (now : Z)
    (text : string) (message : IncomingMessage) :
  Js.isAscii text = true →
  OwnerDetection.getUserPermissionLevel (ownerDetection e)
    (authorDetails message) = OwnerDetection.OWNER →
  Js.startsWith "!say " (Js.trim (Js.toLowerCase text)) = true →
  let said := Js.substring 5 (Js.trim (Js.toLowerCase text)) in
  handleAdminCommand e tz b now text message = (Some (ReplySay said), b, []) ∧
  said ≠ "" ∧
  Js.isAscii said = true ∧
  Js.toLowerCase said = said.
Proof.
  intros Hascii Hl Hp said.
  assert (He : Js.endsWithSpace (Js.trim (Js.toLowerCase text)) = false)
    by apply trimEnd_no_trailing_space.
  assert (Ha : Js.isAscii said = true).
  { subst said. apply isAscii_substring. unfold Js.trim.
    by apply isAscii_trimEnd, isAscii_trimStart, isAscii_toLowerCase. }
  assert (Hlow : Js.toLowerCase said = said).
  { subst said. apply lower_substring. unfold Js.trim.
    apply lower_trimEnd, lower_trimStart, toLowerCase_idem. }
  unfold handleAdminCommand. rewrite Hl. simpl. subst said.
  destruct (startsWith_cons _ _ _ Hp) as (r1 & E1 & H1).
  destruct (startsWith_cons _ _ _ H1) as (r2 & E2 & H2).
  destruct (startsWith_cons _ _ _ H2) as (r3 & E3 & H3).
  destruct (startsWith_cons _ _ _ H3) as (r4 & E4 & H4).
  destruct (startsWith_cons _ _ _ H4) as (r5 & E5 & _).
  subst r1 r2 r3 r4. rewrite E1 in *. simpl.
  split; [done |]. split; [| split; [exact Ha | exact Hlow]].
  intros ->. simpl in He. done.
Qed.

End CommandFacts.

(** ** Send timers and stream monitoring *)

Module MonitorFacts.
Import Constants Bot Session QuotaFacts PollFacts.

#[local] Arguments QuotaManager.trackApiCall : simpl never.
#[local] Arguments updateContext : simpl never.

(** A reply that cannot be sent counts as an error of the session: when a
    send timer fires, the error counter goes up by one if the ledger refuses
    the insert, the bot has no send credentials or the transport fails, and
    is left as it is (not reset) when the message is sent; a failure that
    reaches the threshold stops the bot. *)
Theorem send_failure_counts_as_error (tz : Z) (b : t) (now : Z)
    (messageText : string) (api farewell : InsertOutcome) :
  let sent :=
    (QuotaManager.canMakeApiCall tz (quotaManager b) now "CHAT_INSERT").1
    && canSendMessages b && bool_decide (api = None) in
  let r := deliverResponse tz b now messageText api farewell in
  consecutiveErrors (state r.1)
  = consecutiveErrors (state b) + (if sent then 0 else 1) ∧
  (sent = true → state r.1 = state b ∧
     r.2 = [ApiChatInsert (liveChatId (state b)) messageText]) ∧
  (sent = false →
   maxConsecutiveErrors (state b) ≤ consecutiveErrors (state b) + 1 →
   isRunning (state r.1) = false ∧ ClearIntervals ∈ r.2).
Proof.
  intros sent r. subst sent r. unfold deliverResponse, sendMessage.
  destruct (QuotaManager.canMakeApiCall tz (quotaManager b) now "CHAT_INSERT")
    as [ok q1].
  assert (G : ∀ q issued,
    let h := handleError tz (withQuota b q) now farewell in
    consecutiveErrors (state h.1.1) = consecutiveErrors (state b) + 1 ∧
    (maxConsecutiveErrors (state b) ≤ consecutiveErrors (state b) + 1 →
     isRunning (state h.1.1) = false ∧
     ClearIntervals ∈ issued ++ h.1.2 ++ h.2)).
  { intros q issued h. subst h. split.
    - by destruct (handleError_errors tz (withQuota b q) now farewell) as [-> _].
    - intros Hn. rewrite handleError_reached by exact Hn.
      destruct (gracefulShutdown_spec tz
                  (withState (withQuota b q)
                     (setErrors (state (withQuota b q))
                        (consecutiveErrors (state (withQuota b q)) + 1)))
                  now farewell) as (b' & sent & resumed & -> & Hs & _).
      simpl. rewrite Hs. split; [done |].
      rewrite !elem_of_app, elem_of_cons. tauto. }
  destruct ok; simpl.
  - destruct (canSendMessages b); simpl.
    + destruct api as [message |]; simpl.
      * specialize (G (QuotaManager.trackApiCall q1 now "CHAT_INSERT" false)
                      [ApiChatInsert (liveChatId (state b)) messageText]).
        destruct (handleError _ _ _ _) as [[b2 begun] resumed].
        simpl in G. split; [apply G |]. split; [done |]. intros _. apply G.
      * split; [lia |]. split; [done | done].
    + specialize (G q1 []).
      destruct (handleError _ _ _ _) as [[b2 begun] resumed].
      simpl in G. split; [apply G |]. split; [done |]. intros _. apply G.
  - specialize (G q1 []).
    destruct (handleError _ _ _ _) as [[b2 begun] resumed].
    simpl in G. split; [apply G |]. split; [done |]. intros _. apply G.
Qed.

(** Outside the streaming hours, or when the ledger cannot pay for a search,
    a monitoring round issues nothing and changes nothing but a due reset of
    the ledger: the stream is not probed, so neither its start nor its end
    is noticed. *)
Theorem tick_gated_by_hours_and_quota (e : Env) (tz : Z) (b : t) (p : Probe) :
  (QuotaManager.canMakeApiCall tz (quotaManager b) (prNow p) "SEARCH").1 = false
  ∨ isStreamingTime e (prHour p) = false →
  monitorTick e tz b p
  = (withQuota b (QuotaManager.checkQuotaReset tz (quotaManager b) (prNow p)), []).
Proof.
  intros H. unfold monitorTick, checkForStream.
  pose proof (canMakeApiCall_state tz (quotaManager b) (prNow p) "SEARCH") as Hs.
  destruct (QuotaManager.canMakeApiCall tz (quotaManager b) (prNow p) "SEARCH")
    as [ok q1].
  simpl in *. subst q1.
  destruct ok; simpl; [| done].
  destruct H as [H | H]; [done |]. by rewrite H.
Qed.

(** The search of an admitted probe inside the streaming hours. *)
Lemma probe_issued (e : Env) (tz : Z) (b : t) (now hour : Z)
    (api : SearchOutcome) (detected : option string) :
  (QuotaManager.canMakeApiCall tz (quotaManager b) now "SEARCH").1 = true →
  isStreamingTime e hour = true →
  checkForStream e tz b now hour api detected
  = let q1 := QuotaManager.checkQuotaReset tz (quotaManager b) now in
    let b2 :=
      withQuota b
        (QuotaManager.trackApiCall q1 now "SEARCH"
           (match api with SearchOk _ => true | SearchErr _ => false end)) in
    match api with
    | SearchOk (Some (video, title)) =>
        if negb (bool_decide (Some video = videoId (state b2)))
        then
          let b3 := withState b2 (setVideoId (state b2) (Some video)) in
          let b4 := withContext b3 (setCurrentGame (context b3) detected) in
          (true,
           withContext b4
             (updateContext (context b4) now "streamStarted"
                (StreamInfo video title)),
           [ApiSearch; EmitStreamStarted video title])
        else (true, b2, [ApiSearch])
    | SearchOk None =>
        if Js.truthyStr (videoId (state b2))
        then (false, cleanup (handleStreamEnded b2),
              [ApiSearch; EmitStreamEndedByProbe])
        else (false, b2, [ApiSearch])
    | SearchErr _ =>
        (false,
         withState b2 (setErrors (state b2) (consecutiveErrors (state b2) + 1)),
         [ApiSearch])
    end.
Proof.
  intros Hq Hh. unfold checkForStream, checkForLiveStream.
  pose proof (canMakeApiCall_again tz (quotaManager b) now "SEARCH" "SEARCH") as Ha.
  pose proof (canMakeApiCall_state tz (quotaManager b) now "SEARCH") as Hs.
  destruct (QuotaManager.canMakeApiCall tz (quotaManager b) now "SEARCH")
    as [ok q1] eqn:E.
  simpl in Hq, Ha, Hs. subst ok q1. simpl. rewrite Hh, Ha. simpl.
  destruct api as [[[video title] |] | message]; simpl; try done.
Qed.

(** A failing probe never stops the bot: the error counter goes up by one,
    even at or past the threshold, but the running flag, the session and the
    timers are left alone; only errors that go through [handleError] can
    shut the bot down. *)
Theorem probe_error_never_stops (e : Env) (tz : Z) (b : t) (p : Probe)
    (message : string) :
  (QuotaManager.canMakeApiCall tz (quotaManager b) (prNow p) "SEARCH").1 = true →
  isStreamingTime e (prHour p) = true →
  prSearch p = SearchErr message →
  let r := monitorTick e tz b p in
  r.2 = [ApiSearch] ∧
  state r.1 = setErrors (state b) (consecutiveErrors (state b) + 1) ∧
  context r.1 = context b ∧
  QuotaManager.dailyQuotaUsed (quotaManager r.1)
  = QuotaManager.dailyQuotaUsed
      (QuotaManager.checkQuotaReset tz (quotaManager b) (prNow p)).
Proof.
  intros Hq Hh Hs r. subst r. unfold monitorTick.
  rewrite (probe_issued e tz b (prNow p) (prHour p) _ _ Hq Hh), Hs. simpl.
  by do 3 (split; [done |]).
Qed.

(** While the bot is attached to the stream that the probe finds, a
    monitoring round costs the 100 units of a search and does nothing
    else. *)
Theorem tick_on_attached_stream (e : Env) (tz : Z) (b : t) (p : Probe)
    (video title : string) :
  (QuotaManager.canMakeApiCall tz (quotaManager b) (prNow p) "SEARCH").1 = true →
  isStreamingTime e (prHour p) = true →
  prSearch p = SearchOk (Some (video, title)) →
  videoId (state b) = Some video →
  isRunning (state b) = true →
  let r := monitorTick e tz b p in
  r.2 = [ApiSearch] ∧
  state r.1 = state b ∧ context r.1 = context b ∧
  rateLimiter r.1 = rateLimiter b ∧
  QuotaManager.dailyQuotaUsed (quotaManager r.1)
  = QuotaManager.dailyQuotaUsed
      (QuotaManager.checkQuotaReset tz (quotaManager b) (prNow p)) + 100.
Proof.
  intros Hq Hh Hs Hv Hr r. subst r. unfold monitorTick.
  rewrite (probe_issued e tz b (prNow p) (prHour p) _ _ Hq Hh), Hs. simpl.
  rewrite Hv. rewrite bool_decide_eq_true_2 by done. simpl.
  rewrite Hr. simpl. do 4 (split; [done |]).
  assert (Hc : QuotaManager.costOf "SEARCH" = 100) by reflexivity.
  by rewrite Hc.
Qed.

(** When the probe finds no live video although a video is attached, the
    session is cleaned up: the identifiers are dropped, the bot stops
    running with its error counter at 0, no reconnection is attempted, and
    the poll timer still pending fires into a bot that does nothing. *)
Theorem tick_detects_stream_end (e : Env) (tz : Z) (b : t) (p : Probe) :
  (QuotaManager.canMakeApiCall tz (quotaManager b) (prNow p) "SEARCH").1 = true →
  isStreamingTime e (prHour p) = true →
  prSearch p = SearchOk None →
  Js.truthyStr (videoId (state b)) = true →
  let r := monitorTick e tz b p in
  r.2 = [ApiSearch; EmitStreamEndedByProbe] ∧
  state r.1
  = mkState false (isMonitoring (state b)) None None None 0
            (maxConsecutiveErrors (state b)) (lastResponseTime (state b))
            (startTime (state b)) ∧
  currentGame (context r.1) = None ∧
  ∀ later api fw, pollMessages tz r.1 later api fw = (r.1, []).
Proof.
  intros Hq Hh Hs Hv r. subst r. unfold monitorTick.
  rewrite (probe_issued e tz b (prNow p) (prHour p) _ _ Hq Hh), Hs. simpl.
  rewrite Hv. simpl. do 3 (split; [done |]).
  intros later api fw. by apply pollMessages_stopped.
Qed.

End MonitorFacts.

(** ** The properties above on sample inputs *)

(** ** Requests in flight *)

Module LoopFacts.
Import Constants Bot Session Loop QuotaFacts.

#[local] Arguments QuotaManager.trackApiCall : simpl never.
#[local] Arguments QuotaManager.canMakeApiCall : simpl never.
#[local] Arguments QuotaManager.checkQuotaReset : simpl never.
#[local] Arguments updateContext : simpl never.

Lemma quiet_refl (tz now : Z) (b : t) : quiet tz now b b [].
Proof. split; [by left |]. split; [done |]. intros p H. discriminate. Qed.

Lemma quiet_frame (tz now : Z) (b b' : t) :
  quotaManager b' = quotaManager b →
  (0 ≤ consecutiveErrors (state b) → 0 ≤ consecutiveErrors (state b')) →
  quiet tz now b b' [].
Proof. intros Hq He. split; [by left |]. split; [done |]. intros p H. discriminate. Qed.

Lemma quiet_trans (tz now : Z) (b b1 b2 : t) (l1 l2 : list Pending) :
  quiet tz now b b1 l1 → quiet tz now b1 b2 l2 → quiet tz now b b2 (l1 ++ l2).
Proof.
  intros (Hq1 & He1 & Ha1) (Hq2 & He2 & Ha2). split; [| split].
  - destruct Hq1 as [E1 | E1]; [by rewrite E1 in Hq2 |]. right.
    destruct Hq2 as [E2 | E2]; rewrite E2, E1; [done |].
    apply checkQuotaReset_idem.
  - auto.
  - intros p Hp.
    destruct l1 as [| p1 l1].
    + simpl in Hp. by apply Ha2.
    + destruct l1; [| destruct l2; discriminate].
      destruct l2; [| discriminate]. injection Hp as ->.
      specialize (Ha1 p eq_refl).
      pose proof (costOf_range (operationOf p)).
      destruct Hq2 as [E2 | E2]; rewrite E2; [done |].
      destruct (checkQuotaReset_used tz (quotaManager b1) now) as [E | E];
        rewrite E; [done | unfold SAFE_QUOTA_LIMIT; lia].
Qed.

Ltac ask_ledger :=
  match goal with
  | |- context [QuotaManager.canMakeApiCall ?tz ?q ?now ?op] =>
      let Hs := fresh "Hs" in
      let Ht := fresh "Ht" in
      let ok := fresh "ok" in
      let q1 := fresh "q" in
      pose proof (canMakeApiCall_state tz q now op) as Hs;
      pose proof (canMakeApiCall_true tz q now op) as Ht;
      destruct (QuotaManager.canMakeApiCall tz q now op) as [ok q1];
      simpl in Hs, Ht; subst q1
  end.

Lemma quiet_reset (tz now : Z) (b b' : t) :
  quotaManager b' = QuotaManager.checkQuotaReset tz (quotaManager b) now →
  (0 ≤ consecutiveErrors (state b) → 0 ≤ consecutiveErrors (state b')) →
  quiet tz now b b' [].
Proof. intros Hq He. split; [by right |]. split; [done |]. intros p H. discriminate. Qed.

Lemma quiet_begin (tz now : Z) (b b' : t) (p : Pending) :
  quotaManager b' = QuotaManager.checkQuotaReset tz (quotaManager b) now →
  (0 ≤ consecutiveErrors (state b) → 0 ≤ consecutiveErrors (state b')) →
  QuotaManager.dailyQuotaUsed
    (QuotaManager.checkQuotaReset tz (quotaManager b) now)
  + QuotaManager.costOf (operationOf p) ≤ SAFE_QUOTA_LIMIT →
  quiet tz now b b' [p].
Proof.
  intros Hq He H. split; [by right |]. split; [done |].
  intros p' Hp. injection Hp as <-. by rewrite Hq.
Qed.

Lemma shutdownBegins_quiet (tz : Z) (b : t) (now : Z) :
  quiet tz now b (shutdownBegins tz b now).1 (shutdownBegins tz b now).2.
Proof.
  unfold shutdownBegins, beginShutdown.
  destruct (_ && _); [| by apply quiet_frame].
  simpl. ask_ledger. destruct ok; simpl.
  - apply (quiet_begin tz now _ _ AwaitFarewell); [done | done |]. by apply Ht.
  - by apply quiet_reset.
Qed.

Lemma handleErrorBegins_quiet (tz : Z) (b : t) (now : Z) :
  quiet tz now b (handleErrorBegins tz b now).1 (handleErrorBegins tz b now).2.
Proof.
  unfold handleErrorBegins.
  set (b1 := withState b _).
  assert (H1 : quiet tz now b b1 []).
  { apply quiet_frame; [done |]. simpl. lia. }
  destruct (_ <=? _); [| done].
  apply (quiet_trans tz now b b1 _ [] _ H1). apply shutdownBegins_quiet.
Qed.

Lemma pollFailed_quiet (tz : Z) (b : t) (now : Z) (message : string) :
  quiet tz now b (pollFailed tz b now message).1 (pollFailed tz b now message).2.
Proof.
  unfold pollFailed.
  pose proof (handleErrorBegins_quiet tz b now) as H.
  destruct (handleErrorBegins tz b now) as [b1 begun]. simpl in H.
  destruct (isTerminal message); [| done]. simpl.
  rewrite <- (app_nil_r begun).
  apply (quiet_trans tz now b b1 _ begun [] H).
  by apply quiet_frame.
Qed.

Lemma pollBegins_quiet (tz : Z) (b : t) (now : Z) :
  quiet tz now b (pollBegins tz b now).1 (pollBegins tz b now).2.
Proof.
  unfold pollBegins.
  destruct (_ || _); [apply quiet_refl |].
  ask_ledger. destruct ok; simpl; [| by apply quiet_reset].
  ask_ledger. rewrite checkQuotaReset_idem in *.
  destruct ok; simpl.
  - apply (quiet_begin tz now _ _ AwaitChatList); [done | done |]. by apply Ht0.
  - apply (quiet_trans tz now b
             (withQuota b (QuotaManager.checkQuotaReset tz (quotaManager b) now))
             _ [] _).
    + by apply quiet_reset.
    + apply pollFailed_quiet.
Qed.

Lemma sendResponse_quiet (tz : Z) (b : t) (now : Z) :
  quiet tz now b (sendResponse tz b now).1 [].
Proof.
  unfold sendResponse. ask_ledger.
  destruct ok; simpl; [| by apply quiet_reset].
  destruct (canSendMessages b); simpl; by apply quiet_reset.
Qed.

Lemma respond_quiet (tz : Z) (b : t) (now : Z) (author text : string)
    (o : Oracle) :
  quiet tz now b (respond tz b now author text o).1 [].
Proof.
  unfold respond.
  destruct (RateLimiter.canRespond _ _ _) as [verdict limiter].
  destruct (negb _); [by apply quiet_frame |].
  destruct (shouldRespond _ _); [| by apply quiet_frame].
  destruct (generated o) as [response |]; [| by apply quiet_frame].
  destruct (negb _); [| by apply quiet_frame].
  match goal with |- context [sendResponse tz ?x now] =>
    pose proof (sendResponse_quiet tz x now) as H;
    destruct (sendResponse tz x now) as [b5 timer]
  end.
  simpl in *.
  match type of H with quiet _ _ ?x _ _ =>
    apply (quiet_trans tz now b x b5 [] [])
  end; [by apply quiet_frame | done].
Qed.

Lemma ownerCommand_quiet (tz : Z) (b : t) (now : Z) (command : string) :
  match ownerCommand tz b now command with
  | Some (_, b1, issued) => quiet tz now b b1 (farewellsIn issued)
  | None => True
  end.
Proof.
  unfold ownerCommand.
  destruct (String.eqb command "!shutdown").
  { pose proof (shutdownBegins_quiet tz b now) as H. unfold shutdownBegins in H.
    by destruct (beginShutdown tz b now). }
  destruct (String.eqb command "!restart"); [by apply quiet_frame |].
  destruct (String.eqb command "!quota"); [apply quiet_refl |].
  destruct (String.eqb command "!stats"); [by apply quiet_frame |].
  destruct (String.eqb command "!debug"); [by apply quiet_frame |].
  destruct (Js.startsWith "!say " command); [apply quiet_refl |].
  destruct (Js.startsWith "!mood " command); [by apply quiet_frame |].
  destruct (Js.startsWith "!game " command); [by apply quiet_frame | done].
Qed.

Lemma handleAdminCommand_quiet (e : Env) (tz : Z) (b : t) (now : Z)
    (text : string) (message : IncomingMessage) :
  quiet tz now b (handleAdminCommand e tz b now text message).1.2
    (farewellsIn (handleAdminCommand e tz b now text message).2).
Proof.
  unfold handleAdminCommand.
  destruct (isOwner _).
  - pose proof (ownerCommand_quiet tz b now (Js.trim (Js.toLowerCase text))) as H.
    destruct (ownerCommand _ _ _ _) as [[[reply b1] issued] |]; [done |].
    destruct (isOwnerOrModerator _); apply quiet_refl.
  - destruct (isOwnerOrModerator _); apply quiet_refl.
Qed.

Lemma listenerBegins_quiet (e : Env) (tz : Z) (b : t) (now : Z)
    (message : IncomingMessage) (o : Oracle) :
  quiet tz now b (listenerBegins e tz b now message o).1.1
    (listenerBegins e tz b now message o).1.2.
Proof.
  unfold listenerBegins.
  destruct (String.eqb _ _); [apply quiet_refl |].
  destruct (OwnerDetection.isOwnerOrAdmin _ _).
  - pose proof (handleAdminCommand_quiet e tz b now (messageText message) message)
      as H.
    by destruct (handleAdminCommand _ _ _ _ _ _) as [[adminResponse b1] issued].
  - apply respond_quiet.
Qed.

Lemma listenerResumes_quiet (tz : Z) (b : t) (now : Z) (l : Suspended) :
  quiet tz now b (listenerResumes tz b now l) [].
Proof.
  unfold listenerResumes.
  destruct (match suAdminResponse l with Some _ => _ | None => _ end).
  - apply sendResponse_quiet.
  - apply respond_quiet.
Qed.

Lemma dispatch_quiet (e : Env) (tz : Z) (now : Z)
    (items : list (IncomingMessage * Oracle)) :
  ∀ b, quiet tz now b (dispatch e tz b now items).1.1
         (dispatch e tz b now items).1.2.
Proof.
  induction items as [| [message o] items IH]; intros b; [apply quiet_refl |].
  simpl.
  pose proof (listenerBegins_quiet e tz b now message o) as H1.
  destruct (listenerBegins e tz b now message o) as [[b1 begun] suspended].
  specialize (IH b1).
  destruct (dispatch e tz b1 now items) as [[b2 begun'] suspended'].
  simpl in *. by apply (quiet_trans tz now b b1 b2).
Qed.

Lemma resumeAll_quiet (tz : Z) (now : Z) (suspended : list Suspended) :
  ∀ b, quiet tz now b (foldl (λ b l, listenerResumes tz b now l) b suspended) [].
Proof.
  induction suspended as [| l suspended IH]; intros b; [apply quiet_refl |].
  simpl.
  apply (quiet_trans tz now b (listenerResumes tz b now l) _ [] []);
    [apply listenerResumes_quiet | apply IH].
Qed.

Lemma sendTimerFires_quiet (tz : Z) (b : t) (now : Z) :
  quiet tz now b (sendTimerFires tz b now).1 (sendTimerFires tz b now).2.
Proof.
  unfold sendTimerFires. ask_ledger.
  assert (H0 : quiet tz now b
                 (withQuota b (QuotaManager.checkQuotaReset tz (quotaManager b) now))
                 []) by by apply quiet_reset.
  destruct ok; simpl.
  - destruct (canSendMessages b); simpl.
    + apply (quiet_begin tz now _ _ AwaitReply); [done | done |]. by apply Ht.
    + apply (quiet_trans tz now b _ _ [] _ H0). apply handleErrorBegins_quiet.
  - apply (quiet_trans tz now b _ _ [] _ H0). apply handleErrorBegins_quiet.
Qed.

Lemma connectBegins_quiet (tz : Z) (b : t) (now : Z) :
  quiet tz now b (connectBegins tz b now).1 (connectBegins tz b now).2.
Proof.
  unfold connectBegins. ask_ledger.
  destruct ok; simpl.
  - apply (quiet_begin tz now _ _ AwaitVideoList); [done | done |]. by apply Ht.
  - apply (quiet_trans tz now b
             (withQuota b (QuotaManager.checkQuotaReset tz (quotaManager b) now))
             _ [] _); [by apply quiet_reset | apply handleErrorBegins_quiet].
Qed.

Lemma connectIfDue_quiet (tz : Z) (b : t) (now : Z) (caller : Caller) :
  quiet tz now b (connectIfDue tz b now caller).1 (connectIfDue tz b now caller).2.
Proof.
  unfold connectIfDue. destruct caller; [apply connectBegins_quiet |].
  destruct (negb _); [apply connectBegins_quiet | apply quiet_refl].
Qed.

Lemma streamCheckBegins_quiet (e : Env) (tz : Z) (b : t) (now hour : Z)
    (caller : Caller) :
  quiet tz now b (streamCheckBegins e tz b now hour caller).1
    (streamCheckBegins e tz b now hour caller).2.
Proof.
  unfold streamCheckBegins. ask_ledger.
  destruct ok; simpl; [| by apply quiet_reset].
  destruct (isStreamingTime e hour); simpl; [| by apply quiet_reset].
  ask_ledger. rewrite checkQuotaReset_idem in *.
  destruct ok; simpl.
  - apply (quiet_begin tz now _ _ (AwaitSearch caller)); [done | done |].
    by apply Ht0.
  - apply quiet_reset; [done |]. simpl. lia.
Qed.

(** An answer is charged to the ledger as it stands, and the method that
    awaited it goes on quietly. *)
Lemma resume_charged (e : Env) (tz : Z) (b : t) (now : Z) (p : Pending)
    (a : Answer) (r : t * list Pending) :
  resume e tz b now p a = Some r →
  ∃ ok,
    quiet tz now
      (withQuota b
         (QuotaManager.trackApiCall (quotaManager b) now (operationOf p) ok))
      r.1 r.2.
Proof.
  intros H.
  destruct p as [caller | | | |], a as [api detected | api | api | api];
    simpl in H; try discriminate; injection H as <-.
  - unfold searchAnswered.
    destruct api as [[[video title] |] | message].
    + exists true. destruct (negb _).
      * match goal with |- context [connectIfDue tz ?x now caller] =>
          apply (quiet_trans tz now _ x _ [] _);
            [by apply quiet_frame | apply connectIfDue_quiet]
        end.
      * apply connectIfDue_quiet.
    + exists true. destruct (Js.truthyStr _).
      * by apply quiet_frame.
      * apply quiet_refl.
    + exists false. apply quiet_frame; [done |]. simpl. lia.
  - unfold videoAnswered. destruct api as [chat | message].
    + exists true. destruct (Js.truthyStr chat).
      * match goal with |- context [pollBegins tz ?x now] =>
          apply (quiet_trans tz now _ x _ [] _);
            [by apply quiet_frame | apply pollBegins_quiet]
        end.
      * apply quiet_refl.
    + exists false. apply handleErrorBegins_quiet.
  - unfold listAnswered. destruct api as [items token interval | message].
    + exists true.
      match goal with |- context [dispatch e tz ?x now items] =>
        pose proof (dispatch_quiet e tz now items x) as Hd;
        destruct (dispatch e tz x now items) as [[b2 begun2] suspended]
      end.
      simpl in *.
      rewrite <- (app_nil_r begun2).
      eapply quiet_trans; [exact Hd |].
      match goal with |- context [foldl _ ?x suspended] =>
        apply (quiet_trans tz now b2 x _ [] []);
          [by apply quiet_frame | apply resumeAll_quiet]
      end.
    + exists false. apply pollFailed_quiet.
  - unfold replyAnswered. destruct api as [message |].
    + exists false. apply handleErrorBegins_quiet.
    + exists true. apply quiet_refl.
  - exists (bool_decide (api = None)). apply quiet_refl.
Qed.

Lemma reserved_app (l1 l2 : list Pending) :
  reserved (l1 ++ l2) = reserved l1 + reserved l2.
Proof. induction l1 as [| p l1 IH]; simpl; [done |]. rewrite IH. lia. Qed.

Lemma reserved_nonneg (l : list Pending) : 0 ≤ reserved l.
Proof.
  induction l as [| p l IH]; simpl; [done |].
  pose proof (costOf_range (operationOf p)). lia.
Qed.

Lemma reserved_delete (l : list Pending) :
  ∀ i p, l !! i = Some p →
    reserved (delete i l) = reserved l - QuotaManager.costOf (operationOf p).
Proof.
  induction l as [| q l IH]; intros i p H; [done |].
  destruct i as [| i]; simpl in *.
  - injection H as ->. lia.
  - rewrite (IH i p H). lia.
Qed.

Lemma began_inBounds (tz now : Z) (b b' : t) (waiting begun : list Pending) :
  inBounds (mkMachine b waiting) →
  quiet tz now b b' begun →
  (length (waiting ++ begun) ≤ 1)%nat →
  inBounds (mkMachine b' (waiting ++ begun)).
Proof.
  intros (H0 & H1 & H2) (Hq & He & Ha) Hlen. unfold inBounds in *. simpl in *.
  pose proof (reserved_nonneg waiting) as Hw.
  assert (Hu : 0 ≤ QuotaManager.dailyQuotaUsed (quotaManager b')
               ≤ QuotaManager.dailyQuotaUsed (quotaManager b)).
  { destruct Hq as [E | E]; rewrite E; [lia |].
    destruct (checkQuotaReset_used tz (quotaManager b) now) as [E' | E'];
      rewrite E'; lia. }
  split; [lia |]. split; [| auto].
  destruct begun as [| p begun].
  - rewrite app_nil_r. lia.
  - destruct waiting as [| w waiting]; [| rewrite length_app in Hlen; simpl in Hlen; lia].
    destruct begun; [| simpl in Hlen; lia].
    simpl. specialize (Ha p eq_refl). lia.
Qed.

Lemma step_inBounds (e : Env) (tz : Z) (m : Machine) (task : Task) :
  inBounds m →
  (length (inflight (step e tz m task)) ≤ 1)%nat →
  inBounds (step e tz m task).
Proof.
  intros H Hlen. destruct m as [b waiting].
  destruct task as [now | now | now hour | now hour | now | now | now | now
                    | now | i now answer]; simpl in *.
  - by apply (began_inBounds tz now b); [| apply pollBegins_quiet |].
  - by apply (began_inBounds tz now b); [| apply sendTimerFires_quiet |].
  - by apply (began_inBounds tz now b); [| apply streamCheckBegins_quiet |].
  - by apply (began_inBounds tz now b); [| apply streamCheckBegins_quiet |].
  - exact H.
  - exact H.
  - rewrite <- (app_nil_r waiting).
    apply (began_inBounds tz now b); [done | by apply quiet_reset |].
    by rewrite app_nil_r.
  - exact H.
  - by apply (began_inBounds tz now b); [| apply shutdownBegins_quiet |].
  - destruct (waiting !! i) as [p |] eqn:Ep; [| done].
    destruct (resume e tz b now p answer) as [r |] eqn:Er; [| done].
    destruct (resume_charged e tz b now p answer r Er) as (ok & Hq).
    unfold began in *. simpl in *.
    eapply (began_inBounds tz now); [| exact Hq | exact Hlen].
    destruct H as (H0 & H1 & H2). unfold inBounds. simpl in *.
    destruct (trackApiCall_ledger (quotaManager b) now (operationOf p) ok)
      as [_ Hu].
    rewrite Hu, (reserved_delete waiting i p Ep).
    pose proof (costOf_range (operationOf p)).
    destruct ok; repeat split; lia.
Qed.

Lemma run_inBounds (e : Env) (tz : Z) (tasks : list Task) :
  ∀ m, inBounds m → serialised e tz m tasks = true →
       inBounds (run e tz m tasks).
Proof.
  induction tasks as [| task tasks IH]; intros m H Hs; [done |].
  simpl in Hs. apply andb_prop in Hs as [Hlen Hs].
  apply Nat.leb_le in Hlen.
  unfold run. simpl. apply IH; [| done]. by apply step_inBounds.
Qed.

(** As long as no request is handed to the transport while another one is
    in flight, whatever tasks run on a bot that has just been constructed
    (poll, send and monitoring timers, sweeps, a shutdown signal, answers of
    any kind, chat messages with any analysis), the ledger stays between 0
    and the safe ceiling of 9000 units with room for the request in flight,
    and the error counter never goes below 0: every charge made by the
    service follows its own admission. *)
Theorem ledger_within_ceiling_when_serialised (e : Env) (tz now : Z)
    (limits : RateLimiter.Config) (oauth : bool) (tasks : list Task) :
  serialised e tz (boot tz now limits oauth) tasks = true →
  let m := run e tz (boot tz now limits oauth) tasks in
  0 ≤ QuotaManager.dailyQuotaUsed (quotaManager (bot m)) ∧
  QuotaManager.dailyQuotaUsed (quotaManager (bot m)) + reserved (inflight m)
  ≤ SAFE_QUOTA_LIMIT ∧
  QuotaManager.dailyQuotaUsed (quotaManager (bot m)) ≤ SAFE_QUOTA_LIMIT ∧
  0 ≤ consecutiveErrors (state (bot m)).
Proof.
  intros Hs m.
  assert (H : inBounds m).
  { apply run_inBounds; [| done].
    unfold inBounds, SAFE_QUOTA_LIMIT. simpl. lia. }
  destruct H as (H0 & H1 & H2).
  pose proof (reserved_nonneg (inflight m)).
  repeat split; try done. lia.
Qed.

(** [gracefulShutdown] as one step is its beginning followed by the answer
    to the farewell, when one was sent. *)
Lemma gracefulShutdown_in_two_tasks (tz : Z) (b : t) (now : Z)
    (farewell : InsertOutcome) :
  (gracefulShutdown tz b now farewell).1.1
  = match shutdownBegins tz b now with
    | (b1, [AwaitFarewell]) => farewellAnswered b1 now farewell
    | (b1, _) => b1
    end.
Proof.
  unfold gracefulShutdown, shutdownBegins, beginShutdown, sendMessage,
    farewellAnswered.
  destruct (Js.truthyStr _ && canSendMessages _) eqn:E; [| done].
  apply andb_prop in E as [_ E]. simpl in E. simpl.
  destruct (QuotaManager.canMakeApiCall _ _ _ _) as [ok q1].
  destruct ok; simpl; [| done]. rewrite E. simpl.
  destruct farewell; simpl; done.
Qed.

(** [handleMessageReceived] as one step is the listener run up to its
    [await] and resumed at once. *)
Lemma listener_alone (e : Env) (tz : Z) (b : t) (now : Z)
    (message : IncomingMessage) (o : Oracle) :
  foldl (λ b l, listenerResumes tz b now l)
    (listenerBegins e tz b now message o).1.1
    (listenerBegins e tz b now message o).2
  = (handleMessageReceived e tz b now message o).1.1.
Proof.
  unfold listenerBegins, handleMessageReceived, listenerResumes, respond.
  fold (authorName message). fold (messageText message).
  destruct (String.eqb _ _); [done |].
  destruct (OwnerDetection.isOwnerOrAdmin _ _).
  - destruct (handleAdminCommand _ _ _ _ _ _) as [[adminResponse b1] issued].
    simpl.
    destruct (match adminResponse with Some _ => _ | None => _ end).
    + by destruct (sendResponse tz b1 now).
    + destruct (RateLimiter.canRespond _ _ _) as [verdict limiter].
      destruct (negb _); [done |].
      destruct (shouldRespond _ _); [| done].
      destruct (generated o); [| done].
      destruct (negb _); [| done].
      by destruct (sendResponse _ _ _).
  - simpl.
    destruct (RateLimiter.canRespond _ _ _) as [verdict limiter].
    destruct (negb _); [done |].
    destruct (shouldRespond _ _); [| done].
    destruct (generated o); [| done].
    destruct (negb _); [| done].
    by destruct (sendResponse _ _ _).
Qed.

(** Without that condition the ceiling is passed: on a running bot whose
    ledger stands at 8900 units, a poll timer that fires while the search of
    a stream check is in flight is admitted as well, and the two answers
    take the ledger to 9005. *)
Example poll_during_search_passes_ceiling :
  let m := run Samples.env 0 (mkMachine Samples.busyBot []) Samples.pollDuringSearch in
  serialised Samples.env 0 (mkMachine Samples.busyBot []) Samples.pollDuringSearch
  = false ∧
  inBounds (mkMachine Samples.busyBot []) ∧
  QuotaManager.dailyQuotaUsed (quotaManager (bot m)) = 9005.
Proof.
  split; [vm_compute; reflexivity |]. split; [| vm_compute; reflexivity].
  unfold inBounds. vm_compute. repeat split; discriminate.
Qed.

End LoopFacts.

Module Instances.
Import Constants Bot Session Samples.


(** One more insert fits near the ceiling, a second one does not. *)
Lemma estimate_counts_admissions_witness :
  fst (QuotaManager.canMakeApiCall 0
         (QuotaManager.spend Fixtures.nearCeiling T0 "CHAT_INSERT" 1) T0
         "CHAT_INSERT") = true ↔
  Z.of_nat 1 < QuotaManager.estimateRemainingCalls Fixtures.nearCeiling "CHAT_INSERT".
Proof.
  apply (LedgerFacts.estimate_counts_admissions 0 Fixtures.nearCeiling T0
           "CHAT_INSERT" 1).
  vm_compute. reflexivity.
Defined.

(** Ten seconds after a reply to ana, ana waits and ben is served. *)
Lemma author_cooldown_after_reply_witness :
  fst (RateLimiter.canRespond
         (RateLimiter.recordResponse Fixtures.freshLimiter T0 "ana")
         (T0 + 10000) "ana")
  = RateLimiter.mkVerdict false (Some RateLimiter.user_cooldown) ∧
  fst (RateLimiter.canRespond
         (RateLimiter.recordResponse Fixtures.freshLimiter T0 "ana")
         (T0 + 10000) "ben")
  = RateLimiter.mkVerdict true None.
Proof.
  apply (ThrottleMore.author_cooldown_after_reply Fixtures.freshLimiter T0
           (T0 + 10000) "ana" "ben").
  - vm_compute. discriminate.
  - vm_compute. discriminate.
  - vm_compute. reflexivity.
  - vm_compute. reflexivity.
  - reflexivity.
  - discriminate.
Defined.

(** A sweep after thirty replies. *)
Lemma cleanup_keeps_verdicts_witness :
  fst (RateLimiter.canRespond
         (RateLimiter.cleanup
            (RateLimiter.recordAll Fixtures.freshLimiter Fixtures.thirtyReplies)
            (T0 + 400000))
         (T0 + 500000) "ana")
  = fst (RateLimiter.canRespond
           (RateLimiter.recordAll Fixtures.freshLimiter Fixtures.thirtyReplies)
           (T0 + 500000) "ana").
Proof.
  apply (ThrottleMore.cleanup_keeps_verdicts
           (RateLimiter.recordAll Fixtures.freshLimiter Fixtures.thirtyReplies)
           (T0 + 400000) (T0 + 500000) "ana").
  - vm_compute. discriminate.
  - vm_compute. discriminate.
Defined.

(** The throttle reopens after thirty replies. *)
Lemma throttle_reopens_witness :
  ∃ T, ∀ now userId,
    T ≤ now →
    fst (RateLimiter.canRespond
           (RateLimiter.recordAll Fixtures.freshLimiter Fixtures.thirtyReplies)
           now userId)
    = RateLimiter.mkVerdict true None.
Proof.
  apply (ThrottleMore.throttle_reopens
           (RateLimiter.recordAll Fixtures.freshLimiter Fixtures.thirtyReplies)).
  vm_compute. discriminate.
Defined.

(** Three updates on a fresh context. *)
Lemma histories_keep_most_recent_witness :
  recentEvents (updateAll initializeContext updates)
  = Js.sliceLast 50 (recentEvents initializeContext ++ map asEvent updates) ∧
  messageHistory (updateAll initializeContext updates)
  = Js.sliceLast 100 (messageHistory initializeContext ++ omap asMessage updates).
Proof.
  apply (ContextMore.histories_keep_most_recent initializeContext updates).
  - simpl. lia.
  - simpl. lia.
Defined.

(** The chat is disabled while the bot polls. *)
Lemma terminal_error_ends_session_witness :
  let b := Fixtures.pollingBot in
  let r := pollMessages 0 b (T0 + 1000) (ListErr "The live chat is disabled") None in
  r.2 = [request b; EmitStreamEnded] ∧
  state r.1
  = mkState false (isMonitoring (state b)) None None None 0
            (maxConsecutiveErrors (state b)) (lastResponseTime (state b))
            (startTime (state b)) ∧
  currentGame (context r.1) = None ∧
  gameState (context r.1) = UNKNOWN ∧
  chatMood (context r.1) = NEUTRAL ∧
  messageHistory (context r.1) = messageHistory (context b) ∧
  ∀ later api fw, pollMessages 0 r.1 later api fw = (r.1, []).
Proof.
  apply (PollMore.terminal_error_ends_session 0 Fixtures.pollingBot (T0 + 1000)
           "The live chat is disabled" None).
  - reflexivity.
  - reflexivity.
  - vm_compute. reflexivity.
  - vm_compute. reflexivity.
  - vm_compute. reflexivity.
Defined.

(** The chat is gone at the fifth error in a row. *)
Lemma terminal_error_at_threshold_shuts_down_witness :
  let b := strugglingBot in
  let r := pollMessages 0 b (T0 + 1000) (ListErr "liveChat not found") None in
  isMonitoring (state r.1) = false ∧
  liveChatId (state r.1) = None ∧
  pollTimers r.2 = [] ∧
  (∃ rest, r.2 = request b :: ClearIntervals :: rest ∧
           EmitStreamEnded ∈ rest ∧ SetTimeoutExit 2000 ∈ rest ∧
           (canSendMessages b = true →
            ApiChatInsert (liveChatId (state b)) farewellText ∈ rest)).
Proof.
  apply (PollMore.terminal_error_at_threshold_shuts_down 0 strugglingBot
           (T0 + 1000) "liveChat not found" None).
  - reflexivity.
  - reflexivity.
  - vm_compute. discriminate.
  - vm_compute. reflexivity.
  - vm_compute. discriminate.
Defined.


(** Samantha is taken for the owner sam. *)
Lemma owner_by_name_is_substring_match_witness :
  OwnerDetection.getUserPermissionLevel detector (Some (viewer "Samantha"))
  = OwnerDetection.OWNER ∧
  OwnerDetection.isOwnerOrAdmin detector (Some (viewer "Samantha")) = true.
Proof.
  apply (AuthorityFacts.owner_by_name_is_substring_match detector
           (viewer "Samantha") "sam").
  - apply list_elem_of_In. simpl. tauto.
  - vm_compute. reflexivity.
Defined.

(** Mod_Mia is a moderator, by the whole name. *)
Lemma moderator_by_exact_name_witness :
  (OwnerDetection.getUserPermissionLevel detector (Some (viewer "Mod_Mia"))
   = OwnerDetection.MODERATOR
   ↔ OwnerDetection.lowerName (viewer "Mod_Mia") ∈ OwnerDetection.moderators detector) ∧
  (OwnerDetection.lowerName (viewer "Mod_Mia") ∉ OwnerDetection.moderators detector →
   OwnerDetection.isOwnerOrAdmin detector (Some (viewer "Mod_Mia")) = false).
Proof.
  apply (AuthorityFacts.moderator_by_exact_name detector (viewer "Mod_Mia")).
  - vm_compute. reflexivity.
  - reflexivity.
  - vm_compute. reflexivity.
Defined.

(** Ben writes one second after the reply to ana. *)
Lemma throttled_message_leaves_no_trace_witness :
  let r := handleMessageReceived env 0 coolingBot (T0 + 1000)
             (say (viewer "ben") "hello bot") greetingOracle in
  r.1.2 = [] ∧ r.2 = None ∧
  state r.1.1 = state coolingBot ∧
  context r.1.1 = context coolingBot ∧
  quotaManager r.1.1 = quotaManager coolingBot ∧
  RateLimiter.lastGlobalResponse (rateLimiter r.1.1)
  = RateLimiter.lastGlobalResponse (rateLimiter coolingBot) ∧
  RateLimiter.userResponses (rateLimiter r.1.1)
  = RateLimiter.userResponses (rateLimiter coolingBot).
Proof.
  apply (MessageFacts.throttled_message_leaves_no_trace env 0 coolingBot
           (T0 + 1000) (say (viewer "ben") "hello bot") greetingOracle).
  - vm_compute. discriminate.
  - vm_compute. reflexivity.
  - vm_compute. reflexivity.
Defined.

(** A greeting on an exhausted ledger. *)
Lemma dropped_reply_still_starts_cooldown_witness :
  let r := handleMessageReceived env 0 Fixtures.exhaustedBot (T0 + 1000)
             (say (viewer "ben") "hello bot") greetingOracle in
  r.2 = None ∧ r.1.2 = [] ∧
  RateLimiter.lastGlobalResponse (rateLimiter r.1.1) = T0 + 1000 ∧
  RateLimiter.userResponses (rateLimiter r.1.1)
    !! authorName (say (viewer "ben") "hello bot") = Some (T0 + 1000) ∧
  last (RateLimiter.hourlyResponses (rateLimiter r.1.1)) = Some (T0 + 1000).
Proof.
  apply (MessageFacts.dropped_reply_still_starts_cooldown env 0
           Fixtures.exhaustedBot (T0 + 1000) (say (viewer "ben") "hello bot")
           greetingOracle "Hey there!").
  - vm_compute. discriminate.
  - vm_compute. reflexivity.
  - vm_compute. reflexivity.
  - reflexivity.
  - reflexivity.
  - discriminate.
  - left. vm_compute. reflexivity.
Defined.

(** The moderator pings one second after a reply. *)
Lemma admin_reply_bypasses_throttle_witness :
  let message := say (viewer "Mod_Mia") "  !PING " in
  let r := handleMessageReceived env 0 coolingBot (T0 + 1000) message
             greetingOracle in
  r.2 = Some (AdminReply
                (ReplyPong
                   (OwnerDetection.getUserPermissionLevel (ownerDetection env)
                      (authorDetails message)) (T0 + 1000))) ∧
  rateLimiter r.1.1 = rateLimiter coolingBot ∧
  context r.1.1 = context coolingBot ∧
  state r.1.1 = state coolingBot.
Proof.
  apply (MessageFacts.admin_reply_bypasses_throttle env 0 coolingBot (T0 + 1000)
           (say (viewer "Mod_Mia") "  !PING ") greetingOracle).
  - vm_compute. discriminate.
  - vm_compute. reflexivity.
  - vm_compute. reflexivity.
  - vm_compute. reflexivity.
  - reflexivity.
Defined.

(** A viewer tries to shut the bot down. *)
Lemma commands_need_authority_witness :
  let message := say (viewer "ben") "!shutdown" in
  let r := handleAdminCommand env 0 Fixtures.pollingBot (T0 + 1000)
             "!shutdown" message in
  r.1.2 = Fixtures.pollingBot ∧ r.2 = [] ∧
  match r.1.1 with
  | None | Some (ReplyStatus _) | Some (ReplyPong _ _) | Some (ReplyHelp _)
  | Some ReplyContext => True
  | Some _ => False
  end ∧
  (OwnerDetection.getUserPermissionLevel (ownerDetection env)
     (authorDetails message) ≠ OwnerDetection.MODERATOR →
   r.1.1 = None).
Proof.
  apply (MessageFacts.commands_need_authority env 0 Fixtures.pollingBot
           (T0 + 1000) "!shutdown" (say (viewer "ben") "!shutdown")).
  vm_compute. discriminate.
Defined.

(** The owner speaks through the bot. *)
Lemma say_repeats_in_lower_case_witness :
  let said := Js.substring 5 (Js.trim (Js.toLowerCase "!say Hello World ")) in
  handleAdminCommand env 0 Fixtures.pollingBot (T0 + 1000) "!say Hello World "
    (say ownerAuthor "!say Hello World ")
  = (Some (ReplySay said), Fixtures.pollingBot, []) ∧
  said ≠ "" ∧
  Js.isAscii said = true ∧
  Js.toLowerCase said = said.
Proof.
  apply (CommandFacts.say_repeats_in_lower_case env 0 Fixtures.pollingBot
           (T0 + 1000) "!say Hello World " (say ownerAuthor "!say Hello World ")).
  - vm_compute. reflexivity.
  - vm_compute. reflexivity.
  - vm_compute. reflexivity.
Defined.

(** A round at three in the morning. *)
Lemma tick_gated_by_hours_and_quota_witness :
  monitorTick env 0 Fixtures.pollingBot (probe 3 (SearchOk None))
  = (withQuota Fixtures.pollingBot
       (QuotaManager.checkQuotaReset 0 (quotaManager Fixtures.pollingBot)
          (prNow (probe 3 (SearchOk None)))), []).
Proof.
  apply (MonitorFacts.tick_gated_by_hours_and_quota env 0 Fixtures.pollingBot
           (probe 3 (SearchOk None))).
  right. vm_compute. reflexivity.
Defined.

(** The search fails at the fifth error. *)
Lemma probe_error_never_stops_witness :
  let p := probe 20 (SearchErr "socket hang up") in
  let r := monitorTick env 0 strugglingBot p in
  r.2 = [ApiSearch] ∧
  state r.1
  = setErrors (state strugglingBot) (consecutiveErrors (state strugglingBot) + 1) ∧
  context r.1 = context strugglingBot ∧
  QuotaManager.dailyQuotaUsed (quotaManager r.1)
  = QuotaManager.dailyQuotaUsed
      (QuotaManager.checkQuotaReset 0 (quotaManager strugglingBot) (prNow p)).
Proof.
  apply (MonitorFacts.probe_error_never_stops env 0 strugglingBot
           (probe 20 (SearchErr "socket hang up")) "socket hang up").
  - vm_compute. reflexivity.
  - vm_compute. reflexivity.
  - reflexivity.
Defined.

(** A round while attached to video-1. *)
Lemma tick_on_attached_stream_witness :
  let p := probe 20 (SearchOk (Some ("video-1", "Ranked"))) in
  let r := monitorTick env 0 Fixtures.pollingBot p in
  r.2 = [ApiSearch] ∧
  state r.1 = state Fixtures.pollingBot ∧
  context r.1 = context Fixtures.pollingBot ∧
  rateLimiter r.1 = rateLimiter Fixtures.pollingBot ∧
  QuotaManager.dailyQuotaUsed (quotaManager r.1)
  = QuotaManager.dailyQuotaUsed
      (QuotaManager.checkQuotaReset 0 (quotaManager Fixtures.pollingBot)
         (prNow p)) + 100.
Proof.
  apply (MonitorFacts.tick_on_attached_stream env 0 Fixtures.pollingBot
           (probe 20 (SearchOk (Some ("video-1", "Ranked")))) "video-1" "Ranked").
  - vm_compute. reflexivity.
  - vm_compute. reflexivity.
  - reflexivity.
  - reflexivity.
  - reflexivity.
Defined.

(** The stream has ended when the round comes. *)
Lemma tick_detects_stream_end_witness :
  let b := Fixtures.pollingBot in
  let r := monitorTick env 0 b (probe 20 (SearchOk None)) in
  r.2 = [ApiSearch; EmitStreamEndedByProbe] ∧
  state r.1
  = mkState false (isMonitoring (state b)) None None None 0
            (maxConsecutiveErrors (state b)) (lastResponseTime (state b))
            (startTime (state b)) ∧
  currentGame (context r.1) = None ∧
  ∀ later api fw, pollMessages 0 r.1 later api fw = (r.1, []).
Proof.
  apply (MonitorFacts.tick_detects_stream_end env 0 Fixtures.pollingBot
           (probe 20 (SearchOk None))).
  - vm_compute. reflexivity.
  - vm_compute. reflexivity.
  - reflexivity.
  - reflexivity.
Defined.

(** From the start of monitoring to the owner's shutdown: a search, a video
    request, a poll and the farewell, 156 units in all. *)
Lemma ledger_within_ceiling_when_serialised_witness :
  QuotaManager.dailyQuotaUsed
    (quotaManager
       (Loop.bot
          (Loop.run env 0 (Loop.boot 0 T0 RateLimiter.defaultConfig true)
             shortSession))) = 156 ∧
  (let m :=
     Loop.run env 0 (Loop.boot 0 T0 RateLimiter.defaultConfig true) shortSession in
   0 ≤ QuotaManager.dailyQuotaUsed (quotaManager (Loop.bot m)) ∧
   QuotaManager.dailyQuotaUsed (quotaManager (Loop.bot m))
   + Loop.reserved (Loop.inflight m) ≤ SAFE_QUOTA_LIMIT ∧
   QuotaManager.dailyQuotaUsed (quotaManager (Loop.bot m)) ≤ SAFE_QUOTA_LIMIT ∧
   0 ≤ consecutiveErrors (state (Loop.bot m))).
Proof.
  split; [vm_compute; reflexivity |].
  apply (LoopFacts.ledger_within_ceiling_when_serialised env 0 T0
           RateLimiter.defaultConfig true shortSession).
  vm_compute. reflexivity.
Defined.

End Instances.
